(** * RenderX plugin components: the catalog validator and the React test suite

    A shallow embedding of [scripts/validate-components.js] and
    [tests/react-component.test.js], and the properties of the two scripts
    that the specification of the package states.

    Definitions:
    - [Js]         JSON values as JavaScript sees them after [JSON.parse]:
                   truthiness, [typeof], property access, [includes];
    - [Proc]       a script run: console lines written, then the way it ends;
    - [Fs]         the directory tree, path joining and the [fs] calls used;
    - [Validator]  [getAllJsonFiles], [validatePackage], the report written
                   out as one expression, and catalogs to run it on;
    - [ReactTests] the assertion helpers, the eight checks, [runTests], the
                   entry point, and components to run them on.

    Theorems:
    - values, paths and trees; every discovered path names a file;
    - the validator equals its report ([validatePackage_report],
      [validatePackage_status]); claims C1, C4, C5, C10 on one file, C2, C3
      on the index, C9 on its order;
    - the suite equals its list of lines ([main_report]); claim C6; the
      checks pass exactly on [react_shape] (C8); one field changed (C7);
    - further properties X1 to X20: the checks before the files, the exit
      status of every run of either script, the walk of the directory, the
      index lines, documents that are not objects, the sort, the loaders,
      and the checks field by field. *)

From Stdlib Require Import String Ascii List Bool Arith ZArith QArith Lia Permutation.
Import ListNotations.
Local Open Scope string_scope.
Local Open Scope list_scope.
Set Warnings "-register-all".

(* ================================================================== *)
(** ** JavaScript values read from JSON *)
(* ================================================================== *)

Module Js.

(** A value produced by [JSON.parse].  A number is kept as a rational: the
    scripts only ever ask whether it is zero and what its [typeof] is.  An
    object is the list of its own properties, one binding per key (the
    parser has already resolved repeated keys). *)
Inductive json : Type :=
| JNull
| JBool (b : bool)
| JNum (q : Q)
| JStr (s : string)
| JArr (items : list json)
| JObj (fields : list (string * json)).

(** What an expression evaluates to: [None] is [undefined]. *)
Definition value : Type := option json.

(** What can be thrown.  [Failure] is the [Error] an assertion helper or a
    loader raises; it carries the text that tells the errors apart: the
    message argument of the helper, the fixed text of the loader (the
    scripts put a cross mark before it, and two helpers the expected and
    actual values after it). *)
Inductive error : Type :=
| SyntaxError
| TypeError
| FsError
| Failure (msg : string).

Inductive result (A : Type) : Type :=
| Ok (a : A)
| Throw (e : error).
Arguments Ok {A} a.
Arguments Throw {A} e.

Fixpoint assoc (k : string) (fields : list (string * json)) : value :=
  match fields with
  | [] => None
  | (k', v) :: rest => if k' =? k then Some v else assoc k rest
  end.

(** [v.k] for the property names the scripts use.  None of them lives on a
    prototype, so on a string, number, boolean or array the read gives
    [undefined]; on [null] and [undefined] it throws. *)
Definition get (v : value) (k : string) : result value :=
  match v with
  | None => Throw TypeError
  | Some JNull => Throw TypeError
  | Some (JObj fields) => Ok (assoc k fields)
  | Some _ => Ok None
  end.

(** [!!v] *)
Definition truthy (v : value) : bool :=
  match v with
  | None => false
  | Some JNull => false
  | Some (JBool b) => b
  | Some (JNum q) => negb (Qnum q =? 0)%Z
  | Some (JStr s) => negb (s =? "")
  | Some (JArr _) => true
  | Some (JObj _) => true
  end.

(** [typeof v] *)
Definition typeof (v : value) : string :=
  match v with
  | None => "undefined"
  | Some JNull => "object"
  | Some (JBool _) => "boolean"
  | Some (JNum _) => "number"
  | Some (JStr _) => "string"
  | Some (JArr _) => "object"
  | Some (JObj _) => "object"
  end.

(** [Array.isArray(v)] *)
Definition isArray (v : value) : bool :=
  match v with
  | Some (JArr _) => true
  | _ => false
  end.

(** [[...v]] once [Array.isArray(v)] holds. *)
Definition spread (v : value) : list json :=
  match v with
  | Some (JArr items) => items
  | _ => []
  end.

(** [v === s] for a string literal [s]. *)
Definition is_string (s : string) (j : json) : bool :=
  match j with
  | JStr s' => s' =? s
  | _ => false
  end.

Definition strict_eq_string (v : value) (s : string) : bool :=
  match v with
  | Some j => is_string s j
  | None => false
  end.

(** [v === undefined || v === null] *)
Definition nullish (v : value) : bool :=
  match v with
  | None => true
  | Some JNull => true
  | Some _ => false
  end.

(** Whether the conversion of a value to a string returns.  An object is
    converted by its [toString]: the one of [Object.prototype], unless the
    object has a key of that name of its own, and what JSON binds to it is
    never a function, so that the conversion throws a [TypeError].  An array
    is converted by joining the conversions of its entries. *)
Fixpoint stringable (j : json) : bool :=
  match j with
  | JObj fields =>
      match assoc "toString" fields with
      | Some _ => false
      | None => true
      end
  | JArr items => forallb stringable items
  | _ => true
  end.

(** [`${v}`] returns; [undefined] is converted to a word. *)
Definition converts (v : value) : bool :=
  match v with
  | Some j => stringable j
  | None => true
  end.

(** [entries.sort()] throws.  The default comparison converts both values it
    is given to strings, and a sort of two entries or more compares every
    one of them; nothing is compared in a shorter array. *)
Definition sort_throws (entries : list json) : bool :=
  (1 <? length entries)%nat && negb (forallb stringable entries).

(** [s.endsWith(suffix)] *)
Fixpoint endsWith (s suffix : string) : bool :=
  (s =? suffix) ||
  match s with
  | EmptyString => false
  | String _ rest => endsWith rest suffix
  end.

(** [s.includes(needle)] on strings. *)
Fixpoint str_includes (s needle : string) : bool :=
  String.prefix needle s ||
  match s with
  | EmptyString => false
  | String _ rest => str_includes rest needle
  end.

(** [items.includes(s)] on an array of values, [s] a string. *)
Definition arr_includes (items : list json) (s : string) : bool :=
  existsb (is_string s) items.

(** [names.includes(j)] on an array of strings, [j] any value. *)
Definition names_include (names : list string) (j : json) : bool :=
  match j with
  | JStr s => existsb (String.eqb s) names
  | _ => false
  end.

(** The method call [v.includes(s)]: [String.prototype.includes] on a
    string, [Array.prototype.includes] on an array.  On anything else the
    callee is [undefined] or a JSON value, never a function, and the call
    throws. *)
Definition includes (v : value) (s : string) : result bool :=
  match v with
  | Some (JStr t) => Ok (str_includes t s)
  | Some (JArr items) => Ok (arr_includes items s)
  | _ => Throw TypeError
  end.

(** [JSON.parse] applied to a file's text.  The text is represented by what
    the parser makes of it: [None] when it is not JSON. *)
Definition text : Type := option json.

Definition JSON_parse (t : text) : result json :=
  match t with
  | Some j => Ok j
  | None => Throw SyntaxError
  end.

Definition rbind {A B} (r : result A) (k : A -> result B) : result B :=
  match r with
  | Ok a => k a
  | Throw e => Throw e
  end.

Declare Scope result_scope.
Delimit Scope result_scope with result.
Notation "x <- r ;; k" := (rbind r (fun x => k))
  (at level 61, r at next level, right associativity) : result_scope.
Notation "r ;; k" := (rbind r (fun _ => k))
  (at level 61, right associativity) : result_scope.

(** A chain of property reads [v.k1.k2...]. *)
Fixpoint access (v : value) (path : list string) : result value :=
  match path with
  | [] => Ok v
  | k :: rest => rbind (get v k) (fun v' => access v' rest)
  end.

(** Own-property lookup along a path, without the throwing cases: what the
    specification calls a field being present. *)
Fixpoint get_path (j : json) (path : list string) : value :=
  match path with
  | [] => Some j
  | k :: rest =>
      match j with
      | JObj fields =>
          match assoc k fields with
          | Some j' => get_path j' rest
          | None => None
          end
      | _ => None
      end
  end.

(** [q] is a path that stops before [p] does. *)
Fixpoint strict_prefix (q p : list string) : bool :=
  match q, p with
  | [], _ :: _ => true
  | k :: q', k' :: p' => (k =? k') && strict_prefix q' p'
  | _, [] => false
  end.

Definition has_key (j : json) (k : string) : bool :=
  match get_path j [k] with
  | Some _ => true
  | None => false
  end.

(** [obj.k = v] on the property list of an object: an existing binding takes
    the new value in place, a new key goes last. *)
Fixpoint set_field (k : string) (v : json) (fields : list (string * json))
    : list (string * json) :=
  match fields with
  | [] => [(k, v)]
  | (k', v') :: rest =>
      if k' =? k then (k', v) :: rest else (k', v') :: set_field k v rest
  end.

(** A document edited at one field: the value at [path] becomes [v], nothing
    else changes.  The edit needs the objects on the way to exist. *)
Fixpoint set_path (j : json) (path : list string) (v : json) : json :=
  match path with
  | [] => v
  | k :: rest =>
      match j with
      | JObj fields =>
          match rest, assoc k fields with
          | [], _ => JObj (set_field k v fields)
          | _ :: _, Some j' => JObj (set_field k (set_path j' rest v) fields)
          | _ :: _, None => j
          end
      | _ => j
      end
  end.

End Js.

(* ================================================================== *)
(** ** A script run *)
(* ================================================================== *)

Module Proc.
Import Js.

(** How a piece of script ends: it falls through with a value, calls
    [process.exit], or throws. *)
Inductive outcome (A : Type) : Type :=
| Next (a : A)
| Exit (code : Z)
| Raise (e : error).
Arguments Next {A} a.
Arguments Exit {A} code.
Arguments Raise {A} e.

Section Script.
(** The console lines of the script at hand. *)
Context {message : Type}.

(** The lines written so far, oldest first, and the outcome. *)
Definition M (A : Type) : Type := list message * outcome A.

Definition ret {A} (a : A) : M A := ([], Next a).

Definition bind {A B} (m : M A) (k : A -> M B) : M B :=
  match m with
  | (out, Next a) => let (out', r) := k a in (out ++ out', r)
  | (out, Exit c) => (out, Exit c)
  | (out, Raise e) => (out, Raise e)
  end.

Definition print (m : message) : M unit := ([m], Next tt).

Definition exit {A} (code : Z) : M A := ([], Exit code).

Definition lift {A} (r : result A) : M A :=
  match r with
  | Ok a => ret a
  | Throw e => ([], Raise e)
  end.

(** [try { body } catch (error) { handler }] *)
Definition try_catch {A} (body : M A) (handler : error -> M A) : M A :=
  match body with
  | (out, Raise e) => let (out', r) := handler e in (out ++ out', r)
  | _ => body
  end.

(** [for (const x of xs) { ... }] over a variable the body updates. *)
Fixpoint for_each {A S} (xs : list A) (s : S) (body : A -> S -> M S) : M S :=
  match xs with
  | [] => ret s
  | x :: rest => bind (body x s) (fun s' => for_each rest s' body)
  end.

Definition output {A} (m : M A) : list message := fst m.

(** The exit status of the process: 0 when the script runs to its end,
    the argument of [process.exit], 1 on an uncaught exception. *)
Definition status {A} (m : M A) : Z :=
  match snd m with
  | Next _ => 0
  | Exit c => c
  | Raise _ => 1
  end.
End Script.

Declare Scope script_scope.
Delimit Scope script_scope with script.
Notation "x <- m ;; k" := (bind m (fun x => k))
  (at level 61, m at next level, right associativity) : script_scope.
Notation "m ;; k" := (bind m (fun _ => k))
  (at level 61, right associativity) : script_scope.

End Proc.

(* ================================================================== *)
(** ** The file system *)
(* ================================================================== *)

Module Fs.
Import Js.

(** A directory lists its entries in the order [readdirSync] returns
    them. *)
Inductive node : Type :=
| File (content : text)
| Dir (entries : list (string * node)).

Definition listing : Type := list (string * node).

Definition sep : ascii := "/"%char.
Definition backslash : ascii := "\"%char.

(** The segments of a path, split at every [/]. *)
Fixpoint split_path (p : string) : list string :=
  match p with
  | EmptyString => [EmptyString]
  | String c rest =>
      if Ascii.eqb c sep then EmptyString :: split_path rest
      else match split_path rest with
           | [] => [String c EmptyString]
           | seg :: segs => String c seg :: segs
           end
  end.

(** Path normalisation as [path.join] and the operating system do it:
    empty and [.] segments vanish, [..] cancels the segment before it.
    [acc] holds the segments kept so far, last first. *)
Fixpoint normalize_acc (acc segs : list string) : list string :=
  match segs with
  | [] => rev acc
  | seg :: rest =>
      if (seg =? "") || (seg =? ".") then normalize_acc acc rest
      else if seg =? ".." then
        match acc with
        | prev :: acc' =>
            if prev =? ".." then normalize_acc (seg :: acc) rest
            else normalize_acc acc' rest
        | [] => normalize_acc [seg] rest
        end
      else normalize_acc (seg :: acc) rest
  end.

Definition normalize (segs : list string) : list string :=
  normalize_acc [] segs.

(** [path.join(a, b)] *)
Definition path_join (a b : string) : string := a ++ "/" ++ b.

Fixpoint find_entry (name : string) (entries : listing) : option node :=
  match entries with
  | [] => None
  | (name', n) :: rest => if name' =? name then Some n else find_entry name rest
  end.

Fixpoint walk (n : node) (segs : list string) : option node :=
  match segs with
  | [] => Some n
  | seg :: rest =>
      match n with
      | Dir entries =>
          match find_entry seg entries with
          | Some child => walk child rest
          | None => None
          end
      | File _ => None
      end
  end.

(** The node a path names, relative to the working directory [cwd]. *)
Definition resolve (cwd : listing) (p : string) : option node :=
  walk (Dir cwd) (normalize (split_path p)).

(** [fs.existsSync(p)] *)
Definition existsSync (cwd : listing) (p : string) : bool :=
  match resolve cwd p with
  | Some _ => true
  | None => false
  end.

(** [fs.readFileSync(p, 'utf8')] *)
Definition readFileSync (cwd : listing) (p : string) : result text :=
  match resolve cwd p with
  | Some (File content) => Ok content
  | _ => Throw FsError
  end.

(** [fs.readdirSync(p)], each name with the node [fs.statSync] finds
    under it. *)
Definition readdirSync (cwd : listing) (p : string) : result listing :=
  match resolve cwd p with
  | Some (Dir entries) => Ok entries
  | _ => Throw FsError
  end.

(** [p.replace(/\\/g, '/')] *)
Fixpoint replace_backslashes (p : string) : string :=
  match p with
  | EmptyString => EmptyString
  | String c rest =>
      String (if Ascii.eqb c backslash then sep else c) (replace_backslashes rest)
  end.

(** *** Trees as a file system holds them

    A name is one path segment: not empty, not [.] or [..], and free of
    both separators the script knows ([/], and the backslash it rewrites to
    [/]); the names of a directory are distinct. *)
Fixpoint contains (c : ascii) (s : string) : bool :=
  match s with
  | EmptyString => false
  | String c' rest => Ascii.eqb c' c || contains c rest
  end.

Definition name_ok (name : string) : bool :=
  negb (name =? "") && negb (name =? ".") && negb (name =? "..")
  && negb (contains sep name) && negb (contains backslash name).

Fixpoint unique_names (names : list string) : bool :=
  match names with
  | [] => true
  | name :: rest => negb (existsb (String.eqb name) rest) && unique_names rest
  end.

Fixpoint well_formed (n : node) : bool :=
  match n with
  | File _ => true
  | Dir entries =>
      unique_names (map fst entries) &&
      (fix all (entries : listing) : bool :=
         match entries with
         | [] => true
         | (name, child) :: rest => name_ok name && well_formed child && all rest
         end) entries
  end.

(** The segments of a relative path, joined by [/]. *)
Fixpoint join_segs (segs : list string) : string :=
  match segs with
  | [] => EmptyString
  | [seg] => seg
  | seg :: rest => seg ++ "/" ++ join_segs rest
  end.

(** *** Editing a file between two runs

    The scripts never write; a person does.  [write_file n segs c] is the
    tree [n] with the content of the file at [segs] replaced by [c]. *)
Fixpoint write_file (n : node) (segs : list string) (c : text) : node :=
  match segs with
  | [] =>
      match n with
      | File _ => File c
      | Dir _ => n
      end
  | seg :: rest =>
      match n with
      | Dir entries =>
          Dir ((fix update (entries : listing) : listing :=
                  match entries with
                  | [] => []
                  | (name, child) :: others =>
                      if name =? seg
                      then (name, write_file child rest c) :: others
                      else (name, child) :: update others
                  end) entries)
      | File _ => n
      end
  end.

Definition edit (cwd : listing) (p : string) (c : text) : listing :=
  match write_file (Dir cwd) (normalize (split_path p)) c with
  | Dir entries => entries
  | File _ => cwd
  end.

(** Two trees of the same shape whose files correspond by [R]. *)
Inductive alike (R : text -> text -> Prop) : node -> node -> Prop :=
| alike_file c c' : R c c' -> alike R (File c) (File c')
| alike_nil : alike R (Dir []) (Dir [])
| alike_cons name child child' rest rest' :
    alike R child child' ->
    alike R (Dir rest) (Dir rest') ->
    alike R (Dir ((name, child) :: rest)) (Dir ((name, child') :: rest')).

Definition alike_option (R : text -> text -> Prop) (o o' : option node) : Prop :=
  match o, o' with
  | Some n, Some n' => alike R n n'
  | None, None => True
  | _, _ => False
  end.

(** Induction over a tree, a directory taken one entry at a time. *)
Fixpoint node_entries_ind (P : node -> Prop)
    (Hfile : forall c, P (File c))
    (Hnil : P (Dir []))
    (Hcons : forall name child rest,
        P child -> P (Dir rest) -> P (Dir ((name, child) :: rest)))
    (n : node) : P n :=
  match n with
  | File c => Hfile c
  | Dir entries =>
      (fix go (entries : listing) : P (Dir entries) :=
         match entries with
         | [] => Hnil
         | (name, child) :: rest =>
             Hcons name child rest
                   (node_entries_ind P Hfile Hnil Hcons child) (go rest)
         end) entries
  end.

End Fs.


(* ================================================================== *)
(** ** scripts/validate-components.js *)
(* ================================================================== *)

Module Validator.
Import Js Proc Fs.
Local Open Scope script_scope.

(** [Array.prototype.sort()] with the default comparison, where it returns.
    The script sorts two arrays and only ever tests membership in the
    results and prints them, so the order JavaScript gives to mixed values
    is left open: a sort that returns, returns its argument rearranged.
    The sort of file names always returns; the sort of the entries of the
    index is [sort_entries] below, which throws where the comparison
    does. *)
Class ArraySort : Type := {
  sort_names : list string -> list string;
  sort_values : list json -> list json
}.

Class ArraySortLaws (array_sort : ArraySort) : Prop := {
  sort_names_perm : forall l, Permutation (sort_names l) l;
  sort_values_perm : forall l, Permutation (sort_values l) l
}.

(** The console lines of the validator, one constructor per call site. *)
Inductive message : Type :=
| LogValidating
| ErrDirNotFound
| ErrIndexNotFound
| LogIndexValid
| ErrIndexInvalidJson (e : error)
| ErrIndexMissingVersion
| ErrIndexComponents
| LogFound (n : nat)
| LogDeclares (n : nat)
| WarnNotListed (files : list string)
| WarnAddToIndex
| ErrStale (entries : list json)
| LogSkipping (componentFile : string)
| ErrMissingField (componentFile field : string)
| ErrInvalidJson (componentFile : string) (e : error)
| ErrValidationFailed
| LogAllPassed
| LogReady (componentCount : nat).

(** [console.log], [console.warn] or [console.error]. *)
Inductive level : Type := Info | Warning | Error.

Definition level_of (m : message) : level :=
  match m with
  | LogValidating | LogIndexValid | LogFound _ | LogDeclares _
  | LogSkipping _ | LogAllPassed | LogReady _ => Info
  | WarnNotListed _ | WarnAddToIndex => Warning
  | ErrDirNotFound | ErrIndexNotFound | ErrIndexInvalidJson _
  | ErrIndexMissingVersion | ErrIndexComponents | ErrStale _
  | ErrMissingField _ _ | ErrInvalidJson _ _ | ErrValidationFailed => Error
  end.

Definition is_error (m : message) : bool :=
  match level_of m with
  | Error => true
  | _ => false
  end.

Definition COMPONENTS_DIR : string := "json-components".
Definition INDEX_FILE : string := path_join COMPONENTS_DIR "index.json".

(** [getAllJsonFiles(dir, basePath)], on the node the path [dir] names.
    The inner loop runs over [fs.readdirSync(dir)]; [child] is what
    [fs.statSync(fullPath)] finds, and a name joins a base path with one
    [/] since it is a single segment. *)
Fixpoint getAllJsonFiles (dir : node) (basePath : string) : list string :=
  match dir with
  | File _ => []
  | Dir items =>
      (fix each (items : listing) : list string :=
         match items with
         | [] => []
         | (item, child) :: rest =>
             let relativePath :=
               if basePath =? "" then item else path_join basePath item in
             match child with
             | Dir _ => getAllJsonFiles child relativePath
             | File _ =>
                 if endsWith item ".json" && negb (item =? "index.json")
                 then [replace_backslashes relativePath]
                 else []
             end ++ each rest
         end) items
  end.

(** The body of the loop over [actualFiles]; [hasErrors] goes in and comes
    out.  [componentData.definitions] is read whether or not [topics] is
    truthy: once [componentData.topics] has not thrown the read cannot
    throw, so the short cut of [||] is not seen. *)
Definition validateComponent (cwd : listing) (componentFile : string)
    (hasErrors : bool) : M bool :=
  let filePath := path_join COMPONENTS_DIR componentFile in
  try_catch
    (content <- lift (readFileSync cwd filePath) ;;
     componentData <- lift (JSON_parse content) ;;
     topics <- lift (get (Some componentData) "topics") ;;
     definitions <- lift (get (Some componentData) "definitions") ;;
     if truthy topics || truthy definitions then
       print (LogSkipping componentFile) ;;
       ret hasErrors
     else
       metadata <- lift (get (Some componentData) "metadata") ;;
       hasErrors <-
         (if negb (truthy metadata) then
            print (ErrMissingField componentFile "metadata") ;;
            ret true
          else
            type <- lift (get metadata "type") ;;
            hasErrors <-
              (if negb (truthy type) then
                 print (ErrMissingField componentFile "metadata.type") ;;
                 ret true
               else ret hasErrors) ;;
            name <- lift (get metadata "name") ;;
            if negb (truthy name) then
              print (ErrMissingField componentFile "metadata.name") ;;
              ret true
            else ret hasErrors) ;;
       ui <- lift (get (Some componentData) "ui") ;;
       hasErrors <-
         (if negb (truthy ui) then
            print (ErrMissingField componentFile "ui") ;;
            ret true
          else
            template <- lift (get ui "template") ;;
            if negb (truthy template) then
              print (ErrMissingField componentFile "ui.template") ;;
              ret true
            else ret hasErrors) ;;
       integration <- lift (get (Some componentData) "integration") ;;
       if negb (truthy integration) then
         print (ErrMissingField componentFile "integration") ;;
         ret true
       else ret hasErrors)
    (fun e =>
       print (ErrInvalidJson componentFile e) ;;
       ret true).

(** The body of the final counting loop. *)
Definition countComponent (cwd : listing) (file : string)
    (componentCount : nat) : M (message := message) nat :=
  let filePath := path_join COMPONENTS_DIR file in
  content <- lift (readFileSync cwd filePath) ;;
  data <- lift (JSON_parse content) ;;
  topics <- lift (get (Some data) "topics") ;;
  definitions <- lift (get (Some data) "definitions") ;;
  if negb (truthy topics) && negb (truthy definitions)
  then ret (S componentCount)
  else ret componentCount.

Section Run.
Context {array_sort : ArraySort}.

(** [[...entries].sort()] *)
Definition sort_entries (entries : list json) : result (list json) :=
  if sort_throws entries then Throw TypeError
  else Ok (sort_values entries).

Definition validatePackage (cwd : listing) : M unit :=
  print LogValidating ;;
  let hasErrors := false in
  hasErrors <-
    (if negb (existsSync cwd COMPONENTS_DIR) then
       print ErrDirNotFound ;; ret true
     else ret hasErrors) ;;
  hasErrors <-
    (if negb (existsSync cwd INDEX_FILE) then
       print ErrIndexNotFound ;; ret true
     else ret hasErrors) ;;
  (if hasErrors : bool then exit 1 else ret tt) ;;
  indexData <-
    try_catch
      (indexContent <- lift (readFileSync cwd INDEX_FILE) ;;
       indexData <- lift (JSON_parse indexContent) ;;
       print LogIndexValid ;;
       ret indexData)
      (fun e => print (ErrIndexInvalidJson e) ;; exit 1) ;;
  version <- lift (get (Some indexData) "version") ;;
  hasErrors <-
    (if negb (truthy version) then
       print ErrIndexMissingVersion ;; ret true
     else ret hasErrors) ;;
  components <- lift (get (Some indexData) "components") ;;
  hasErrors <-
    (if negb (isArray components) then
       print ErrIndexComponents ;; ret true
     else ret hasErrors) ;;
  (if hasErrors : bool then exit 1 else ret tt) ;;
  items <- lift (readdirSync cwd COMPONENTS_DIR) ;;
  let actualFiles := sort_names (getAllJsonFiles (Dir items) "") in
  declaredFiles <- lift (sort_entries (spread components)) ;;
  print (LogFound (length actualFiles)) ;;
  print (LogDeclares (length declaredFiles)) ;;
  let missingFromIndex :=
    filter (fun file => negb (arr_includes declaredFiles file)) actualFiles in
  (if (0 <? length missingFromIndex)%nat then
     print (WarnNotListed missingFromIndex) ;;
     print WarnAddToIndex
   else ret tt) ;;
  let staleInIndex :=
    filter (fun file => negb (names_include actualFiles file)) declaredFiles in
  hasErrors <-
    (if (0 <? length staleInIndex)%nat then
       print (ErrStale staleInIndex) ;; ret true
     else ret hasErrors) ;;
  hasErrors <- for_each actualFiles hasErrors (validateComponent cwd) ;;
  (if hasErrors : bool then
     print ErrValidationFailed ;; exit 1
   else ret tt) ;;
  print LogAllPassed ;;
  componentCount <- for_each actualFiles 0%nat (countComponent cwd) ;;
  print (LogReady componentCount).

End Run.

(** *** What the run amounts to

    The notions the specification uses, and the report of the validator
    written out as one expression; [validatePackage] is proved equal to it
    below, for an index whose entries can be sorted. *)

(** The document a discovered file holds, read the way the script reads it. *)
Definition componentData (cwd : listing) (componentFile : string) : result json :=
  rbind (readFileSync cwd (path_join COMPONENTS_DIR componentFile)) JSON_parse.

(** The test the script makes to skip a file. *)
Definition is_topic_document (d : json) : bool :=
  truthy (get_path d ["topics"]) || truthy (get_path d ["definitions"]).

Definition required_fields : list (list string) :=
  [ ["metadata"]; ["metadata"; "type"]; ["metadata"; "name"];
    ["ui"]; ["ui"; "template"]; ["integration"] ].

(** [metadata.type] for [["metadata"; "type"]]. *)
Fixpoint dotted (path : list string) : string :=
  match path with
  | [] => EmptyString
  | [k] => k
  | k :: rest => k ++ "." ++ dotted rest
  end.

(** The field under which a missing required field is reported: the field
    itself, or the field around it when that one holds nothing truthy. *)
Definition reported_as (d : json) (path : list string) : list string :=
  match path with
  | [outer; _] => if truthy (get_path d [outer]) then path else [outer]
  | _ => path
  end.

(** A required field draws an error line when it is falsy and, for a nested
    field, the field around it is truthy. *)
Definition flagged (d : json) (path : list string) : bool :=
  negb (truthy (get_path d path)) &&
  match path with
  | [outer; _] => truthy (get_path d [outer])
  | _ => true
  end.

(** A component document that passes: every required field holds a truthy
    value. *)
Definition complete (d : json) : bool :=
  forallb (fun path => truthy (get_path d path)) required_fields.

(** The discovered file a line is about. *)
Definition about (m : message) : option string :=
  match m with
  | LogSkipping f | ErrMissingField f _ | ErrInvalidJson f _ => Some f
  | _ => None
  end.


(** A document the validator accepts. *)
Definition valid_document (d : json) : bool :=
  is_topic_document d || complete d.

(** Two texts that are the same, or hold the same object but for the order
    of the entries of its [components] array. *)
Definition same_but_order (c c' : text) : Prop :=
  c = c' \/
  exists fields entries entries',
    c = Some (JObj fields)
    /\ c' = Some (JObj (set_field "components" (JArr entries') fields))
    /\ assoc "components" fields = Some (JArr entries)
    /\ Permutation entries entries'.

(** Two documents the validator cannot tell apart other than by their
    [components]. *)
Definition agree (d d' : json) : Prop :=
  (d = JNull <-> d' = JNull)
  /\ forall k rest, k <> "components" ->
       get_path d (k :: rest) = get_path d' (k :: rest).

(** The lines one discovered file adds to the report. *)
Definition file_report (cwd : listing) (componentFile : string) : list message :=
  match componentData cwd componentFile with
  | Throw e => [ErrInvalidJson componentFile e]
  | Ok JNull => [ErrInvalidJson componentFile TypeError]
  | Ok d =>
      if is_topic_document d then [LogSkipping componentFile]
      else map (fun path => ErrMissingField componentFile (dotted path))
               (filter (flagged d) required_fields)
  end.

Definition file_fails (cwd : listing) (componentFile : string) : bool :=
  existsb is_error (file_report cwd componentFile).

(** A discovered file that is counted in the closing line. *)
Definition counts (cwd : listing) (file : string) : bool :=
  match componentData cwd file with
  | Ok d => negb (is_topic_document d)
  | Throw _ => false
  end.

(** The index document, when the run gets past its first checks. *)
Definition checked_index (cwd : listing) : option json :=
  match readFileSync cwd INDEX_FILE with
  | Ok (Some indexData) =>
      if truthy (get_path indexData ["version"])
         && isArray (get_path indexData ["components"])
      then Some indexData
      else None
  | _ => None
  end.

(** The entries of the index can be sorted: the run gets past the sort of
    the declared files. *)
Definition sortable (indexData : json) : bool :=
  negb (sort_throws (spread (get_path indexData ["components"]))).

Section Report.
Context {array_sort : ArraySort}.

Definition actualFiles (items : listing) : list string :=
  sort_names (getAllJsonFiles (Dir items) EmptyString).

(** The declared files once sorted, for an index that is [sortable]. *)
Definition declaredFiles (indexData : json) : list json :=
  sort_values (spread (get_path indexData ["components"])).

Definition missingFromIndex (items : listing) (indexData : json) : list string :=
  filter (fun file => negb (arr_includes (declaredFiles indexData) file))
         (actualFiles items).

Definition staleInIndex (items : listing) (indexData : json) : list json :=
  filter (fun file => negb (names_include (actualFiles items) file))
         (declaredFiles indexData).

Definition failed (cwd items : listing) (indexData : json) : bool :=
  (0 <? length (staleInIndex items indexData))%nat
  || existsb (file_fails cwd) (actualFiles items).

Definition report (cwd items : listing) (indexData : json) : list message :=
  [ LogValidating; LogIndexValid;
    LogFound (length (actualFiles items));
    LogDeclares (length (declaredFiles indexData)) ]
  ++ (if (0 <? length (missingFromIndex items indexData))%nat
      then [WarnNotListed (missingFromIndex items indexData); WarnAddToIndex]
      else [])
  ++ (if (0 <? length (staleInIndex items indexData))%nat
      then [ErrStale (staleInIndex items indexData)]
      else [])
  ++ flat_map (file_report cwd) (actualFiles items)
  ++ (if failed cwd items indexData
      then [ErrValidationFailed]
      else [LogAllPassed;
            LogReady (length (filter (counts cwd) (actualFiles items)))]).

End Report.

(** *** A sort to run examples with

    Insertion sort in byte order, non-strings by a fixed key.  It orders the
    arrays of ASCII path strings a catalog holds the way JavaScript does. *)
Fixpoint insert_by {A : Type} (key : A -> string) (x : A) (l : list A) : list A :=
  match l with
  | [] => [x]
  | y :: rest =>
      if String.leb (key x) (key y) then x :: l
      else y :: insert_by key x rest
  end.

Definition sort_by {A : Type} (key : A -> string) (l : list A) : list A :=
  fold_right (insert_by key) [] l.

Definition sort_key (j : json) : string :=
  match j with
  | JStr s => s
  | JNull => "null"
  | JBool true => "true"
  | JBool false => "false"
  | JNum _ => "0"
  | JArr _ => EmptyString
  | JObj _ => "[object Object]"
  end.

Definition byte_order : ArraySort :=
  {| sort_names := sort_by (fun s => s);
     sort_values := sort_by sort_key |}.

(** *** Catalogs to run the validator on *)

Definition button_component : json :=
  JObj [ ("metadata", JObj [("type", JStr "button"); ("name", JStr "Button")]);
         ("ui", JObj [("template", JObj [("tag", JStr "button")])]);
         ("integration", JObj [("events", JObj [])]) ].

(** No [metadata] at all. *)
Definition headless_component : json :=
  JObj [ ("ui", JObj [("template", JObj [("tag", JStr "div")])]);
         ("integration", JObj []) ].


Definition topics_document : json :=
  JObj [ ("version", JStr "1.0.0");
         ("topics", JObj [("canvas.component.create", JObj [])]) ].

(** A [topics] key that holds [null]. *)
Definition null_topics_document : json :=
  JObj [ ("topics", JNull) ].

Definition index_of (components : list string) : json :=
  JObj [ ("version", JStr "1.0.0"); ("components", JArr (map JStr components)) ].

Definition catalog (indexData : json) (files : listing) : listing :=
  [ ("package.json", File (Some (JObj [("name", JStr "@renderx-plugins/components")])));
    ("json-components", Dir (("index.json", File (Some indexData)) :: files)) ].

(** What [fs.readdirSync] lists in the components directory. *)
Definition components_of (cwd : listing) : listing :=
  match readdirSync cwd COMPONENTS_DIR with
  | Ok items => items
  | Throw _ => []
  end.

Definition sound_catalog : listing :=
  catalog (index_of ["button.json"; "topics/canvas.json"])
    [ ("button.json", File (Some button_component));
      ("topics", Dir [("canvas.json", File (Some topics_document))]) ].

(** [extra.json] is on disk and not in the index. *)
Definition undeclared_catalog : listing :=
  catalog (index_of ["button.json"])
    [ ("button.json", File (Some button_component));
      ("extra.json", File (Some button_component)) ].

(** [gone.json] is in the index and not on disk. *)
Definition stale_catalog : listing :=
  catalog (index_of ["button.json"; "gone.json"])
    [ ("button.json", File (Some button_component)) ].

Definition headless_catalog : listing :=
  catalog (index_of ["button.json"; "panel.json"])
    [ ("button.json", File (Some button_component));
      ("panel.json", File (Some headless_component)) ].


Definition null_topics_catalog : listing :=
  catalog (index_of ["button.json"; "notes.json"])
    [ ("button.json", File (Some button_component));
      ("notes.json", File (Some null_topics_document)) ].



(** *** Notions for the further properties *)

(** The test [getAllJsonFiles] makes on the name of a file. *)
Definition listed_name (item : string) : bool :=
  endsWith item ".json" && negb (item =? "index.json").

(** A line that says a file was skipped. *)
Definition is_skip (m : message) : bool :=
  match m with
  | LogSkipping _ => true
  | _ => false
  end.

(** A components directory whose index is not JSON. *)
Definition garbled_index_catalog : listing :=
  [ ("json-components",
     Dir [ ("index.json", File None);
           ("button.json", File (Some button_component)) ]) ].

(** The index holds [null]. *)
Definition null_index_catalog : listing :=
  catalog JNull [ ("button.json", File (Some button_component)) ].

(** The index holds an object with neither [version] nor [components]. *)
Definition empty_index_catalog : listing :=
  catalog (JObj []) [ ("button.json", File (Some button_component)) ].

(** An entry of the index is an object with a [toString] key of its own;
    [extra.json] is not in the index, [broken.json] is not JSON. *)
Definition unsortable_catalog : listing :=
  catalog (JObj [ ("version", JStr "1.0.0");
                  ("components",
                   JArr [ JObj [("toString", JNum (inject_Z 1))];
                          JStr "button.json" ]) ])
    [ ("button.json", File (Some button_component));
      ("extra.json", File (Some button_component));
      ("broken.json", File None) ].

(** [empty.json] holds [null]. *)
Definition null_component_catalog : listing :=
  catalog (index_of ["button.json"; "empty.json"])
    [ ("button.json", File (Some button_component));
      ("empty.json", File (Some JNull)) ].

(** [list.json] holds an array. *)
Definition array_component_catalog : listing :=
  catalog (index_of ["button.json"; "list.json"])
    [ ("button.json", File (Some button_component));
      ("list.json", File (Some (JArr [button_component]))) ].

(** A directory with a file whose name has a backslash in it. *)
Definition backslash_directory : node :=
  Dir [ ("a\b.json", File (Some button_component)) ].

(** An order to compare with: every array is left as it is. *)
Definition unsorted : ArraySort :=
  {| sort_names := fun l => l; sort_values := fun l => l |}.

(** A JSON value that is neither [null] nor an object. *)
Definition plain_value (d : json) : bool :=
  match d with
  | JBool _ | JNum _ | JStr _ | JArr _ => true
  | JNull | JObj _ => false
  end.

End Validator.


(* ================================================================== *)
(** ** tests/react-component.test.js *)
(* ================================================================== *)

Module ReactTests.
Import Js Proc Fs.

(** The console lines of the test suite. *)
Inductive message : Type :=
| LogRunning
| LogPass (name : string)
| ErrFail (name : string) (e : error)
| LogResults (passedCount testCount : nat)
| LogAllPassed
| LogSomeFailed
| ErrSuiteFailed (e : error).

Local Open Scope result_scope.

(** *** Test utilities *)

(** A word between double quotes, as the assertion texts have it. *)
Definition quoted (s : string) : string :=
  let dq := String (ascii_of_nat 34) EmptyString in
  (dq ++ s ++ dq)%string.

Definition assert (condition : bool) (message : string) : result unit :=
  if negb condition then Throw (Failure message) else Ok tt.

(** [expected] is a string literal at every call.  The text of the error
    holds [`${actual}`], and building it throws where the conversion of
    [actual] does. *)
Definition assertEqual (actual : value) (expected : string)
    (message : string) : result unit :=
  if negb (strict_eq_string actual expected)
  then if converts actual then Throw (Failure message) else Throw TypeError
  else Ok tt.

Definition assertExists (value : value) (message : string) : result unit :=
  if nullish value then Throw (Failure message) else Ok tt.

Definition assertType (value : value) (expectedType : string)
    (message : string) : result unit :=
  if negb (typeof value =? expectedType)%string
  then Throw (Failure message) else Ok tt.

(** *** Loading *)

(** The script lives in [tests/] of the package; [root] below is the
    package directory. *)
Definition dirname : string := "tests".

Definition REACT_COMPONENT_PATH : string :=
  path_join (path_join (path_join dirname "..") "json-components") "react.json".
Definition INDEX_PATH : string :=
  path_join (path_join (path_join dirname "..") "json-components") "index.json".

Definition loadReactComponent (root : listing) : result json :=
  if negb (existsSync root REACT_COMPONENT_PATH)
  then Throw (Failure "React component file not found")
  else
    content <- readFileSync root REACT_COMPONENT_PATH ;;
    JSON_parse content.

Definition loadIndex (root : listing) : result json :=
  if negb (existsSync root INDEX_PATH)
  then Throw (Failure "Index file not found")
  else
    content <- readFileSync root INDEX_PATH ;;
    JSON_parse content.

(** *** The eight checks *)

Section Checks.
Variable reactComponent : json.
Variable index : json.

Let rc : value := Some reactComponent.

Definition test_metadata : result unit :=
  v <- access rc ["metadata"] ;;
  assertExists v "metadata field missing" ;;
  v <- access rc ["metadata"; "type"] ;;
  assertEqual v "react" ("metadata.type should be " ++ quoted "react") ;;
  v <- access rc ["metadata"; "name"] ;;
  assertEqual v "React" ("metadata.name should be " ++ quoted "React") ;;
  v <- access rc ["metadata"; "version"] ;;
  assertExists v "metadata.version missing" ;;
  v <- access rc ["metadata"; "description"] ;;
  assertExists v "metadata.description missing" ;;
  v <- access rc ["metadata"; "tags"] ;;
  assertType v "object" "metadata.tags should be an array" ;;
  v <- access rc ["metadata"; "tags"] ;;
  assert (isArray v) "metadata.tags should be an array" ;;
  v <- access rc ["metadata"; "tags"] ;;
  b <- includes v "react" ;;
  assert b ("metadata.tags should include " ++ quoted "react").

Definition test_ui : result unit :=
  v <- access rc ["ui"] ;;
  assertExists v "ui field missing" ;;
  v <- access rc ["ui"; "template"] ;;
  assertExists v "ui.template missing" ;;
  v <- access rc ["ui"; "styles"] ;;
  assertExists v "ui.styles missing" ;;
  v <- access rc ["ui"; "icon"] ;;
  assertExists v "ui.icon missing" ;;
  v <- access rc ["ui"; "icon"; "value"] ;;
  assertEqual v "⚛️" "ui.icon.value should be React emoji" ;;
  v <- access rc ["ui"; "tools"] ;;
  assertExists v "ui.tools missing" ;;
  v <- access rc ["ui"; "tools"; "drag"; "enabled"] ;;
  assert (truthy v) "ui.tools.drag should be enabled" ;;
  v <- access rc ["ui"; "tools"; "resize"; "enabled"] ;;
  assert (truthy v) "ui.tools.resize should be enabled".

Definition test_integration : result unit :=
  v <- access rc ["integration"] ;;
  assertExists v "integration field missing" ;;
  v <- access rc ["integration"; "properties"] ;;
  assertExists v "integration.properties missing" ;;
  v <- access rc ["integration"; "properties"; "schema"] ;;
  assertExists v "integration.properties.schema missing" ;;
  v <- access rc ["integration"; "properties"; "schema"; "code"] ;;
  assertExists v "integration.properties.schema.code missing" ;;
  codeSchema <- access rc ["integration"; "properties"; "schema"; "code"] ;;
  v <- get codeSchema "type" ;;
  assertEqual v "string" "code schema type should be string" ;;
  v <- get codeSchema "default" ;;
  assertExists v "code schema should have default value" ;;
  v <- get codeSchema "default" ;;
  b <- includes v "export default function" ;;
  assert b "default code should be a React component" ;;
  v <- get codeSchema "ui" ;;
  assertExists v "code schema should have UI configuration" ;;
  v <- access codeSchema ["ui"; "control"] ;;
  assertEqual v "code" ("code schema UI control should be " ++ quoted "code").

Definition test_template : result unit :=
  v <- access rc ["template"] ;;
  assertExists v "template field missing" ;;
  v <- access rc ["template"; "render"] ;;
  assertExists v "template.render missing" ;;
  v <- access rc ["template"; "render"; "strategy"] ;;
  assertEqual v "react" ("template.render.strategy should be " ++ quoted "react") ;;
  v <- access rc ["template"; "react"] ;;
  assertExists v "template.react missing" ;;
  v <- access rc ["template"; "react"; "code"] ;;
  assertExists v "template.react.code missing" ;;
  v <- access rc ["template"; "classes"] ;;
  assertExists v "template.classes missing" ;;
  v <- access rc ["template"; "classes"] ;;
  assert (isArray v) "template.classes should be an array" ;;
  v <- access rc ["template"; "classes"] ;;
  b <- includes v "rx-comp" ;;
  assert b ("template.classes should include " ++ quoted "rx-comp") ;;
  v <- access rc ["template"; "classes"] ;;
  b <- includes v "rx-react" ;;
  assert b ("template.classes should include " ++ quoted "rx-react").

Definition test_interactions : result unit :=
  v <- access rc ["interactions"] ;;
  assertExists v "interactions field missing" ;;
  v <- access rc ["interactions"; "canvas.component.create"] ;;
  assertExists v "canvas.component.create interaction missing" ;;
  v <- access rc ["interactions"; "canvas.component.create"; "pluginId"] ;;
  assertEqual v "CanvasComponentPlugin" "should use CanvasComponentPlugin" ;;
  v <- access rc ["interactions"; "canvas.component.create"; "sequenceId"] ;;
  assertEqual v "canvas-component-create-symphony" "should use correct sequence".

Definition test_index : result unit :=
  v <- access (Some index) ["components"] ;;
  assert (isArray v) "index.components should be an array" ;;
  v <- access (Some index) ["components"] ;;
  b <- includes v "react.json" ;;
  assert b "index.components should include react.json".

Definition test_canvas : result unit :=
  v <- access rc ["integration"; "canvasIntegration"] ;;
  assertExists v "canvasIntegration missing" ;;
  canvasIntegration <- access rc ["integration"; "canvasIntegration"] ;;
  v <- get canvasIntegration "resizable" ;;
  assert (truthy v) "should be resizable" ;;
  v <- get canvasIntegration "draggable" ;;
  assert (truthy v) "should be draggable" ;;
  v <- get canvasIntegration "selectable" ;;
  assert (truthy v) "should be selectable" ;;
  v <- get canvasIntegration "defaultWidth" ;;
  assertType v "number" "defaultWidth should be a number" ;;
  v <- get canvasIntegration "defaultHeight" ;;
  assertType v "number" "defaultHeight should be a number".

Definition test_events : result unit :=
  v <- access rc ["integration"; "events"] ;;
  assertExists v "events field missing" ;;
  v <- access rc ["integration"; "events"; "mount"] ;;
  assertExists v "mount event missing" ;;
  v <- access rc ["integration"; "events"; "unmount"] ;;
  assertExists v "unmount event missing" ;;
  v <- access rc ["integration"; "events"; "error"] ;;
  assertExists v "error event missing".

(** The calls of [test(name, testFn)] in the order of the file. *)
Definition tests : list (string * result unit) :=
  [ ("React component has required metadata fields", test_metadata);
    ("React component has proper UI configuration", test_ui);
    ("React component has proper integration configuration", test_integration);
    ("React component has proper template structure for external plugins",
     test_template);
    ("React component has proper plugin interactions", test_interactions);
    ("Index file includes React component", test_index);
    ("React component has proper canvas integration", test_canvas);
    ("React component has proper event definitions", test_events) ].

End Checks.

Local Close Scope result_scope.
Local Open Scope script_scope.

(** The counters [testCount] and [passedCount] of [runTests]. *)
Record counters : Type := { testCount : nat; passedCount : nat }.

(** [test(name, testFn)] *)
Definition test (entry : string * result unit) (c : counters) : M counters :=
  let (name, testFn) := entry in
  let c := {| testCount := S (testCount c); passedCount := passedCount c |} in
  try_catch
    (lift testFn ;;
     print (LogPass name) ;;
     ret {| testCount := testCount c; passedCount := S (passedCount c) |})
    (fun error =>
       print (ErrFail name error) ;;
       ret c).

Definition runTests (root : listing) : M bool :=
  print LogRunning ;;
  let c := {| testCount := 0; passedCount := 0 |} in
  reactComponent <- lift (loadReactComponent root) ;;
  index <- lift (loadIndex root) ;;
  c <- for_each (tests reactComponent index) c test ;;
  print (LogResults (passedCount c) (testCount c)) ;;
  if (passedCount c =? testCount c)%nat then
    print LogAllPassed ;; ret true
  else
    print LogSomeFailed ;; ret false.

(** The script run directly: [require.main === module]. *)
Definition main (root : listing) : M unit :=
  try_catch
    (success <- runTests root ;;
     exit (if success : bool then 0 else 1))
    (fun error =>
       print (ErrSuiteFailed error) ;;
       exit 1).

(** *** What a run amounts to *)

(** The line [test] writes for a check. *)
Definition line (entry : string * result unit) : message :=
  match entry with
  | (name, Ok _) => LogPass name
  | (name, Throw e) => ErrFail name e
  end.

Definition passes (r : result unit) : bool :=
  match r with
  | Ok _ => true
  | Throw _ => false
  end.

(** The number of checks that return without throwing. *)
Definition passed (results : list (string * result unit)) : nat :=
  length (filter (fun entry => passes (snd entry)) results).

(** The closing lines of a run with [p] checks passed. *)
Definition verdict (p : nat) : list message :=
  [ LogResults p 8; if (p =? 8)%nat then LogAllPassed else LogSomeFailed ].

(** The field the specification corrupts. *)
Definition strategy_path : list string := ["template"; "render"; "strategy"].

(** A value that is neither [undefined] nor [null]. *)
Definition present (v : value) : Prop := nullish v = false.

(** An array that holds the string [s]. *)
Definition lists (v : value) (s : string) : Prop :=
  exists items, v = Some (JArr items) /\ In (JStr s) items.

(** What the seven checks on the component ask of it, field by field. *)
Record react_shape (rc : json) : Prop := {
  shape_type :
    get_path rc ["metadata"; "type"] = Some (JStr "react");
  shape_name :
    get_path rc ["metadata"; "name"] = Some (JStr "React");
  shape_version :
    present (get_path rc ["metadata"; "version"]);
  shape_description :
    present (get_path rc ["metadata"; "description"]);
  shape_tags :
    lists (get_path rc ["metadata"; "tags"]) "react";
  shape_ui_template :
    present (get_path rc ["ui"; "template"]);
  shape_ui_styles :
    present (get_path rc ["ui"; "styles"]);
  shape_icon :
    get_path rc ["ui"; "icon"; "value"] = Some (JStr "⚛️");
  shape_drag :
    truthy (get_path rc ["ui"; "tools"; "drag"; "enabled"]) = true;
  shape_resize :
    truthy (get_path rc ["ui"; "tools"; "resize"; "enabled"]) = true;
  shape_code_type :
    get_path rc ["integration"; "properties"; "schema"; "code"; "type"]
    = Some (JStr "string");
  shape_code_default :
    includes
      (get_path rc ["integration"; "properties"; "schema"; "code"; "default"])
      "export default function" = Ok true;
  shape_code_control :
    get_path rc ["integration"; "properties"; "schema"; "code"; "ui"; "control"]
    = Some (JStr "code");
  shape_strategy :
    get_path rc ["template"; "render"; "strategy"] = Some (JStr "react");
  shape_react_code :
    present (get_path rc ["template"; "react"; "code"]);
  shape_class_comp :
    lists (get_path rc ["template"; "classes"]) "rx-comp";
  shape_class_react :
    lists (get_path rc ["template"; "classes"]) "rx-react";
  shape_plugin :
    get_path rc ["interactions"; "canvas.component.create"; "pluginId"]
    = Some (JStr "CanvasComponentPlugin");
  shape_sequence :
    get_path rc ["interactions"; "canvas.component.create"; "sequenceId"]
    = Some (JStr "canvas-component-create-symphony");
  shape_resizable :
    truthy (get_path rc ["integration"; "canvasIntegration"; "resizable"]) = true;
  shape_draggable :
    truthy (get_path rc ["integration"; "canvasIntegration"; "draggable"]) = true;
  shape_selectable :
    truthy (get_path rc ["integration"; "canvasIntegration"; "selectable"]) = true;
  shape_width :
    typeof (get_path rc ["integration"; "canvasIntegration"; "defaultWidth"])
    = "number";
  shape_height :
    typeof (get_path rc ["integration"; "canvasIntegration"; "defaultHeight"])
    = "number";
  shape_mount :
    present (get_path rc ["integration"; "events"; "mount"]);
  shape_unmount :
    present (get_path rc ["integration"; "events"; "unmount"]);
  shape_error :
    present (get_path rc ["integration"; "events"; "error"])
}.

(** *** Components to run the suite on *)

Definition react_component : json :=
  JObj
    [ ("metadata",
       JObj [ ("type", JStr "react"); ("name", JStr "React");
              ("version", JStr "1.0.0");
              ("description", JStr "Custom React component");
              ("tags", JArr [JStr "react"; JStr "custom"]) ]);
      ("ui",
       JObj [ ("template", JObj [("tag", JStr "div")]);
              ("styles", JObj [("css", JStr ".rx-react { display: block; }")]);
              ("icon", JObj [("mode", JStr "emoji"); ("value", JStr "⚛️")]);
              ("tools",
               JObj [ ("drag", JObj [("enabled", JBool true)]);
                      ("resize", JObj [("enabled", JBool true)]) ]) ]);
      ("integration",
       JObj [ ("properties",
               JObj [ ("schema",
                       JObj [ ("code",
                               JObj [ ("type", JStr "string");
                                      ("default",
                                       JStr "export default function App() { return null; }");
                                      ("ui", JObj [("control", JStr "code")]) ]) ]) ]);
              ("canvasIntegration",
               JObj [ ("resizable", JBool true); ("draggable", JBool true);
                      ("selectable", JBool true);
                      ("defaultWidth", JNum (inject_Z 400));
                      ("defaultHeight", JNum (inject_Z 300)) ]);
              ("events",
               JObj [ ("mount", JObj []); ("unmount", JObj []);
                      ("error", JObj []) ]) ]);
      ("template",
       JObj [ ("render", JObj [("strategy", JStr "react")]);
              ("react", JObj [("code", JStr "export default function App() {}")]);
              ("classes", JArr [JStr "rx-comp"; JStr "rx-react"]) ]);
      ("interactions",
       JObj [ ("canvas.component.create",
               JObj [ ("pluginId", JStr "CanvasComponentPlugin");
                      ("sequenceId", JStr "canvas-component-create-symphony") ]) ]) ].

(** Only the three fields the specification names. *)
Definition sketch_component : json :=
  JObj
    [ ("metadata", JObj [("type", JStr "react")]);
      ("ui", JObj [("icon", JObj [("value", JStr "⚛️")])]);
      ("template", JObj [("classes", JArr [JStr "rx-comp"; JStr "rx-react"])]) ].

Definition react_index : json :=
  JObj [ ("version", JStr "1.0.0");
         ("components", JArr [JStr "button.json"; JStr "react.json"]) ].

Definition package (files : listing) : listing :=
  [ ("json-components", Dir files);
    ("tests", Dir [("react-component.test.js", File None)]) ].

Definition react_package : listing :=
  package [ ("index.json", File (Some react_index));
            ("react.json", File (Some react_component)) ].

Definition sketch_package : listing :=
  package [ ("index.json", File (Some react_index));
            ("react.json", File (Some sketch_component)) ].

(** No [react.json]. *)
Definition bare_package : listing :=
  package [ ("index.json", File (Some react_index)) ].

End ReactTests.


(* ================================================================== *)
(** ** Facts about values and paths *)
(* ================================================================== *)

Import Js Proc Fs.

Lemma get_get_path (j : json) (k : string) :
  j <> JNull -> get (Some j) k = Ok (get_path j [k]).
Proof.
  destruct j as [ | | | | |fields]; cbn; try congruence; intros _;
    try reflexivity.
  destruct (assoc k fields); reflexivity.
Qed.

Lemma get_path_cons (j : json) (k : string) (rest : list string) :
  get_path j (k :: rest) =
  match get_path j [k] with
  | Some j' => get_path j' rest
  | None => None
  end.
Proof.
  destruct j as [ | | | | |fields]; cbn; try reflexivity.
  destruct (assoc k fields); reflexivity.
Qed.

Lemma json_null_dec (j : json) : {j = JNull} + {j <> JNull}.
Proof. destruct j; (left; reflexivity) || (right; discriminate). Qed.

Lemma get_path_obj1 (fields : list (string * json)) (k : string) :
  get_path (JObj fields) [k] = assoc k fields.
Proof. cbn. destruct (assoc k fields); reflexivity. Qed.

Lemma get_path_obj2 (fields : list (string * json)) (a b : string) :
  get_path (JObj fields) [a; b] =
  match assoc a fields with
  | Some j => get_path j [b]
  | None => None
  end.
Proof. reflexivity. Qed.

Lemma truthy_not_null (j : json) : truthy (Some j) = true -> j <> JNull.
Proof. intros H ->. discriminate H. Qed.

(** A read on a truthy value does not throw. *)
Lemma get_truthy (v : value) (k : string) :
  truthy v = true ->
  get v k = Ok match v with
               | Some j => get_path j [k]
               | None => None
               end.
Proof.
  destruct v as [j|]; [|discriminate].
  intros H. apply get_get_path, truthy_not_null, H.
Qed.

Lemma filter_cons_app {A : Type} (p : A -> bool) (x : A) (l : list A) :
  filter p (x :: l) = (if p x then [x] else []) ++ filter p l.
Proof. cbn. destruct (p x); reflexivity. Qed.


Lemma assoc_set_field_same (k : string) (v : json) (fields : list (string * json)) :
  assoc k (set_field k v fields) = Some v.
Proof.
  induction fields as [|[k' v'] fields IH]; cbn.
  - rewrite String.eqb_refl. reflexivity.
  - destruct (k' =? k) eqn:E; cbn; rewrite E; [reflexivity|exact IH].
Qed.

Lemma assoc_set_field_other (k k' : string) (v : json)
    (fields : list (string * json)) :
  k' <> k -> assoc k' (set_field k v fields) = assoc k' fields.
Proof.
  intros Hk. induction fields as [|[k0 v0] fields IH]; cbn.
  - assert (E : (k =? k') = false) by (apply String.eqb_neq; congruence).
    rewrite E. reflexivity.
  - destruct (k0 =? k) eqn:E; cbn.
    + apply String.eqb_eq in E. subst k0.
      assert (E' : (k =? k') = false) by (apply String.eqb_neq; congruence).
      rewrite E'. reflexivity.
    + destruct (k0 =? k'); [reflexivity|exact IH].
Qed.

(** *** Chains of property reads *)

Lemma get_path_app (j : json) (p q : list string) :
  get_path j (p ++ q) =
  match get_path j p with
  | Some j' => get_path j' q
  | None => None
  end.
Proof.
  revert j. induction p as [|k p IH]; intros j; [reflexivity|].
  cbn [app]. rewrite (get_path_cons j k (p ++ q)), (get_path_cons j k p).
  destruct (get_path j [k]) as [j'|]; [apply IH|reflexivity].
Qed.

Lemma rbind_ok {A : Type} (r : result A) : rbind r Ok = r.
Proof. destruct r; reflexivity. Qed.

Lemma get_throws (v : value) (k : string) :
  nullish v = true -> get v k = Throw TypeError.
Proof. destruct v as [[ | | | | | ]|]; cbn; congruence. Qed.

Lemma get_defined (v : value) (k : string) :
  nullish v = false ->
  get v k = Ok match v with
               | Some j => get_path j [k]
               | None => None
               end.
Proof.
  destruct v as [j|]; [|discriminate]. intros H.
  apply get_get_path. intros ->. discriminate H.
Qed.

(** A chain of reads either throws a [TypeError] or gives what the path
    holds. *)
Lemma access_cases (j : json) (p : list string) :
  access (Some j) p = Ok (get_path j p)
  \/ access (Some j) p = Throw TypeError.
Proof.
  revert j. induction p as [|k p IH]; intros j; [left; reflexivity|].
  cbn [access]. rewrite (get_path_cons j k).
  destruct (json_null_dec j) as [->|Hnull]; [right; reflexivity|].
  rewrite (get_get_path _ _ Hnull). cbn [rbind].
  destruct (get_path j [k]) as [j'|]; [apply IH|].
  destruct p; [left|right]; reflexivity.
Qed.

Lemma access_defined (j : json) (p : list string) :
  nullish (get_path j p) = false -> access (Some j) p = Ok (get_path j p).
Proof.
  revert j. induction p as [|k p IH]; intros j; [reflexivity|].
  rewrite (get_path_cons j k). cbn [access].
  destruct (json_null_dec j) as [->|Hnull]; [discriminate|].
  rewrite (get_get_path _ _ Hnull). cbn [rbind].
  destruct (get_path j [k]) as [j'|]; [apply IH|discriminate].
Qed.

(** The chain [j.k1...kn.k]: it throws when [j.k1...kn] is [undefined] or
    [null], and reads the field otherwise. *)
Lemma access_snoc (j : json) (p : list string) (k : string) :
  access (Some j) (p ++ [k]) =
  if nullish (get_path j p) then Throw TypeError
  else Ok (get_path j (p ++ [k])).
Proof.
  assert (Happ : forall v q, access v (q ++ [k]) = rbind (access v q) (fun x => get x k)).
  { intros v q. revert v. induction q as [|k' q IH]; intros v; cbn [app access].
    - apply rbind_ok.
    - destruct (get v k'); cbn [rbind]; [apply IH|reflexivity]. }
  rewrite Happ, get_path_app.
  destruct (nullish (get_path j p)) eqn:Hn.
  - destruct (access_cases j p) as [-> | ->]; [|reflexivity].
    cbn [rbind]. apply get_throws, Hn.
  - rewrite (access_defined _ _ Hn). cbn [rbind].
    rewrite (get_defined _ _ Hn). reflexivity.
Qed.

(** A read further down the value a path holds. *)
Lemma get_snoc (j : json) (p : list string) (k : string) :
  get (get_path j p) k =
  if nullish (get_path j p) then Throw TypeError
  else Ok (get_path j (p ++ [k])).
Proof.
  rewrite get_path_app.
  destruct (nullish (get_path j p)) eqn:Hn.
  - apply get_throws, Hn.
  - apply get_defined, Hn.
Qed.

(** A chain of reads that starts at the value a path holds. *)
Lemma access_from (j : json) (p q : list string) (k : string) :
  access (get_path j p) (q ++ [k]) =
  if nullish (get_path j (p ++ q)) then Throw TypeError
  else Ok (get_path j (p ++ q ++ [k])).
Proof.
  rewrite !get_path_app.
  destruct (get_path j p) as [x|].
  - apply access_snoc.
  - destruct q; reflexivity.
Qed.

(** A field that holds something sits below fields that hold something. *)
Lemma prefix_present (j : json) (q p : list string) (v : json) :
  get_path j p = Some v -> strict_prefix q p = true ->
  nullish (get_path j q) = false.
Proof.
  revert j p. induction q as [|k q IH]; intros j p Hp Hpre.
  - destruct p as [|k' p]; [discriminate|].
    destruct j; try discriminate Hp. reflexivity.
  - destruct p as [|k' p]; [discriminate|]. cbn in Hpre.
    apply andb_true_iff in Hpre as [Hk Hq].
    apply String.eqb_eq in Hk. subst k'.
    rewrite get_path_cons in Hp. rewrite get_path_cons.
    destruct (get_path j [k]) as [j'|]; [|discriminate].
    apply (IH j' p Hp Hq).
Qed.

(* ================================================================== *)
(** ** Facts about paths and trees *)
(* ================================================================== *)

Lemma string_app_assoc (a b c : string) : ((a ++ b) ++ c = a ++ (b ++ c))%string.
Proof. induction a as [|x a IH]; cbn; [reflexivity|now rewrite IH]. Qed.

Lemma contains_app (c : ascii) (a b : string) :
  contains c (a ++ b) = contains c a || contains c b.
Proof.
  induction a as [|x a IH]; cbn; [reflexivity|].
  rewrite IH, orb_assoc. reflexivity.
Qed.



Lemma name_ok_parts (name : string) :
  name_ok name = true ->
  name <> EmptyString /\ (name =? ".") = false /\ (name =? "..") = false
  /\ contains sep name = false /\ contains backslash name = false.
Proof.
  unfold name_ok. rewrite !andb_true_iff, !negb_true_iff.
  intros ((((H1 & H2) & H3) & H4) & H5). repeat split; try assumption.
  apply String.eqb_neq, H1.
Qed.




Lemma replace_backslashes_plain (s : string) :
  contains backslash s = false -> replace_backslashes s = s.
Proof.
  induction s as [|x s IH]; cbn; [reflexivity|].
  intros H. apply orb_false_iff in H as [Hx Hs].
  rewrite Hx, (IH Hs). reflexivity.
Qed.

Lemma join_segs_no_backslash (segs : list string) :
  Forall (fun s => name_ok s = true) segs ->
  contains backslash (join_segs segs) = false.
Proof.
  induction segs as [|s segs IH]; [reflexivity|]. intros Hall.
  inversion Hall as [|? ? Hs Hrest]; subst.
  apply name_ok_parts in Hs as (_ & _ & _ & _ & Hb).
  destruct segs as [|s' segs]; [exact Hb|].
  change (join_segs (s :: s' :: segs))
    with (s ++ "/" ++ join_segs (s' :: segs))%string.
  rewrite !contains_app, Hb, (IH Hrest). reflexivity.
Qed.

(** The relative path the walk builds for an entry. *)
Lemma join_segs_snoc (pre : list string) (name : string) :
  Forall (fun s => name_ok s = true) pre ->
  (if join_segs pre =? "" then name else path_join (join_segs pre) name)
  = join_segs (pre ++ [name]).
Proof.
  destruct pre as [|p pre]; [reflexivity|]. intros Hall.
  inversion Hall as [|? ? Hp Hrest]; subst.
  apply name_ok_parts in Hp as (Hne & _).
  assert (Hnonempty : (join_segs (p :: pre) =? "") = false).
  { apply String.eqb_neq. destruct pre as [|q pre]; [exact Hne|].
    destruct p; [congruence|discriminate]. }
  rewrite Hnonempty. clear Hnonempty Hne Hall Hrest.
  revert p. induction pre as [|q pre IH]; intros p; [reflexivity|].
  change (join_segs (p :: q :: pre))
    with (p ++ "/" ++ join_segs (q :: pre))%string.
  change ((p :: q :: pre) ++ [name]) with (p :: (q :: pre) ++ [name]).
  change (join_segs (p :: (q :: pre) ++ [name]))
    with (p ++ "/" ++ join_segs ((q :: pre) ++ [name]))%string.
  rewrite <- IH. unfold path_join.
  rewrite string_app_assoc. reflexivity.
Qed.

Lemma well_formed_cons (name : string) (child : node) (rest : listing) :
  well_formed (Dir ((name, child) :: rest)) = true ->
  existsb (String.eqb name) (map fst rest) = false
  /\ name_ok name = true
  /\ well_formed child = true
  /\ well_formed (Dir rest) = true.
Proof.
  cbn. rewrite !andb_true_iff, negb_true_iff.
  intros ((H1 & H2) & (H3 & H4) & H5). repeat split; assumption.
Qed.

Lemma find_entry_named (name : string) (entries : listing) (n : node) :
  find_entry name entries = Some n ->
  existsb (String.eqb name) (map fst entries) = true.
Proof.
  induction entries as [|[name' child] rest IH]; cbn; [discriminate|].
  rewrite (String.eqb_sym name name').
  destruct (name' =? name); [reflexivity|]. exact IH.
Qed.


(** Looking a path up past an entry of another name. *)
Lemma walk_skip (name : string) (child : node) (rest : listing)
    (segs : list string) (n : node) :
  existsb (String.eqb name) (map fst rest) = false ->
  segs <> [] ->
  walk (Dir rest) segs = Some n ->
  walk (Dir ((name, child) :: rest)) segs = Some n.
Proof.
  destruct segs as [|s segs]; [congruence|]. intros Hfresh _. cbn.
  destruct (find_entry s rest) as [c|] eqn:E; [|discriminate].
  destruct (name =? s) eqn:Hs; [|trivial].
  apply String.eqb_eq in Hs. subst s.
  apply find_entry_named in E. congruence.
Qed.



(* ================================================================== *)
(** ** The sort of the examples *)
(* ================================================================== *)

Lemma insert_by_perm {A : Type} (key : A -> string) (x : A) (l : list A) :
  Permutation (Validator.insert_by key x l) (x :: l).
Proof.
  induction l as [|y l IH]; cbn; [reflexivity|].
  destruct (String.leb (key x) (key y)); [reflexivity|].
  rewrite IH. apply perm_swap.
Qed.

Lemma sort_by_perm {A : Type} (key : A -> string) (l : list A) :
  Permutation (Validator.sort_by key l) l.
Proof.
  induction l as [|x l IH]; cbn; [reflexivity|].
  rewrite insert_by_perm. apply perm_skip, IH.
Qed.

Lemma byte_order_laws : Validator.ArraySortLaws Validator.byte_order.
Proof. split; intros l; apply sort_by_perm. Qed.

(* ================================================================== *)
(** ** Runs on the example catalogs *)
(* ================================================================== *)

Example run_sound_catalog :
  @Validator.validatePackage Validator.byte_order Validator.sound_catalog
  = ([ Validator.LogValidating; Validator.LogIndexValid;
       Validator.LogFound 2; Validator.LogDeclares 2;
       Validator.LogSkipping "topics/canvas.json";
       Validator.LogAllPassed; Validator.LogReady 1 ],
     Next tt).
Proof. reflexivity. Qed.

Example run_undeclared_catalog :
  @Validator.validatePackage Validator.byte_order Validator.undeclared_catalog
  = ([ Validator.LogValidating; Validator.LogIndexValid;
       Validator.LogFound 2; Validator.LogDeclares 1;
       Validator.WarnNotListed ["extra.json"]; Validator.WarnAddToIndex;
       Validator.LogAllPassed; Validator.LogReady 2 ],
     Next tt).
Proof. reflexivity. Qed.

Example run_stale_catalog :
  @Validator.validatePackage Validator.byte_order Validator.stale_catalog
  = ([ Validator.LogValidating; Validator.LogIndexValid;
       Validator.LogFound 1; Validator.LogDeclares 2;
       Validator.ErrStale [JStr "gone.json"];
       Validator.ErrValidationFailed ],
     Exit 1%Z).
Proof. reflexivity. Qed.

Example run_null_topics_catalog :
  @Validator.validatePackage Validator.byte_order Validator.null_topics_catalog
  = ([ Validator.LogValidating; Validator.LogIndexValid;
       Validator.LogFound 2; Validator.LogDeclares 2;
       Validator.ErrMissingField "notes.json" "metadata";
       Validator.ErrMissingField "notes.json" "ui";
       Validator.ErrMissingField "notes.json" "integration";
       Validator.ErrValidationFailed ],
     Exit 1%Z).
Proof. reflexivity. Qed.

Example run_no_directory :
  @Validator.validatePackage Validator.byte_order []
  = ([ Validator.LogValidating; Validator.ErrDirNotFound;
       Validator.ErrIndexNotFound ],
     Exit 1%Z).
Proof. reflexivity. Qed.

Example run_null_index :
  status (@Validator.validatePackage Validator.byte_order
            (Validator.catalog JNull [])) = 1%Z
  /\ snd (@Validator.validatePackage Validator.byte_order
            (Validator.catalog JNull [])) = Raise TypeError.
Proof. split; reflexivity. Qed.

Example run_react_package :
  status (ReactTests.main ReactTests.react_package) = 0%Z
  /\ In (ReactTests.LogResults 8 8)
        (output (ReactTests.main ReactTests.react_package)).
Proof. split; [reflexivity|vm_compute; tauto]. Qed.

Example run_null_component :
  In (ReactTests.LogResults 1 8)
     (output (ReactTests.main
                (ReactTests.package
                   [ ("index.json", File (Some ReactTests.react_index));
                     ("react.json", File (Some JNull)) ]))).
Proof. vm_compute. tauto. Qed.

(** The sort of the declared files throws: nothing is said of the file that
    is not listed, of the entry that is no path, or of the file that is not
    JSON. *)
Example run_unsortable_catalog :
  @Validator.validatePackage Validator.byte_order Validator.unsortable_catalog
  = ([Validator.LogValidating; Validator.LogIndexValid], Raise TypeError).
Proof. reflexivity. Qed.

(** A strategy that cannot be converted to a string: the check fails on the
    [TypeError] of the conversion, not on the error of the assertion. *)
Example run_unconvertible_strategy :
  In (ReactTests.ErrFail
        "React component has proper template structure for external plugins"
        TypeError)
     (output (ReactTests.main
                (edit ReactTests.react_package ReactTests.REACT_COMPONENT_PATH
                   (Some (set_path ReactTests.react_component
                            ReactTests.strategy_path
                            (JObj [("toString", JNum (inject_Z 1))])))))).
Proof. vm_compute. tauto. Qed.

(* ================================================================== *)
(** ** The validator, run *)
(* ================================================================== *)

(** Simplify the left side of an equation only. *)
Ltac lhs_cbn :=
  match goal with
  | |- _ = ?R => let rhs := fresh "rhs" in set (rhs := R); cbn -[get_path]; subst rhs
  end.

Section ValidatorFacts.
Import Validator.
Context {array_sort : ArraySort} {array_sort_laws : ArraySortLaws array_sort}.

(** The loop body writes the lines of [file_report] and raises the flag
    when one of them is an error; it never leaves the loop. *)
Lemma validateComponent_report (cwd : listing) (f : string) (h : bool) :
  validateComponent cwd f h = (file_report cwd f, Next (h || file_fails cwd f)).
Proof.
  unfold file_fails, file_report, validateComponent, componentData.
  destruct (readFileSync cwd (path_join COMPONENTS_DIR f)) as [[d|]|e];
    try (cbn; rewrite orb_true_r; reflexivity).
  destruct d as [ |b|q|s|items|fields];
    try (cbn; rewrite ?orb_true_r; reflexivity).
  lhs_cbn. cbn [rbind JSON_parse].
  unfold is_topic_document, required_fields.
  rewrite !filter_cons_app. cbn [filter]. unfold flagged.
  rewrite !get_path_obj2, !get_path_obj1.
  generalize (assoc "topics" fields) (assoc "definitions" fields)
    (assoc "metadata" fields) (assoc "ui" fields) (assoc "integration" fields).
  intros vt vd vm vu vi.
  destruct (truthy vt); [cbn; rewrite orb_false_r; reflexivity|].
  destruct (truthy vd); [cbn; rewrite orb_false_r; reflexivity|].
  destruct (truthy vm) eqn:Hm;
    [rewrite !(get_truthy vm _ Hm); lhs_cbn;
     destruct (truthy match vm with Some j => get_path j ["type"] | None => None end);
     destruct (truthy match vm with Some j => get_path j ["name"] | None => None end)
    |];
    (destruct (truthy vu) eqn:Hu;
     [rewrite !(get_truthy vu _ Hu); lhs_cbn;
      destruct (truthy match vu with Some j => get_path j ["template"] | None => None end)
     |]);
    destruct (truthy vi); destruct h; rewrite ?andb_false_r; reflexivity.
Qed.

Lemma for_each_validateComponent (cwd : listing) (fs : list string) (h : bool) :
  for_each fs h (validateComponent cwd) =
  (flat_map (file_report cwd) fs, Next (h || existsb (file_fails cwd) fs)).
Proof.
  revert h. induction fs as [|f fs IH]; intros h.
  - cbn. rewrite orb_false_r. reflexivity.
  - cbn [for_each flat_map existsb].
    rewrite validateComponent_report. cbn [bind].
    rewrite IH, orb_assoc. reflexivity.
Qed.

(** A file that drew no error line holds a document other than [null]. *)
Lemma file_passes_data (cwd : listing) (f : string) :
  file_fails cwd f = false ->
  exists d, componentData cwd f = Ok d /\ d <> JNull.
Proof.
  unfold file_fails, file_report.
  destruct (componentData cwd f) as [d|e]; [|discriminate].
  destruct d; try discriminate; intros _; eexists; split;
    try reflexivity; discriminate.
Qed.

Lemma countComponent_passes (cwd : listing) (f : string) (n : nat) :
  file_fails cwd f = false ->
  countComponent cwd f n = ([], Next (if counts cwd f then S n else n)).
Proof.
  intros H. destruct (file_passes_data cwd f H) as (d & Hd & Hnull).
  unfold counts, countComponent. rewrite Hd. unfold componentData in Hd.
  destruct (readFileSync cwd (path_join COMPONENTS_DIR f)) as [[d'|]|e];
    try discriminate.
  cbn in Hd. injection Hd as ->.
  cbn [lift bind ret JSON_parse].
  rewrite !(get_get_path d _ Hnull). unfold is_topic_document.
  cbn [lift bind ret].
  destruct (truthy (get_path d ["topics"]));
    destruct (truthy (get_path d ["definitions"])); reflexivity.
Qed.

Lemma for_each_countComponent (cwd : listing) (fs : list string) (n : nat) :
  existsb (file_fails cwd) fs = false ->
  for_each fs n (countComponent cwd) =
  ([], Next (n + length (filter (counts cwd) fs))%nat).
Proof.
  revert n. induction fs as [|f fs IH]; intros n H.
  - cbn. rewrite Nat.add_0_r. reflexivity.
  - cbn [existsb] in H. apply orb_false_iff in H as [Hf Hfs].
    cbn [for_each filter]. rewrite (countComponent_passes _ _ _ Hf).
    cbn [bind]. rewrite (IH _ Hfs).
    destruct (counts cwd f); cbn [length app]; do 2 f_equal; lia.
Qed.

(** *** The first checks *)

Lemma resolve_components (cwd : listing) :
  resolve cwd COMPONENTS_DIR = find_entry "json-components" cwd.
Proof.
  unfold resolve. cbn.
  destruct (find_entry "json-components" cwd); reflexivity.
Qed.

Lemma resolve_index (cwd : listing) :
  resolve cwd INDEX_FILE =
  match find_entry "json-components" cwd with
  | Some (Dir items) => find_entry "index.json" items
  | _ => None
  end.
Proof.
  unfold resolve. cbn.
  destruct (find_entry "json-components" cwd) as [[c|items]|]; try reflexivity.
  destruct (find_entry "index.json" items); reflexivity.
Qed.

(** Reading the index succeeds only inside a components directory. *)
Lemma index_read_dir (cwd : listing) (t : text) :
  readFileSync cwd INDEX_FILE = Ok t ->
  exists items, readdirSync cwd COMPONENTS_DIR = Ok items
                /\ find_entry "index.json" items = Some (File t).
Proof.
  unfold readFileSync, readdirSync.
  rewrite resolve_index, resolve_components.
  destruct (find_entry "json-components" cwd) as [[c|items]|]; try discriminate.
  destruct (find_entry "index.json" items) as [[c|sub]|] eqn:E; try discriminate.
  intros [= ->]. exists items. split; [reflexivity|exact E].
Qed.

Lemma checked_index_read (cwd : listing) (indexData : json) :
  checked_index cwd = Some indexData ->
  readFileSync cwd INDEX_FILE = Ok (Some indexData)
  /\ truthy (get_path indexData ["version"]) = true
  /\ isArray (get_path indexData ["components"]) = true.
Proof.
  unfold checked_index.
  destruct (readFileSync cwd INDEX_FILE) as [[d|]|e]; try discriminate.
  destruct (truthy (get_path d ["version"])) eqn:Hv; try discriminate.
  destruct (isArray (get_path d ["components"])) eqn:Hc; try discriminate.
  intros [= <-]. repeat split; assumption.
Qed.

Lemma checked_index_not_null (cwd : listing) (indexData : json) :
  checked_index cwd = Some indexData -> indexData <> JNull.
Proof.
  intros H. apply checked_index_read in H as (_ & Hv & _).
  intros ->. discriminate Hv.
Qed.

(** *** The run past the first checks *)

Lemma sortable_sort_entries (indexData : json) :
  sortable indexData = true ->
  sort_entries (spread (get_path indexData ["components"]))
  = Ok (sort_values (spread (get_path indexData ["components"]))).
Proof.
  unfold sortable, sort_entries. intros H. apply negb_true_iff in H.
  rewrite H. reflexivity.
Qed.

Lemma validatePackage_report (cwd items : listing) (indexData : json) :
  checked_index cwd = Some indexData ->
  sortable indexData = true ->
  readdirSync cwd COMPONENTS_DIR = Ok items ->
  validatePackage cwd =
  (report cwd items indexData,
   if failed cwd items indexData then Exit 1 else Next tt).
Proof.
  intros Hidx Hsort Hdir.
  pose proof (checked_index_not_null _ _ Hidx) as Hnull.
  apply checked_index_read in Hidx as (Hread & Hv & Hc).
  assert (He1 : existsSync cwd COMPONENTS_DIR = true).
  { unfold existsSync. unfold readdirSync in Hdir.
    destruct (resolve cwd COMPONENTS_DIR); [reflexivity|discriminate]. }
  assert (He2 : existsSync cwd INDEX_FILE = true).
  { unfold existsSync. unfold readFileSync in Hread.
    destruct (resolve cwd INDEX_FILE); [reflexivity|discriminate]. }
  unfold validatePackage.
  rewrite He1, He2, Hread.
  cbn [negb lift ret bind print exit try_catch JSON_parse app].
  rewrite !(get_get_path _ _ Hnull).
  cbn [negb lift ret bind print exit try_catch JSON_parse app].
  rewrite Hv, Hc, Hdir, (sortable_sort_entries _ Hsort).
  cbn [negb lift ret bind print exit try_catch JSON_parse app].
  change (sort_names (getAllJsonFiles (Dir items) EmptyString))
    with (actualFiles items).
  change (sort_values (spread (get_path indexData ["components"])))
    with (declaredFiles indexData).
  change (filter (fun file => negb (arr_includes (declaredFiles indexData) file))
                 (actualFiles items))
    with (missingFromIndex items indexData).
  change (filter (fun file => negb (names_include (actualFiles items) file))
                 (declaredFiles indexData))
    with (staleInIndex items indexData).
  unfold report, failed.
  destruct (0 <? length (missingFromIndex items indexData))%nat;
    destruct (0 <? length (staleInIndex items indexData))%nat;
    cbn [bind ret orb]; rewrite for_each_validateComponent; cbn [bind ret orb];
    try reflexivity;
    destruct (existsb (file_fails cwd) (actualFiles items)) eqn:Hf;
    cbn [bind ret orb print exit app]; try reflexivity;
    rewrite (for_each_countComponent _ _ _ Hf); reflexivity.
Qed.

(** A run stopped by the first checks ends with status 1. *)
Lemma validatePackage_rejected (cwd : listing) :
  checked_index cwd = None -> status (validatePackage cwd) = 1%Z.
Proof.
  unfold checked_index, validatePackage. intros H.
  destruct (existsSync cwd COMPONENTS_DIR);
    destruct (existsSync cwd INDEX_FILE); try reflexivity.
  cbn [negb lift ret bind print exit try_catch JSON_parse app].
  destruct (readFileSync cwd INDEX_FILE) as [[d|]|e]; try reflexivity.
  cbn [negb lift ret bind print exit try_catch JSON_parse app].
  destruct (json_null_dec d) as [->|Hnull]; [reflexivity|].
  rewrite !(get_get_path _ _ Hnull).
  cbn [negb lift ret bind print exit try_catch JSON_parse app].
  destruct (truthy (get_path d ["version"]));
    destruct (isArray (get_path d ["components"])); try discriminate;
    reflexivity.
Qed.

Lemma checked_index_dir (cwd : listing) (indexData : json) :
  checked_index cwd = Some indexData ->
  exists items, readdirSync cwd COMPONENTS_DIR = Ok items.
Proof.
  intros H. apply checked_index_read in H as (Hread & _).
  apply index_read_dir in Hread as (items & Hdir & _). eauto.
Qed.

(** Where the comparison throws, the sort of the declared files ends the
    run: nothing is written after the line that calls the index valid. *)
Lemma validatePackage_unsortable (cwd : listing) (indexData : json) :
  checked_index cwd = Some indexData ->
  sortable indexData = false ->
  validatePackage cwd = ([LogValidating; LogIndexValid], Raise TypeError).
Proof.
  intros Hidx Hsort.
  pose proof (checked_index_not_null _ _ Hidx) as Hnull.
  destruct (checked_index_dir _ _ Hidx) as (items & Hdir).
  apply checked_index_read in Hidx as (Hread & Hv & Hc).
  assert (He1 : existsSync cwd COMPONENTS_DIR = true).
  { unfold existsSync. unfold readdirSync in Hdir.
    destruct (resolve cwd COMPONENTS_DIR); [reflexivity|discriminate]. }
  assert (He2 : existsSync cwd INDEX_FILE = true).
  { unfold existsSync. unfold readFileSync in Hread.
    destruct (resolve cwd INDEX_FILE); [reflexivity|discriminate]. }
  unfold validatePackage.
  rewrite He1, He2, Hread.
  cbn [negb lift ret bind print exit try_catch JSON_parse app].
  rewrite !(get_get_path _ _ Hnull).
  cbn [negb lift ret bind print exit try_catch JSON_parse app].
  rewrite Hv, Hc, Hdir.
  cbn [negb lift ret bind print exit try_catch JSON_parse app].
  unfold sortable in Hsort. apply negb_false_iff in Hsort.
  unfold sort_entries. rewrite Hsort. reflexivity.
Qed.

(** An entry that cannot be converted to a string is no string, so it names
    no discovered file: an index that cannot be sorted has a stale entry. *)
Lemma unsortable_failed (cwd items : listing) (indexData : json) :
  sortable indexData = false -> failed cwd items indexData = true.
Proof.
  unfold sortable, sort_throws. intros H.
  apply negb_false_iff, andb_true_iff in H as [_ H].
  apply negb_true_iff in H.
  assert (Hbad : exists e, In e (spread (get_path indexData ["components"]))
                           /\ stringable e = false).
  { induction (spread (get_path indexData ["components"])) as [|x l IH];
      [discriminate H|].
    cbn [forallb] in H. apply andb_false_iff in H as [H|H].
    - exists x. split; [now left|exact H].
    - destruct (IH H) as (e & He & Hs). exists e. split; [now right|exact Hs]. }
  destruct Hbad as (e & He & Hs).
  unfold failed. apply orb_true_iff. left.
  assert (Hstale : In e (staleInIndex items indexData)).
  { apply filter_In. split.
    - unfold declaredFiles. apply (Permutation_in e (Permutation_sym (sort_values_perm _))).
      exact He.
    - destruct e; try reflexivity. discriminate Hs. }
  destruct (staleInIndex items indexData); [contradiction|reflexivity].
Qed.

(** An index whose entries are all strings can be sorted. *)
Lemma strings_sortable (indexData : json) :
  (forall e, In e (spread (get_path indexData ["components"])) ->
     exists s, e = JStr s) ->
  sortable indexData = true.
Proof.
  intros H. unfold sortable, sort_throws.
  assert (Hall : forallb stringable (spread (get_path indexData ["components"]))
                 = true).
  { apply forallb_forall. intros e He. destruct (H e He) as (s & ->).
    reflexivity. }
  rewrite Hall, andb_false_r. reflexivity.
Qed.

(** The exit status of every run. *)
Lemma validatePackage_status (cwd : listing) :
  status (validatePackage cwd) =
  match checked_index cwd, readdirSync cwd COMPONENTS_DIR with
  | Some indexData, Ok items =>
      if failed cwd items indexData then 1%Z else 0%Z
  | _, _ => 1%Z
  end.
Proof.
  destruct (checked_index cwd) as [indexData|] eqn:Hidx.
  - destruct (checked_index_dir _ _ Hidx) as (items & Hdir). rewrite Hdir.
    destruct (sortable indexData) eqn:Hsort.
    + rewrite (validatePackage_report _ _ _ Hidx Hsort Hdir).
      destruct (failed cwd items indexData); reflexivity.
    + rewrite (validatePackage_unsortable _ _ Hidx Hsort).
      rewrite (unsortable_failed cwd items _ Hsort). reflexivity.
  - apply validatePackage_rejected, Hidx.
Qed.

(** *** Reading the report *)

Lemma in_actualFiles (items : listing) (f : string) :
  In f (actualFiles items) <-> In f (getAllJsonFiles (Dir items) EmptyString).
Proof.
  unfold actualFiles. split; apply Permutation_in.
  - apply sort_names_perm.
  - symmetry. apply sort_names_perm.
Qed.

Lemma in_declaredFiles (indexData : json) (e : json) :
  In e (declaredFiles indexData)
  <-> In e (spread (get_path indexData ["components"])).
Proof.
  unfold declaredFiles. split; apply Permutation_in.
  - apply sort_values_perm.
  - symmetry. apply sort_values_perm.
Qed.

Lemma file_report_about (cwd : listing) (f : string) (m : message) :
  In m (file_report cwd f) -> about m = Some f.
Proof.
  unfold file_report.
  destruct (componentData cwd f) as [d|e]; [|intros [<-|[]]; reflexivity].
  assert (Hchecks : In m (if is_topic_document d then [LogSkipping f]
            else map (fun path => ErrMissingField f (dotted path))
                     (filter (flagged d) required_fields)) -> about m = Some f).
  { destruct (is_topic_document d); [intros [<-|[]]; reflexivity|].
    intros H. apply in_map_iff in H as (path & <- & _). reflexivity. }
  destruct d; try exact Hchecks. intros [<-|[]]; reflexivity.
Qed.

(** A line about a file is in the report exactly when the file was
    discovered and the line is one of its own. *)
Lemma report_file_line (cwd items : listing) (indexData : json)
    (f : string) (m : message) :
  about m = Some f ->
  In m (report cwd items indexData)
  <-> In f (actualFiles items) /\ In m (file_report cwd f).
Proof.
  intros Hm. unfold report. split.
  - intros H.
    repeat (apply in_app_or in H as [H|H]).
    + repeat (destruct H as [<-|H]; [discriminate|]). contradiction.
    + destruct (0 <? length (missingFromIndex items indexData))%nat;
        repeat (destruct H as [<-|H]; [discriminate|]); contradiction.
    + destruct (0 <? length (staleInIndex items indexData))%nat;
        repeat (destruct H as [<-|H]; [discriminate|]); contradiction.
    + apply in_flat_map in H as (f' & Hf' & Hin).
      pose proof (file_report_about _ _ _ Hin) as Habout.
      rewrite Hm in Habout. injection Habout as ->. split; assumption.
    + destruct (failed cwd items indexData);
        repeat (destruct H as [<-|H]; [discriminate|]); contradiction.
  - intros [Hf Hin].
    apply in_or_app. right. apply in_or_app. right. apply in_or_app. right.
    apply in_or_app. left. apply in_flat_map. exists f. split; assumption.
Qed.

(** Without an error line there is no failure. *)
Lemma report_errors (cwd items : listing) (indexData : json) :
  failed cwd items indexData = false ->
  forall m, In m (report cwd items indexData) -> is_error m = false.
Proof.
  unfold failed, report. intros Hfailed m H.
  apply orb_false_iff in Hfailed as [Hstale Hfiles]. rewrite Hstale in H.
  unfold failed in H. rewrite Hstale, Hfiles in H. cbn [orb] in H.
  repeat (apply in_app_or in H as [H|H]).
  - repeat (destruct H as [<-|H]; [reflexivity|]). contradiction.
  - destruct (0 <? length (missingFromIndex items indexData))%nat;
      repeat (destruct H as [<-|H]; [reflexivity|]); contradiction.
  - contradiction.
  - apply in_flat_map in H as (f & Hf & Hin).
    assert (Hok : file_fails cwd f = false).
    { destruct (file_fails cwd f) eqn:E; [|reflexivity].
      rewrite <- Hfiles. symmetry. apply existsb_exists. eauto. }
    unfold file_fails in Hok.
    destruct (is_error m) eqn:E; [|reflexivity].
    rewrite <- Hok. symmetry. apply existsb_exists. eauto.
  - repeat (destruct H as [<-|H]; [reflexivity|]). contradiction.
Qed.

(** A discovered file with an error line fails the run, whatever the index
    says. *)
Lemma failing_file_status (cwd items : listing) (f : string) :
  readdirSync cwd COMPONENTS_DIR = Ok items ->
  In f (getAllJsonFiles (Dir items) EmptyString) ->
  file_fails cwd f = true ->
  status (validatePackage cwd) = 1%Z.
Proof.
  intros Hdir Hf Hfails. rewrite validatePackage_status, Hdir.
  destruct (checked_index cwd) as [indexData|]; [|reflexivity].
  assert (Hfailed : failed cwd items indexData = true).
  { unfold failed. apply orb_true_iff. right. apply existsb_exists.
    exists f. split; [apply in_actualFiles, Hf|exact Hfails]. }
  rewrite Hfailed. reflexivity.
Qed.

(** *** One discovered file *)

(** A document with neither key is not skipped. *)
Lemma no_keys_not_topic (d : json) :
  has_key d "topics" = false -> has_key d "definitions" = false ->
  is_topic_document d = false.
Proof.
  unfold has_key, is_topic_document.
  destruct (get_path d ["topics"]); [discriminate|].
  destruct (get_path d ["definitions"]); [discriminate|]. reflexivity.
Qed.

Lemma file_report_component (cwd : listing) (f : string) (d : json) :
  componentData cwd f = Ok d -> d <> JNull -> is_topic_document d = false ->
  file_report cwd f =
  map (fun path => ErrMissingField f (dotted path))
      (filter (flagged d) required_fields).
Proof.
  intros Hd Hnull Htopic. unfold file_report. rewrite Hd, Htopic.
  destruct d; congruence.
Qed.

Lemma file_report_topic (cwd : listing) (f : string) (d : json) :
  componentData cwd f = Ok d -> is_topic_document d = true ->
  file_report cwd f = [LogSkipping f].
Proof.
  intros Hd Htopic. unfold file_report. rewrite Hd, Htopic.
  destruct d; try reflexivity. discriminate Htopic.
Qed.

Lemma dotted_required_inj (p q : list string) :
  In p required_fields -> In q required_fields ->
  dotted p = dotted q -> p = q.
Proof.
  unfold required_fields. cbn [In].
  intros Hp Hq.
  repeat (destruct Hp as [<-|Hp]); try contradiction;
    repeat (destruct Hq as [<-|Hq]); try contradiction;
    cbn; intros H; first [reflexivity | discriminate H].
Qed.

(** The error line of a required field is written exactly when the field
    is flagged. *)
Lemma flagged_line (f : string) (d : json) (path : list string) :
  In path required_fields ->
  In (ErrMissingField f (dotted path))
     (map (fun p => ErrMissingField f (dotted p))
          (filter (flagged d) required_fields))
  <-> flagged d path = true.
Proof.
  intros Hreq. rewrite in_map_iff. split.
  - intros (p & Heq & Hp). apply filter_In in Hp as [Hp Hflag].
    injection Heq as Heq.
    rewrite <- (dotted_required_inj _ _ Hp Hreq Heq). exact Hflag.
  - intros Hflag. exists path. split; [reflexivity|].
    apply filter_In. split; assumption.
Qed.


Lemma reported_as_flagged (d : json) (path : list string) :
  In path required_fields ->
  truthy (get_path d path) = false ->
  In (reported_as d path) required_fields
  /\ flagged d (reported_as d path) = true.
Proof.
  unfold required_fields. cbn [In]. intros Hreq Hfalsy.
  repeat (destruct Hreq as [<-|Hreq]); try contradiction;
    unfold reported_as, flagged; try rewrite Hfalsy;
    try (split; [cbn; tauto|reflexivity]).
  all: destruct (truthy (get_path d [_])) eqn:Houter;
    rewrite ?Hfalsy, ?Houter; split; cbn; tauto.
Qed.

End ValidatorFacts.

(* ================================================================== *)
(** ** The validator: required fields, topic documents, malformed files *)
(* ================================================================== *)

Section ComponentChecks.
Import Validator.
Context {array_sort : ArraySort} {array_sort_laws : ArraySortLaws array_sort}.

(** C1 (amended).  For a discovered file that is not skipped as a topic
    document (so for every file with neither a [topics] nor a [definitions]
    key), a required field ([metadata], [metadata.type], [metadata.name],
    [ui], [ui.template], [integration]) that is absent makes the run exit
    with status 1.  Past the checks of the index and the sort of its
    entries (the run ends there when an entry cannot be converted to a
    string), and the file holding a JSON value other than [null], the
    report holds the error line of that field, or, when the field around it
    ([metadata], [ui]) holds nothing truthy, the error line of the field
    around it and no line for the field itself. *)
Theorem missing_field_reported (cwd items : listing) (f : string) (d : json)
    (path : list string) :
  readdirSync cwd COMPONENTS_DIR = Ok items ->
  In f (getAllJsonFiles (Dir items) EmptyString) ->
  componentData cwd f = Ok d ->
  is_topic_document d = false ->
  In path required_fields ->
  get_path d path = None ->
  status (validatePackage cwd) = 1%Z
  /\ (d <> JNull ->
      forall indexData, checked_index cwd = Some indexData ->
      sortable indexData = true ->
      In (ErrMissingField f (dotted (reported_as d path)))
         (output (validatePackage cwd))
      /\ (reported_as d path <> path ->
          ~ In (ErrMissingField f (dotted path))
               (output (validatePackage cwd)))).
Proof.
  intros Hdir Hf Hd Htopic Hreq Habsent.
  assert (Hfalsy : truthy (get_path d path) = false) by (rewrite Habsent; reflexivity).
  destruct (reported_as_flagged d path Hreq Hfalsy) as [Hreq' Hflag].
  split.
  - apply (failing_file_status cwd items f Hdir Hf).
    unfold file_fails. destruct (json_null_dec d) as [->|Hnull].
    + unfold file_report. rewrite Hd. reflexivity.
    + rewrite (file_report_component _ _ _ Hd Hnull Htopic).
      apply existsb_exists.
      exists (ErrMissingField f (dotted (reported_as d path))).
      split; [|reflexivity]. apply flagged_line; assumption.
  - intros Hnull indexData Hidx Hsort.
    rewrite (validatePackage_report _ _ _ Hidx Hsort Hdir). cbn [output fst].
    rewrite !(report_file_line cwd items indexData f) by reflexivity.
    rewrite (file_report_component _ _ _ Hd Hnull Htopic).
    rewrite !flagged_line by assumption.
    split.
    + split; [apply in_actualFiles, Hf|exact Hflag].
    + intros Hother [_ Hpath]. apply Hother.
      unfold reported_as, flagged in *.
      destruct path as [|outer [|inner [|? ?]]]; try reflexivity.
      apply andb_true_iff in Hpath as [_ Houter]. rewrite Houter. reflexivity.
Qed.

(** C4 (amended).  Past the checks of the index and the sort of its
    entries, a discovered file is skipped exactly when [topics] or [definitions] holds a truthy value in
    it; a skipped file draws no required-field line, and a file that is not
    skipped draws the line of a required field exactly when that field is
    flagged. *)
Theorem topic_document_skipped (cwd items : listing) (indexData : json)
    (f : string) (d : json) :
  checked_index cwd = Some indexData ->
  sortable indexData = true ->
  readdirSync cwd COMPONENTS_DIR = Ok items ->
  In f (getAllJsonFiles (Dir items) EmptyString) ->
  componentData cwd f = Ok d ->
  (In (LogSkipping f) (output (validatePackage cwd))
   <-> is_topic_document d = true)
  /\ (is_topic_document d = true ->
      forall field,
        ~ In (ErrMissingField f field) (output (validatePackage cwd)))
  /\ (is_topic_document d = false -> d <> JNull ->
      forall path, In path required_fields ->
        (In (ErrMissingField f (dotted path)) (output (validatePackage cwd))
         <-> flagged d path = true)).
Proof.
  intros Hidx Hsort Hdir Hf Hd.
  rewrite (validatePackage_report _ _ _ Hidx Hsort Hdir). cbn [output fst].
  apply in_actualFiles in Hf.
  split; [split|split].
  - intros H. apply (report_file_line cwd items indexData f) in H as [_ H];
      [|reflexivity].
    destruct (is_topic_document d) eqn:Htopic; [reflexivity|].
    unfold file_report in H. rewrite Hd, Htopic in H.
    destruct d; try (apply in_map_iff in H as (p & Hp & _); discriminate Hp).
    destruct H as [H|[]]; discriminate H.
  - intros Htopic. apply (report_file_line cwd items indexData f); [reflexivity|].
    split; [exact Hf|]. rewrite (file_report_topic _ _ _ Hd Htopic). now left.
  - intros Htopic field H.
    apply (report_file_line cwd items indexData f) in H as [_ H]; [|reflexivity].
    rewrite (file_report_topic _ _ _ Hd Htopic) in H.
    destruct H as [H|[]]; discriminate H.
  - intros Htopic Hnull path Hreq.
    rewrite (report_file_line cwd items indexData f) by reflexivity.
    rewrite (file_report_component _ _ _ Hd Hnull Htopic).
    rewrite (flagged_line f d path Hreq). tauto.
Qed.




End ComponentChecks.

(** *** The claims above on catalogs *)

Section ComponentRuns.
Import Validator.

Lemma missing_field_reported_witness :
  (readdirSync headless_catalog COMPONENTS_DIR = Ok (components_of headless_catalog)
   /\ In "panel.json"
         (getAllJsonFiles (Dir (components_of headless_catalog)) EmptyString)
   /\ componentData headless_catalog "panel.json" = Ok headless_component
   /\ is_topic_document headless_component = false
   /\ In ["metadata"; "type"] required_fields
   /\ get_path headless_component ["metadata"; "type"] = None)
  /\ status (@validatePackage byte_order headless_catalog) = 1%Z
  /\ In (ErrMissingField "panel.json" "metadata")
        (output (@validatePackage byte_order headless_catalog)).
Proof.
  assert (H1 : readdirSync headless_catalog COMPONENTS_DIR
               = Ok (components_of headless_catalog)) by reflexivity.
  assert (H2 : In "panel.json"
      (getAllJsonFiles (Dir (components_of headless_catalog)) EmptyString))
    by (vm_compute; tauto).
  assert (H3 : componentData headless_catalog "panel.json" = Ok headless_component)
    by reflexivity.
  assert (H4 : is_topic_document headless_component = false) by reflexivity.
  assert (H5 : In ["metadata"; "type"] required_fields) by (cbn; tauto).
  assert (H6 : get_path headless_component ["metadata"; "type"] = None)
    by reflexivity.
  split; [tauto|].
  destruct (@missing_field_reported byte_order byte_order_laws _ _ _ _ _ H1 H2 H3 H4 H5 H6)
    as [Hstatus Hline].
  split; [exact Hstatus|].
  apply (Hline ltac:(discriminate) (index_of ["button.json"; "panel.json"]));
    reflexivity.
Defined.

(** C1 as stated fails: [panel.json] has no [metadata], so no
    [metadata.type] either, and the report has no line for [metadata.type]
    (the line is for [metadata]). *)
Lemma missing_field_reported_counterexample :
  (In "panel.json"
      (getAllJsonFiles (Dir (components_of headless_catalog)) EmptyString)
   /\ componentData headless_catalog "panel.json" = Ok headless_component
   /\ has_key headless_component "topics" = false
   /\ has_key headless_component "definitions" = false
   /\ get_path headless_component ["metadata"; "type"] = None)
  /\ ~ In (ErrMissingField "panel.json" "metadata.type")
          (output (@validatePackage byte_order headless_catalog)).
Proof.
  split.
  - repeat split; vm_compute; tauto.
  - vm_compute. intros H.
    repeat (destruct H as [H|H]; [discriminate H|]). exact H.
Qed.

Lemma topic_document_skipped_witness :
  (checked_index sound_catalog
     = Some (index_of ["button.json"; "topics/canvas.json"])
   /\ sortable (index_of ["button.json"; "topics/canvas.json"]) = true
   /\ readdirSync sound_catalog COMPONENTS_DIR = Ok (components_of sound_catalog)
   /\ In "topics/canvas.json"
         (getAllJsonFiles (Dir (components_of sound_catalog)) EmptyString)
   /\ componentData sound_catalog "topics/canvas.json" = Ok topics_document)
  /\ In (LogSkipping "topics/canvas.json")
        (output (@validatePackage byte_order sound_catalog)).
Proof.
  assert (H1 : checked_index sound_catalog
               = Some (index_of ["button.json"; "topics/canvas.json"]))
    by reflexivity.
  assert (H2 : readdirSync sound_catalog COMPONENTS_DIR
               = Ok (components_of sound_catalog)) by reflexivity.
  assert (H3 : In "topics/canvas.json"
      (getAllJsonFiles (Dir (components_of sound_catalog)) EmptyString))
    by (vm_compute; tauto).
  assert (H4 : componentData sound_catalog "topics/canvas.json" = Ok topics_document)
    by reflexivity.
  assert (H5 : sortable (index_of ["button.json"; "topics/canvas.json"]) = true)
    by reflexivity.
  split; [tauto|].
  apply (proj1 (@topic_document_skipped byte_order byte_order_laws _ _ _ _ _
                  H1 H5 H2 H3 H4)).
  reflexivity.
Defined.

(** C4 as stated fails: [notes.json] has a [topics] key, bound to [null];
    the file is not skipped and its required fields are checked. *)
Lemma topic_document_skipped_counterexample :
  (In "notes.json"
      (getAllJsonFiles (Dir (components_of null_topics_catalog)) EmptyString)
   /\ componentData null_topics_catalog "notes.json" = Ok null_topics_document
   /\ has_key null_topics_document "topics" = true)
  /\ In (ErrMissingField "notes.json" "metadata")
        (output (@validatePackage byte_order null_topics_catalog))
  /\ ~ In (LogSkipping "notes.json")
          (output (@validatePackage byte_order null_topics_catalog)).
Proof.
  split; [|split].
  - repeat split; vm_compute; tauto.
  - vm_compute. tauto.
  - vm_compute. intros H.
    repeat (destruct H as [H|H]; [discriminate H|]). exact H.
Qed.



End ComponentRuns.

(* ================================================================== *)
(** ** The validator: the index against the directory *)
(* ================================================================== *)

Section IndexChecks.
Import Validator.
Context {array_sort : ArraySort} {array_sort_laws : ArraySortLaws array_sort}.

Lemma names_include_in (names : list string) (e : json) :
  names_include names e = true <-> exists s, e = JStr s /\ In s names.
Proof.
  split.
  - destruct e; try discriminate. cbn. intros H.
    apply existsb_exists in H as (x & Hx & Heq).
    apply String.eqb_eq in Heq. subst x. eauto.
  - intros (s & -> & Hs). cbn. apply existsb_exists.
    exists s. split; [exact Hs|apply String.eqb_refl].
Qed.

Lemma arr_includes_in (entries : list json) (s : string) :
  arr_includes entries s = true <-> In (JStr s) entries.
Proof.
  unfold arr_includes. rewrite existsb_exists. split.
  - intros (e & He & Heq). destruct e; try discriminate.
    cbn in Heq. apply String.eqb_eq in Heq. subst. exact He.
  - intros H. exists (JStr s). split; [exact H|apply String.eqb_refl].
Qed.

Lemma filter_none {A : Type} (p : A -> bool) (l : list A) :
  (forall x, In x l -> p x = false) -> filter p l = [].
Proof.
  induction l as [|x l IH]; [reflexivity|]. intros H. cbn.
  rewrite (H x (or_introl eq_refl)). apply IH.
  intros y Hy. apply H. now right.
Qed.

Lemma nonempty_length {A : Type} (l : list A) (x : A) :
  In x l -> (0 <? length l)%nat = true.
Proof. destruct l; [contradiction|reflexivity]. Qed.

Lemma complete_not_flagged (d : json) :
  complete d = true -> filter (flagged d) required_fields = [].
Proof.
  unfold complete, required_fields. cbn [forallb].
  rewrite !andb_true_iff.
  intros (H1 & H2 & H3 & H4 & H5 & H6 & _).
  rewrite !filter_cons_app. unfold flagged.
  rewrite H1, H2, H3, H4, H5, H6. reflexivity.
Qed.

Lemma valid_document_passes (cwd : listing) (f : string) (d : json) :
  componentData cwd f = Ok d -> valid_document d = true ->
  file_fails cwd f = false.
Proof.
  intros Hd Hvalid. unfold file_fails.
  destruct (is_topic_document d) eqn:Htopic.
  - rewrite (file_report_topic _ _ _ Hd Htopic). reflexivity.
  - unfold valid_document in Hvalid. rewrite Htopic in Hvalid.
    cbn [orb] in Hvalid.
    assert (Hnull : d <> JNull) by (intros ->; discriminate Hvalid).
    rewrite (file_report_component _ _ _ Hd Hnull Htopic).
    rewrite (complete_not_flagged _ Hvalid). reflexivity.
Qed.


(** C3.  Past the checks of the index and the sort of its entries, a
    discovered file that the index does not list is named in a line written
    with [console.warn]; and when
    every entry of the index names a discovered file and every discovered
    file holds a valid document, the report has no error line and the run
    exits with status 0. *)
Theorem undeclared_file_warned (cwd items : listing) (indexData : json)
    (f : string) :
  checked_index cwd = Some indexData ->
  readdirSync cwd COMPONENTS_DIR = Ok items ->
  In f (getAllJsonFiles (Dir items) EmptyString) ->
  ~ In (JStr f) (spread (get_path indexData ["components"])) ->
  (sortable indexData = true ->
   exists files,
      In (WarnNotListed files) (output (validatePackage cwd))
      /\ In f files
      /\ level_of (WarnNotListed files) = Warning)
  /\ ((forall e, In e (spread (get_path indexData ["components"])) ->
         exists s, e = JStr s
                   /\ In s (getAllJsonFiles (Dir items) EmptyString)) ->
      (forall f', In f' (getAllJsonFiles (Dir items) EmptyString) ->
         exists d, componentData cwd f' = Ok d /\ valid_document d = true) ->
      status (validatePackage cwd) = 0%Z
      /\ forall m, In m (output (validatePackage cwd)) -> is_error m = false).
Proof.
  intros Hidx Hdir Hf Hundeclared.
  rewrite validatePackage_status, Hidx, Hdir.
  split.
  - intros Hsort.
    rewrite (validatePackage_report _ _ _ Hidx Hsort Hdir). cbn [output fst].
    assert (Hmissing : In f (missingFromIndex items indexData)).
    { apply filter_In. split; [apply in_actualFiles, Hf|].
      apply negb_true_iff.
      destruct (arr_includes (declaredFiles indexData) f) eqn:Hinc; [|reflexivity].
      apply arr_includes_in, in_declaredFiles in Hinc. contradiction. }
    exists (missingFromIndex items indexData). split; [|split].
    + unfold report. rewrite (nonempty_length _ _ Hmissing).
      apply in_or_app. right. apply in_or_app. left. now left.
    + exact Hmissing.
    + reflexivity.
  - intros Hentries Hfiles.
    assert (Hsort : sortable indexData = true).
    { apply strings_sortable. intros e He.
      destruct (Hentries e He) as (s & -> & _). eauto. }
    rewrite (validatePackage_report _ _ _ Hidx Hsort Hdir). cbn [output fst].
    assert (Hok : failed cwd items indexData = false).
    { unfold failed. apply orb_false_iff. split.
      - unfold staleInIndex. rewrite filter_none; [reflexivity|].
        intros e He. apply negb_false_iff, names_include_in.
        apply in_declaredFiles in He.
        destruct (Hentries e He) as (s & -> & Hs).
        exists s. split; [reflexivity|apply in_actualFiles, Hs].
      - destruct (existsb (file_fails cwd) (actualFiles items)) eqn:E;
          [|reflexivity].
        apply existsb_exists in E as (f' & Hf' & Hfails).
        apply in_actualFiles in Hf'.
        destruct (Hfiles f' Hf') as (d & Hd & Hvalid).
        rewrite (valid_document_passes _ _ _ Hd Hvalid) in Hfails.
        discriminate Hfails. }
    rewrite Hok. split; [reflexivity|].
    apply report_errors, Hok.
Qed.

End IndexChecks.

(* ================================================================== *)
(** ** The validator: the order of the index *)
(* ================================================================== *)

Section IndexOrder.
Import Validator.
Context {array_sort : ArraySort} {array_sort_laws : ArraySortLaws array_sort}.

Lemma same_but_order_parse (c c' : text) :
  same_but_order c c' ->
  match JSON_parse c, JSON_parse c' with
  | Ok d, Ok d' =>
      agree d d'
      /\ truthy (get_path d ["version"]) = truthy (get_path d' ["version"])
      /\ isArray (get_path d ["components"]) = isArray (get_path d' ["components"])
      /\ Permutation (spread (get_path d ["components"]))
                     (spread (get_path d' ["components"]))
  | Throw e, Throw e' => e = e'
  | _, _ => False
  end.
Proof.
  intros [<-|(fields & entries & entries' & -> & -> & Hc & Hperm)].
  - destruct c as [d|]; cbn; [|reflexivity].
    repeat split; try tauto. reflexivity.
  - cbn [JSON_parse]. split; [split|split; [|split]].
    + split; discriminate.
    + intros k rest Hk. cbn [get_path].
      rewrite (assoc_set_field_other _ _ _ _ Hk). reflexivity.
    + rewrite !get_path_obj1.
      rewrite assoc_set_field_other by discriminate. reflexivity.
    + rewrite !get_path_obj1, assoc_set_field_same, Hc. reflexivity.
    + rewrite !get_path_obj1, assoc_set_field_same, Hc. exact Hperm.
Qed.

Lemma agree_report (f : string) (d d' : json) :
  agree d d' ->
  match d with
  | JNull => [ErrInvalidJson f TypeError]
  | _ => if is_topic_document d then [LogSkipping f]
         else map (fun path => ErrMissingField f (dotted path))
                  (filter (flagged d) required_fields)
  end =
  match d' with
  | JNull => [ErrInvalidJson f TypeError]
  | _ => if is_topic_document d' then [LogSkipping f]
         else map (fun path => ErrMissingField f (dotted path))
                  (filter (flagged d') required_fields)
  end.
Proof.
  intros [Hnull Hkeys].
  assert (Hchecks :
    (if is_topic_document d then [LogSkipping f]
     else map (fun path => ErrMissingField f (dotted path))
              (filter (flagged d) required_fields)) =
    (if is_topic_document d' then [LogSkipping f]
     else map (fun path => ErrMissingField f (dotted path))
              (filter (flagged d') required_fields))).
  { unfold is_topic_document, required_fields.
    rewrite !filter_cons_app. cbn [filter]. unfold flagged.
    rewrite !(Hkeys _ _) by discriminate. reflexivity. }
  destruct d, d'; try exact Hchecks; try reflexivity;
    exfalso; (assert (E : @JNull = JNull) by reflexivity);
    first [apply (proj1 Hnull) in E | apply (proj2 Hnull) in E]; discriminate E.
Qed.

(** *** Trees alike *)

Lemma alike_find (R : text -> text -> Prop) (name : string) (entries : listing) :
  forall entries', alike R (Dir entries) (Dir entries') ->
  alike_option R (find_entry name entries) (find_entry name entries').
Proof.
  induction entries as [|[k child] rest IH]; intros entries' H;
    inversion H; subst; cbn.
  - exact I.
  - destruct (k =? name); [assumption|]. apply IH. assumption.
Qed.

Lemma alike_walk (R : text -> text -> Prop) (segs : list string) :
  forall n n', alike R n n' -> alike_option R (walk n segs) (walk n' segs).
Proof.
  induction segs as [|seg segs IH]; intros n n' H; [exact H|].
  destruct n as [c|entries], n' as [c'|entries']; try (inversion H; fail).
  - exact I.
  - cbn [walk]. pose proof (alike_find R seg _ _ H) as Hfind.
    destruct (find_entry seg entries), (find_entry seg entries');
      try contradiction; [|exact I].
    apply IH, Hfind.
Qed.

Lemma alike_files (R : text -> text -> Prop) (n n' : node) :
  alike R n n' ->
  forall base, getAllJsonFiles n base = getAllJsonFiles n' base.
Proof.
  induction 1 as [c c' _| |name child child' rest rest' Hchild IHchild _ IHrest];
    intros base; try reflexivity.
  change (getAllJsonFiles (Dir ((name, child) :: rest)) base)
    with (match child with
          | Dir _ =>
              getAllJsonFiles child
                (if base =? "" then name else path_join base name)
          | File _ =>
              if endsWith name ".json" && negb (name =? "index.json")
              then [replace_backslashes
                      (if base =? "" then name else path_join base name)]
              else []
          end ++ getAllJsonFiles (Dir rest) base).
  change (getAllJsonFiles (Dir ((name, child') :: rest')) base)
    with (match child' with
          | Dir _ =>
              getAllJsonFiles child'
                (if base =? "" then name else path_join base name)
          | File _ =>
              if endsWith name ".json" && negb (name =? "index.json")
              then [replace_backslashes
                      (if base =? "" then name else path_join base name)]
              else []
          end ++ getAllJsonFiles (Dir rest') base).
  rewrite IHrest. f_equal.
  inversion Hchild; subst; try reflexivity; apply IHchild.
Qed.

Lemma alike_refl (R : text -> text -> Prop) :
  (forall c, R c c) -> forall n, alike R n n.
Proof.
  intros HR n.
  induction n using node_entries_ind; constructor; auto.
Qed.

(** Editing one file gives a tree like the old one. *)
Lemma write_file_alike (R : text -> text -> Prop) (c c' : text) :
  (forall x, R x x) -> R c c' ->
  forall segs n, walk n segs = Some (File c) ->
  alike R n (write_file n segs c').
Proof.
  intros Hrefl HR. induction segs as [|seg segs IH]; intros n Hwalk.
  - cbn in Hwalk. injection Hwalk as ->. constructor. exact HR.
  - destruct n as [c0|entries]; [discriminate|].
    cbn [walk] in Hwalk. cbn [write_file].
    induction entries as [|[name child] rest IHrest]; [discriminate|].
    cbn [find_entry] in Hwalk.
    destruct (name =? seg).
    + constructor; [apply IH, Hwalk|apply alike_refl, Hrefl].
    + constructor; [apply alike_refl, Hrefl|apply IHrest, Hwalk].
Qed.

Lemma alike_resolve (R : text -> text -> Prop) (cwd cwd' : listing) (p : string) :
  alike R (Dir cwd) (Dir cwd') ->
  alike_option R (resolve cwd p) (resolve cwd' p).
Proof. intros H. apply alike_walk, H. Qed.

Lemma permutation_existsb {A : Type} (p : A -> bool) (l l' : list A) :
  Permutation l l' -> existsb p l = existsb p l'.
Proof.
  induction 1; cbn.
  - reflexivity.
  - now rewrite IHPermutation.
  - rewrite !orb_assoc, (orb_comm (p y)). reflexivity.
  - congruence.
Qed.

Lemma existsb_pointwise {A : Type} (p q : A -> bool) (l : list A) :
  (forall x, p x = q x) -> existsb p l = existsb q l.
Proof.
  intros H. induction l as [|x l IH]; [reflexivity|].
  cbn. rewrite H, IH. reflexivity.
Qed.

Lemma nonempty_filter {A : Type} (p : A -> bool) (l : list A) :
  (0 <? length (filter p l))%nat = existsb p l.
Proof.
  induction l as [|x l IH]; [reflexivity|]. cbn.
  destruct (p x); [reflexivity|exact IH].
Qed.

Section Alike.
Variables cwd cwd' : listing.
Hypothesis Halike : alike same_but_order (Dir cwd) (Dir cwd').

Lemma alike_componentData (f : string) :
  file_report cwd f = file_report cwd' f.
Proof.
  unfold file_report, componentData, readFileSync.
  pose proof (alike_resolve _ _ _ (path_join COMPONENTS_DIR f) Halike) as H.
  destruct (resolve cwd (path_join COMPONENTS_DIR f)) as [[c|es]|],
           (resolve cwd' (path_join COMPONENTS_DIR f)) as [[c'|es']|];
    try (inversion H; fail); try reflexivity.
  inversion H as [? ? HR| |]; subst.
  apply same_but_order_parse in HR. cbn [rbind].
  destruct (JSON_parse c) as [d|e], (JSON_parse c') as [d'|e'];
    try contradiction.
  - destruct HR as (Hagree & _). apply agree_report, Hagree.
  - subst. reflexivity.
Qed.

Lemma alike_status : status (validatePackage cwd') = status (validatePackage cwd).
Proof.
  rewrite !validatePackage_status.
  unfold checked_index, readFileSync, readdirSync.
  pose proof (alike_resolve _ _ _ INDEX_FILE Halike) as Hidx.
  pose proof (alike_resolve _ _ _ COMPONENTS_DIR Halike) as Hdir.
  destruct (resolve cwd INDEX_FILE) as [[c|es]|],
           (resolve cwd' INDEX_FILE) as [[c'|es']|];
    try (inversion Hidx; fail); try reflexivity.
  inversion Hidx as [? ? HR| |]; subst.
  apply same_but_order_parse in HR.
  destruct c as [d|], c' as [d'|]; cbn [JSON_parse] in HR;
    try contradiction; try reflexivity.
  destruct HR as (_ & Hv & Harr & Hperm).
  rewrite <- Hv, <- Harr.
  destruct (truthy (get_path d ["version"])
            && isArray (get_path d ["components"])); [|reflexivity].
  destruct (resolve cwd COMPONENTS_DIR) as [[x|items]|],
           (resolve cwd' COMPONENTS_DIR) as [[x'|items']|];
    try (inversion Hdir; fail); try reflexivity.
  assert (Hfiles : actualFiles items' = actualFiles items).
  { unfold actualFiles. rewrite (alike_files _ _ _ Hdir). reflexivity. }
  assert (Hfailed : failed cwd' items' d' = failed cwd items d).
  { unfold failed, staleInIndex. rewrite !nonempty_filter, Hfiles. f_equal.
    - apply permutation_existsb. unfold declaredFiles.
      rewrite !sort_values_perm. symmetry. exact Hperm.
    - apply existsb_pointwise. intros f. unfold file_fails.
      rewrite alike_componentData. reflexivity. }
  rewrite Hfailed. reflexivity.
Qed.

End Alike.

(** C9.  Writing the entries of the index's [components] array in another
    order leaves the exit status of the run as it was. *)
Theorem index_order_irrelevant (cwd : listing) (fields : list (string * json))
    (entries entries' : list json) :
  readFileSync cwd INDEX_FILE = Ok (Some (JObj fields)) ->
  assoc "components" fields = Some (JArr entries) ->
  Permutation entries entries' ->
  status (validatePackage
            (edit cwd INDEX_FILE
                  (Some (JObj (set_field "components" (JArr entries') fields)))))
  = status (validatePackage cwd).
Proof.
  intros Hread Hc Hperm.
  assert (Hwalk : walk (Dir cwd) (normalize (split_path INDEX_FILE))
                  = Some (File (Some (JObj fields)))).
  { unfold readFileSync, resolve in Hread.
    destruct (walk (Dir cwd) (normalize (split_path INDEX_FILE))) as [[c|es]|];
      try discriminate.
    injection Hread as ->. reflexivity. }
  pose proof (write_file_alike same_but_order _
                (Some (JObj (set_field "components" (JArr entries') fields)))
                (fun x => or_introl eq_refl)
                (or_intror (ex_intro _ fields (ex_intro _ entries (ex_intro _ entries'
                   (conj eq_refl (conj eq_refl (conj Hc Hperm)))))))
                _ _ Hwalk) as Halike.
  unfold edit.
  destruct (write_file (Dir cwd) (normalize (split_path INDEX_FILE))
              (Some (JObj (set_field "components" (JArr entries') fields))))
    as [c|cwd']; [inversion Halike|].
  apply alike_status, Halike.
Qed.

End IndexOrder.

(** *** The claims about the index on catalogs *)

Section IndexRuns.
Import Validator.


Lemma undeclared_file_warned_witness :
  (checked_index undeclared_catalog = Some (index_of ["button.json"])
   /\ readdirSync undeclared_catalog COMPONENTS_DIR
      = Ok (components_of undeclared_catalog)
   /\ In "extra.json"
         (getAllJsonFiles (Dir (components_of undeclared_catalog)) EmptyString)
   /\ ~ In (JStr "extra.json")
          (spread (get_path (index_of ["button.json"]) ["components"]))
   /\ sortable (index_of ["button.json"]) = true)
  /\ (exists files,
        In (WarnNotListed files)
           (output (@validatePackage byte_order undeclared_catalog))
        /\ In "extra.json" files)
  /\ status (@validatePackage byte_order undeclared_catalog) = 0%Z.
Proof.
  assert (H1 : checked_index undeclared_catalog = Some (index_of ["button.json"]))
    by reflexivity.
  assert (H2 : readdirSync undeclared_catalog COMPONENTS_DIR
               = Ok (components_of undeclared_catalog)) by reflexivity.
  assert (H3 : In "extra.json"
      (getAllJsonFiles (Dir (components_of undeclared_catalog)) EmptyString))
    by (vm_compute; tauto).
  assert (H4 : ~ In (JStr "extra.json")
                    (spread (get_path (index_of ["button.json"]) ["components"]))).
  { cbn. intros [H|[]]. discriminate H. }
  assert (H5 : sortable (index_of ["button.json"]) = true) by reflexivity.
  split; [tauto|].
  destruct (@undeclared_file_warned byte_order byte_order_laws _ _ _ _ H1 H2 H3 H4)
    as (Hwarn & Hvalid).
  destruct (Hwarn H5) as (files & Hline & Hf & _).
  split; [exists files; tauto|].
  apply Hvalid.
  - intros e [<-|[]]. exists "button.json". split; [reflexivity|].
    vm_compute. tauto.
  - intros f' Hf'. vm_compute in Hf'.
    destruct Hf' as [<-|[<-|[]]]; exists button_component;
      split; reflexivity.
Defined.

Lemma index_order_irrelevant_witness :
  (readFileSync sound_catalog INDEX_FILE
   = Ok (Some (JObj [ ("version", JStr "1.0.0");
                      ("components",
                       JArr [JStr "button.json"; JStr "topics/canvas.json"]) ]))
   /\ Permutation [JStr "button.json"; JStr "topics/canvas.json"]
                  [JStr "topics/canvas.json"; JStr "button.json"])
  /\ status (@validatePackage byte_order
               (catalog (index_of ["topics/canvas.json"; "button.json"])
                  [ ("button.json", File (Some button_component));
                    ("topics", Dir [("canvas.json", File (Some topics_document))]) ]))
     = status (@validatePackage byte_order sound_catalog).
Proof.
  assert (H1 : readFileSync sound_catalog INDEX_FILE
     = Ok (Some (JObj [ ("version", JStr "1.0.0");
                        ("components",
                         JArr [JStr "button.json"; JStr "topics/canvas.json"]) ])))
    by reflexivity.
  assert (H2 : Permutation [JStr "button.json"; JStr "topics/canvas.json"]
                           [JStr "topics/canvas.json"; JStr "button.json"])
    by apply perm_swap.
  split; [tauto|].
  exact (@index_order_irrelevant byte_order byte_order_laws sound_catalog _ _ _ H1 eq_refl H2).
Defined.

End IndexRuns.

(* ================================================================== *)
(** ** The test suite, run *)
(* ================================================================== *)

Section SuiteFacts.
Import ReactTests.

Lemma test_line (entry : string * result unit) (c : counters) :
  test entry c =
  ([line entry],
   Next {| testCount := S (testCount c);
           passedCount := if passes (snd entry)
                          then S (passedCount c) else passedCount c |}).
Proof. destruct entry as [name [[]|e]]; reflexivity. Qed.

Lemma for_each_test (results : list (string * result unit)) (c : counters) :
  for_each results c test =
  (map line results,
   Next {| testCount := testCount c + length results;
           passedCount := passedCount c + passed results |}).
Proof.
  revert c. induction results as [|entry results IH]; intros [tc pc].
  - cbn. rewrite !Nat.add_0_r. reflexivity.
  - cbn [for_each]. rewrite test_line. cbn [bind]. rewrite IH.
    cbn [map app testCount passedCount length]. unfold passed. cbn [filter].
    rewrite <- Nat.add_succ_comm.
    destruct (passes (snd entry)); cbn [length];
      rewrite <- ?Nat.add_succ_comm; reflexivity.
Qed.

(** The run once both files are loaded. *)
Lemma main_report (root : listing) (rc index : json) :
  loadReactComponent root = Ok rc ->
  loadIndex root = Ok index ->
  main root =
  (LogRunning :: map line (tests rc index) ++ verdict (passed (tests rc index)),
   Exit (if (passed (tests rc index) =? 8)%nat then 0%Z else 1%Z)).
Proof.
  intros Hrc Hindex. unfold main, runTests. rewrite Hrc, Hindex.
  cbn [lift ret bind print]. rewrite for_each_test.
  cbn [bind testCount passedCount Nat.add].
  change (length (tests rc index)) with 8%nat. unfold verdict.
  destruct (passed (tests rc index) =? 8)%nat; reflexivity.
Qed.

(** The run when a file cannot be loaded. *)
Lemma main_not_loaded (root : listing) (e : error) :
  loadReactComponent root = Throw e
  \/ (exists rc, loadReactComponent root = Ok rc /\ loadIndex root = Throw e) ->
  main root = ([LogRunning; ErrSuiteFailed e], Exit 1%Z).
Proof.
  unfold main, runTests. intros [H|(rc & Hrc & H)].
  - rewrite H. reflexivity.
  - rewrite Hrc, H. reflexivity.
Qed.

Lemma passed_all (results : list (string * result unit)) :
  passed results = length results <->
  forall entry, In entry results -> passes (snd entry) = true.
Proof.
  unfold passed. induction results as [|entry results IH]; cbn.
  - split; [intros _ ? []|reflexivity].
  - destruct (passes (snd entry)) eqn:E; cbn [length].
    + split.
      * intros H x [<-|Hx]; [exact E|]. apply IH; [lia|exact Hx].
      * intros H. f_equal. apply IH. intros x Hx. apply H. now right.
    + split.
      * intros H. pose proof (filter_length_le (fun x => passes (snd x)) results).
        lia.
      * intros H. specialize (H entry (or_introl eq_refl)). congruence.
Qed.

End SuiteFacts.

(* ================================================================== *)
(** ** The test suite: counting and the exit status *)
(* ================================================================== *)

Section SuiteClaims.
Import ReactTests.

(** C6 (amended).  When the component file and the index file load, every
    one of the eight checks writes its line: the failure line with the
    error it threw, or the pass line; the run then reports the number of
    checks that did not throw out of 8, and the process exits with status 0
    when that number is 8 and with status 1 otherwise. *)
Theorem checks_counted (root : listing) (rc index : json) :
  loadReactComponent root = Ok rc ->
  loadIndex root = Ok index ->
  length (tests rc index) = 8%nat
  /\ (forall name e, In (name, Throw e) (tests rc index) ->
        In (ErrFail name e) (output (main root)))
  /\ (forall name, In (name, Ok tt) (tests rc index) ->
        In (LogPass name) (output (main root)))
  /\ In (LogResults (passed (tests rc index)) 8) (output (main root))
  /\ (status (main root) = 0%Z <-> passed (tests rc index) = 8%nat)
  /\ (status (main root) = 1%Z <-> passed (tests rc index) <> 8%nat).
Proof.
  intros Hrc Hindex. rewrite (main_report _ _ _ Hrc Hindex).
  cbn [output status fst snd].
  split; [reflexivity|]. split; [|split; [|split; [|split]]].
  - intros name e H. right. apply in_or_app. left.
    apply (in_map line) in H. exact H.
  - intros name H. right. apply in_or_app. left.
    apply (in_map line) in H. exact H.
  - right. apply in_or_app. right. now left.
  - destruct (passed (tests rc index) =? 8)%nat eqn:E.
    + apply Nat.eqb_eq in E. tauto.
    + apply Nat.eqb_neq in E. split; [discriminate|contradiction].
  - destruct (passed (tests rc index) =? 8)%nat eqn:E.
    + apply Nat.eqb_eq in E. split; [discriminate|contradiction].
    + apply Nat.eqb_neq in E. tauto.
Qed.

Lemma checks_counted_witness :
  (loadReactComponent sketch_package = Ok sketch_component
   /\ loadIndex sketch_package = Ok react_index)
  /\ In (LogResults 1 8) (output (main sketch_package))
  /\ status (main sketch_package) = 1%Z.
Proof.
  assert (H1 : loadReactComponent sketch_package = Ok sketch_component)
    by reflexivity.
  assert (H2 : loadIndex sketch_package = Ok react_index) by reflexivity.
  split; [tauto|].
  destruct (checks_counted _ _ _ H1 H2) as (_ & _ & _ & Hline & _ & Hone).
  split; [exact Hline|]. apply Hone. vm_compute. discriminate.
Defined.

(** C6 as stated fails: without [react.json] no check runs and no count is
    reported; the entry point writes the suite-failed line and exits 1. *)
Lemma checks_counted_counterexample :
  main bare_package
  = ([LogRunning; ErrSuiteFailed (Failure "React component file not found")],
     Exit 1%Z)
  /\ forall p t, ~ In (LogResults p t) (output (main bare_package)).
Proof.
  split; [reflexivity|].
  intros p t H. vm_compute in H.
  repeat (destruct H as [H|H]; [discriminate H|]). exact H.
Qed.

End SuiteClaims.

(* ================================================================== *)
(** ** The test suite: the shape of the component *)
(* ================================================================== *)

(** The last key of a literal path, and the path before it. *)
Ltac split_last l :=
  lazymatch l with
  | [?k] => constr:((@nil string, k))
  | ?a :: ?r =>
      let res := split_last r in
      lazymatch res with
      | (?q, ?k) => constr:((a :: q, k))
      end
  end.

(** Write every chain of reads of the goal as a test on the path. *)
Ltac reads :=
  repeat match goal with
    | |- context [access (Some ?j) ?p] =>
        let res := split_last p in
        lazymatch res with
        | (?q, ?k) =>
            change (access (Some j) p) with (access (Some j) (q ++ [k]));
            rewrite (access_snoc j q k); cbn [app]
        end
    | |- context [access (get_path ?j ?p0) ?p] =>
        let res := split_last p in
        lazymatch res with
        | (?q, ?k) =>
            change (access (get_path j p0) p)
              with (access (get_path j p0) (q ++ [k]));
            rewrite (access_from j p0 q k); cbn [app]
        end
    | |- context [get (get_path ?j ?p) ?k] =>
        rewrite (get_snoc j p k); cbn [app]
    end.

(** Settle a test [nullish (get_path j q)] of the goal from what is known
    about [j]. *)
Ltac settle_nullish :=
  match goal with
  | |- context [nullish (get_path ?j ?q)] =>
      first
        [ match goal with
          | H : get_path j q = Some _ |- _ => rewrite H
          end
        | match goal with
          | H : get_path j ?p = Some _ |- _ =>
              rewrite (prefix_present j q p _ H eq_refl)
          end ]
  end.

Lemma lists_includes (v : value) (s : string) :
  ReactTests.lists v s ->
  isArray v = true /\ includes v s = Ok true /\ typeof v = "object"
  /\ nullish v = false.
Proof.
  intros (items & -> & Hin). repeat split. cbn. f_equal.
  apply existsb_exists. exists (JStr s). split; [exact Hin|apply String.eqb_refl].
Qed.

Lemma includes_present (v : value) (s : string) (b : bool) :
  includes v s = Ok b -> nullish v = false.
Proof. destruct v as [[ | | | | | ]|]; cbn; congruence. Qed.

(** Name the value of every path the hypotheses speak of. *)
Ltac learn :=
  repeat match goal with
    | H : ReactTests.lists (get_path _ _) _ |- _ =>
        apply lists_includes in H; destruct H as (? & ? & ? & ?)
    | H : includes (get_path ?j ?p) ?s = Ok _ |- _ =>
        lazymatch goal with
        | _ : nullish (get_path j p) = false |- _ => fail
        | _ => pose proof (includes_present _ _ _ H)
        end
    end;
  unfold ReactTests.present in *;
  repeat match goal with
    | H : context [get_path ?j ?p] |- _ =>
        lazymatch type of H with
        | get_path j p = Some _ => fail
        | _ => destruct (get_path j p) eqn:?; [|discriminate H]
        end
    end.

(** Use an equation of the context from left to right. *)
Ltac use_known :=
  match goal with
  | H : ?f (Some ?v) = _ |- context [?f (Some ?v)] => rewrite H
  | H : includes (Some ?v) ?s = _ |- context [includes (Some ?v) ?s] => rewrite H
  | H : get_path ?j ?p = Some _ |- context [get_path ?j ?p] => rewrite H
  end.

(** Run a check on a component whose shape is known. *)
Ltac run_check :=
  reads;
  unfold ReactTests.assertExists, ReactTests.assertEqual,
    ReactTests.assertType, ReactTests.assert;
  repeat first
    [ settle_nullish
    | progress reads
    | use_known
    | progress cbn -[get_path isArray includes truthy typeof nullish] ].

Section Shape.
Import ReactTests.

Lemma test_metadata_passes (rc : json) :
  react_shape rc -> test_metadata rc = Ok tt.
Proof. intros []. learn. unfold test_metadata. run_check. reflexivity. Qed.

Lemma test_ui_passes (rc : json) :
  react_shape rc -> test_ui rc = Ok tt.
Proof. intros []. learn. unfold test_ui. run_check. reflexivity. Qed.

Lemma test_integration_passes (rc : json) :
  react_shape rc -> test_integration rc = Ok tt.
Proof. intros []. learn. unfold test_integration. run_check. reflexivity. Qed.

Lemma test_template_passes (rc : json) :
  react_shape rc -> test_template rc = Ok tt.
Proof. intros []. learn. unfold test_template. run_check. reflexivity. Qed.

Lemma test_interactions_passes (rc : json) :
  react_shape rc -> test_interactions rc = Ok tt.
Proof. intros []. learn. unfold test_interactions. run_check. reflexivity. Qed.

Lemma test_canvas_passes (rc : json) :
  react_shape rc -> test_canvas rc = Ok tt.
Proof. intros []. learn. unfold test_canvas. run_check. reflexivity. Qed.

Lemma test_events_passes (rc : json) :
  react_shape rc -> test_events rc = Ok tt.
Proof. intros []. learn. unfold test_events. run_check. reflexivity. Qed.

Lemma test_index_passes (index : json) :
  lists (get_path index ["components"]) "react.json" ->
  test_index index = Ok tt.
Proof. intros H. learn. unfold test_index. run_check. reflexivity. Qed.

Lemma shape_passes (rc index : json) :
  react_shape rc ->
  lists (get_path index ["components"]) "react.json" ->
  passed (tests rc index) = 8%nat.
Proof.
  intros Hshape Hindex. unfold passed, tests. cbn [filter snd].
  rewrite (test_metadata_passes _ Hshape), (test_ui_passes _ Hshape),
    (test_integration_passes _ Hshape), (test_template_passes _ Hshape),
    (test_interactions_passes _ Hshape), (test_index_passes _ Hindex),
    (test_canvas_passes _ Hshape), (test_events_passes _ Hshape).
  reflexivity.
Qed.

Lemma react_component_shape : react_shape react_component.
Proof.
  constructor; try reflexivity;
    eexists; (split; [reflexivity|cbn; tauto]).
Qed.

End Shape.

(* ================================================================== *)
(** ** The test suite: one field changed *)
(* ================================================================== *)

Section Corruption.
Import ReactTests.

(** The edit leaves the other top-level fields as they were. *)
Lemma set_path_other (j : json) (k : string) (rest : list string) (v : json)
    (k' : string) (p : list string) :
  k' <> k ->
  get_path (set_path j (k :: rest) v) (k' :: p) = get_path j (k' :: p).
Proof.
  intros Hk. destruct j as [ | | | | |fields]; try reflexivity.
  cbn [set_path].
  destruct rest as [|r rest].
  - cbn [get_path]. rewrite (assoc_set_field_other _ _ _ _ Hk). reflexivity.
  - destruct (assoc k fields) as [j'|]; [|reflexivity].
    cbn [get_path]. rewrite (assoc_set_field_other _ _ _ _ Hk). reflexivity.
Qed.

Lemma set_path_nullish (j : json) (k : string) (rest : list string) (v : json) :
  nullish (get_path (set_path j (k :: rest) v) []) = nullish (get_path j []).
Proof.
  destruct j as [ | | | | |fields]; try reflexivity.
  cbn [set_path]. destruct rest; [reflexivity|].
  destruct (assoc k fields); reflexivity.
Qed.

(** The edit puts the new value where the old one was. *)
Lemma set_path_same (p : list string) :
  forall (j x v : json),
    get_path j p = Some x -> get_path (set_path j p v) p = Some v.
Proof.
  induction p as [|k rest IH]; intros j x v H; [reflexivity|].
  destruct j as [ | | | | |fields]; try discriminate H.
  cbn [get_path] in H.
  destruct (assoc k fields) as [j'|] eqn:E; [|discriminate H].
  cbn [set_path]. rewrite E.
  destruct rest as [|r rest].
  - cbn [get_path]. rewrite assoc_set_field_same. reflexivity.
  - cbn [get_path]. rewrite assoc_set_field_same.
    apply (IH j' x v H).
Qed.

Lemma is_string_other (s : string) (v : json) :
  v <> JStr s -> is_string s v = false.
Proof.
  destruct v; try reflexivity. cbn. intros H.
  apply String.eqb_neq. congruence.
Qed.

Lemma strict_eq_string_holds (v : value) (s : string) :
  strict_eq_string v s = true -> v = Some (JStr s).
Proof.
  destruct v as [[ | | |s'| | ]|]; try discriminate. cbn.
  intros H. apply String.eqb_eq in H. congruence.
Qed.

(** A template check that passes has read [react] as the strategy. *)
Lemma test_template_strategy (rc : json) :
  test_template rc = Ok tt ->
  get_path rc strategy_path = Some (JStr "react").
Proof.
  unfold test_template, strategy_path. reads.
  unfold assertExists, assertEqual.
  destruct (nullish (get_path rc [])); [discriminate|].
  cbn [rbind].
  destruct (nullish (get_path rc ["template"])) eqn:Ht; [discriminate|].
  cbn [rbind].
  destruct (nullish (get_path rc ["template"; "render"])) eqn:Hr; [discriminate|].
  cbn [rbind].
  destruct (strict_eq_string (get_path rc ["template"; "render"; "strategy"]) "react")
    eqn:Hs;
    [|cbn [negb];
      destruct (converts (get_path rc ["template"; "render"; "strategy"]));
      discriminate].
  intros _. apply strict_eq_string_holds, Hs.
Qed.

(** With another strategy the template check throws at its third
    assertion: the error of the assertion, or a [TypeError] when the text
    of that error cannot be built. *)
Lemma test_template_corrupted (rc v : json) :
  get_path rc strategy_path = Some (JStr "react") ->
  v <> JStr "react" ->
  test_template (set_path rc strategy_path v)
  = Throw (if stringable v
           then Failure ("template.render.strategy should be " ++ quoted "react")
           else TypeError).
Proof.
  intros Hold Hv.
  pose proof (set_path_same strategy_path rc _ v Hold) as Hnew.
  unfold strategy_path in *.
  unfold test_template. reads. unfold assertExists, assertEqual.
  repeat first [settle_nullish | progress cbn [rbind]].
  rewrite Hnew. cbn [rbind strict_eq_string converts].
  rewrite (is_string_other _ _ Hv). cbn [negb].
  destruct (stringable v); reflexivity.
Qed.

(** The checks that do not read [template] do not see the edit. *)
Ltac same_reads :=
  unfold strategy_path; reads;
  rewrite ?set_path_nullish;
  rewrite !set_path_other by discriminate;
  reflexivity.

Lemma test_metadata_frame (rc v : json) :
  test_metadata (set_path rc strategy_path v) = test_metadata rc.
Proof. unfold test_metadata. same_reads. Qed.

Lemma test_ui_frame (rc v : json) :
  test_ui (set_path rc strategy_path v) = test_ui rc.
Proof. unfold test_ui. same_reads. Qed.

Lemma test_integration_frame (rc v : json) :
  test_integration (set_path rc strategy_path v) = test_integration rc.
Proof. unfold test_integration. same_reads. Qed.

Lemma test_interactions_frame (rc v : json) :
  test_interactions (set_path rc strategy_path v) = test_interactions rc.
Proof. unfold test_interactions. same_reads. Qed.

Lemma test_canvas_frame (rc v : json) :
  test_canvas (set_path rc strategy_path v) = test_canvas rc.
Proof. unfold test_canvas. same_reads. Qed.

Lemma test_events_frame (rc v : json) :
  test_events (set_path rc strategy_path v) = test_events rc.
Proof. unfold test_events. same_reads. Qed.

(** *** The edited file in the tree *)

Lemma walk_write_same (c c' : text) (segs : list string) :
  forall n, walk n segs = Some (File c) ->
  walk (write_file n segs c') segs = Some (File c').
Proof.
  induction segs as [|seg segs IH]; intros n H.
  - cbn in H. injection H as ->. reflexivity.
  - destruct n as [c0|entries]; [discriminate|].
    cbn [walk] in H. cbn [write_file walk].
    induction entries as [|[name child] rest IHrest]; [discriminate|].
    cbn [find_entry] in H |- *.
    destruct (name =? seg) eqn:E.
    + cbn [find_entry]. rewrite E. apply IH, H.
    + cbn [find_entry]. rewrite E. apply IHrest, H.
Qed.

Lemma walk_write_other (c' : text) (x : text) (segs' : list string) :
  forall n segs, walk n segs' = Some (File x) -> segs <> segs' ->
  walk (write_file n segs c') segs' = Some (File x).
Proof.
  induction segs' as [|seg' segs' IH]; intros n segs H Hne.
  - cbn in H. injection H as ->.
    destruct segs; [congruence|reflexivity].
  - destruct n as [c0|entries]; [discriminate|].
    destruct segs as [|seg segs]; [exact H|].
    cbn [walk] in H. cbn [write_file walk].
    induction entries as [|[name child] rest IHrest]; [discriminate|].
    cbn [find_entry] in H |- *.
    destruct (name =? seg) eqn:E.
    + cbn [find_entry]. apply String.eqb_eq in E. subst name.
      destruct (seg =? seg') eqn:E'; [|exact H].
      apply String.eqb_eq in E'. subst seg'.
      apply IH; [exact H|congruence].
    + cbn [find_entry]. destruct (name =? seg'); [exact H|].
      apply IHrest, H.
Qed.

Lemma loadReactComponent_walk (root : listing) (rc : json) :
  loadReactComponent root = Ok rc <->
  walk (Dir root) ["json-components"; "react.json"] = Some (File (Some rc)).
Proof.
  unfold loadReactComponent, existsSync, readFileSync, resolve.
  change (normalize (split_path REACT_COMPONENT_PATH))
    with ["json-components"; "react.json"].
  destruct (walk (Dir root) ["json-components"; "react.json"]) as [[[d|]|es]|];
    cbn [negb rbind JSON_parse];
    split; intros H; try discriminate H; congruence.
Qed.

Lemma loadIndex_walk (root : listing) (index : json) :
  loadIndex root = Ok index <->
  walk (Dir root) ["json-components"; "index.json"] = Some (File (Some index)).
Proof.
  unfold loadIndex, existsSync, readFileSync, resolve.
  change (normalize (split_path INDEX_PATH))
    with ["json-components"; "index.json"].
  destruct (walk (Dir root) ["json-components"; "index.json"]) as [[[d|]|es]|];
    cbn [negb rbind JSON_parse];
    split; intros H; try discriminate H; congruence.
Qed.

Lemma all_passed (rc index : json) :
  passed (tests rc index) = 8%nat ->
  test_metadata rc = Ok tt /\ test_ui rc = Ok tt /\ test_integration rc = Ok tt
  /\ test_template rc = Ok tt /\ test_interactions rc = Ok tt
  /\ test_index index = Ok tt /\ test_canvas rc = Ok tt
  /\ test_events rc = Ok tt.
Proof.
  intros H.
  assert (Hall : forall entry, In entry (tests rc index) ->
                               passes (snd entry) = true).
  { apply passed_all. exact H. }
  assert (Hok : forall r : result unit, passes r = true -> r = Ok tt).
  { intros [[]|e]; [reflexivity|discriminate]. }
  unfold tests in Hall. cbn [In] in Hall.
  repeat split; apply Hok;
    match goal with
    | |- passes ?t = true =>
        match type of Hall with
        | context [(?name, t)] => apply (Hall (name, t)); tauto
        end
    end.
Qed.

(** C7.  On a catalog where all eight checks pass, writing any value other
    than [react] into [template.render.strategy] of the example component,
    and nothing else, makes the template-structure check fail, at its
    assertion on the strategy: with the error of that assertion, or, for a
    value that cannot be converted to a string (the text of the error holds
    the value), with the [TypeError] of the conversion.  The other seven
    checks pass as before, the run reports 7/8 and exits with status 1. *)
Theorem strategy_corruption (root : listing) (rc index v : json) :
  loadReactComponent root = Ok rc ->
  loadIndex root = Ok index ->
  passed (tests rc index) = 8%nat ->
  v <> JStr "react" ->
  main (edit root REACT_COMPONENT_PATH (Some (set_path rc strategy_path v)))
  = ([ LogRunning;
       LogPass "React component has required metadata fields";
       LogPass "React component has proper UI configuration";
       LogPass "React component has proper integration configuration";
       ErrFail "React component has proper template structure for external plugins"
         (if stringable v
          then Failure ("template.render.strategy should be " ++ quoted "react")
          else TypeError);
       LogPass "React component has proper plugin interactions";
       LogPass "Index file includes React component";
       LogPass "React component has proper canvas integration";
       LogPass "React component has proper event definitions";
       LogResults 7 8;
       LogSomeFailed ],
     Exit 1%Z).
Proof.
  intros Hrc Hindex Hpassed Hv.
  destruct (all_passed _ _ Hpassed)
    as (H1 & H2 & H3 & H4 & H5 & H6 & H7 & H8).
  apply loadReactComponent_walk in Hrc. apply loadIndex_walk in Hindex.
  set (rc' := set_path rc strategy_path v).
  assert (Hedit : Dir (edit root REACT_COMPONENT_PATH (Some rc'))
                  = write_file (Dir root) ["json-components"; "react.json"] (Some rc'))
    by reflexivity.
  assert (Hrc' : loadReactComponent (edit root REACT_COMPONENT_PATH (Some rc'))
                 = Ok rc').
  { apply loadReactComponent_walk. rewrite Hedit.
    apply (walk_write_same _ _ _ _ Hrc). }
  assert (Hindex' : loadIndex (edit root REACT_COMPONENT_PATH (Some rc'))
                    = Ok index).
  { apply loadIndex_walk. rewrite Hedit.
    apply (walk_write_other _ _ _ _ _ Hindex). discriminate. }
  rewrite (main_report _ _ _ Hrc' Hindex').
  unfold passed, tests, rc'. cbn [map filter snd line].
  rewrite test_metadata_frame, test_ui_frame, test_integration_frame,
    test_interactions_frame, test_canvas_frame, test_events_frame.
  rewrite (test_template_corrupted _ _ (test_template_strategy _ H4) Hv).
  rewrite H1, H2, H3, H5, H6, H7, H8. reflexivity.
Qed.

Lemma strategy_corruption_witness :
  (loadReactComponent react_package = Ok react_component
   /\ loadIndex react_package = Ok react_index
   /\ passed (tests react_component react_index) = 8%nat
   /\ JStr "vue" <> JStr "react")
  /\ In (LogResults 7 8)
        (output (main (edit react_package REACT_COMPONENT_PATH
                         (Some (set_path react_component strategy_path
                                         (JStr "vue"))))))
  /\ status (main (edit react_package REACT_COMPONENT_PATH
                     (Some (set_path react_component strategy_path
                                     (JStr "vue"))))) = 1%Z.
Proof.
  assert (H1 : loadReactComponent react_package = Ok react_component)
    by reflexivity.
  assert (H2 : loadIndex react_package = Ok react_index) by reflexivity.
  assert (H3 : passed (tests react_component react_index) = 8%nat)
    by reflexivity.
  assert (H4 : JStr "vue" <> JStr "react") by discriminate.
  split; [tauto|].
  rewrite (strategy_corruption _ _ _ _ H1 H2 H3 H4).
  split; [cbn; tauto|reflexivity].
Defined.

End Corruption.

(* ================================================================== *)
(** ** The test suite: what a passing run tells *)
(* ================================================================== *)

(** Follow a check that returned, assertion by assertion. *)
Ltac crack :=
  unfold ReactTests.assertExists, ReactTests.assertEqual,
    ReactTests.assertType, ReactTests.assert;
  repeat (cbn [rbind]; reads;
          lazymatch goal with
          | |- rbind (if ?c then _ else _) _ = _ -> _ =>
              destruct c eqn:?; try (let H := fresh in intros H; discriminate H)
          | |- (if ?c then _ else _) = _ -> _ =>
              destruct c eqn:?; try (let H := fresh in intros H; discriminate H)
          | |- rbind (includes ?v ?s) _ = _ -> _ =>
              destruct (includes v s) eqn:?;
              try (let H := fresh in intros H; discriminate H)
          end);
  intros _.

Section Necessity.
Import ReactTests.

Lemma typeof_holds (v : value) (t : string) :
  negb (typeof v =? t) = false -> typeof v = t.
Proof. intros H. apply negb_false_iff, String.eqb_eq in H. exact H. Qed.

Lemma strict_eq_holds (v : value) (s : string) :
  negb (strict_eq_string v s) = false -> v = Some (JStr s).
Proof. intros H. apply negb_false_iff in H. apply strict_eq_string_holds, H. Qed.

Lemma truthy_holds (v : value) : negb (truthy v) = false -> truthy v = true.
Proof. apply negb_false_iff. Qed.

Lemma lists_holds (v : value) (s : string) (b : bool) :
  includes v s = Ok b -> negb b = false -> negb (isArray v) = false ->
  lists v s.
Proof.
  intros Hinc Hb Harr. apply negb_false_iff in Hb, Harr. subst b.
  destruct v as [[ | | | |items| ]|]; try discriminate Harr.
  exists items. split; [reflexivity|].
  cbn in Hinc. injection Hinc as Hinc.
  apply existsb_exists in Hinc as (e & He & Heq).
  destruct e; try discriminate Heq. cbn in Heq.
  apply String.eqb_eq in Heq. subst. exact He.
Qed.

Lemma includes_holds (v : value) (s : string) (b : bool) :
  includes v s = Ok b -> negb b = false -> includes v s = Ok true.
Proof. intros H Hb. apply negb_false_iff in Hb. subst b. exact H. Qed.

(** Read the conclusions off the assertions that held. *)
Ltac conclude :=
  unfold present; repeat split;
  first
    [ assumption
    | apply strict_eq_holds; assumption
    | apply truthy_holds; assumption
    | apply typeof_holds; assumption
    | eapply includes_holds; eassumption
    | eapply lists_holds; eassumption
    | match goal with
      | H : negb ?a = false |- Ok ?a = Ok true =>
          apply negb_false_iff in H; rewrite H; reflexivity
      end ].

Lemma test_metadata_tells (rc : json) :
  test_metadata rc = Ok tt ->
  get_path rc ["metadata"; "type"] = Some (JStr "react")
  /\ get_path rc ["metadata"; "name"] = Some (JStr "React")
  /\ present (get_path rc ["metadata"; "version"])
  /\ present (get_path rc ["metadata"; "description"])
  /\ lists (get_path rc ["metadata"; "tags"]) "react".
Proof. unfold test_metadata. crack. conclude. Qed.

Lemma test_ui_tells (rc : json) :
  test_ui rc = Ok tt ->
  present (get_path rc ["ui"; "template"])
  /\ present (get_path rc ["ui"; "styles"])
  /\ get_path rc ["ui"; "icon"; "value"] = Some (JStr "⚛️")
  /\ truthy (get_path rc ["ui"; "tools"; "drag"; "enabled"]) = true
  /\ truthy (get_path rc ["ui"; "tools"; "resize"; "enabled"]) = true.
Proof. unfold test_ui. crack. conclude. Qed.

Lemma test_integration_tells (rc : json) :
  test_integration rc = Ok tt ->
  get_path rc ["integration"; "properties"; "schema"; "code"; "type"]
  = Some (JStr "string")
  /\ includes
       (get_path rc ["integration"; "properties"; "schema"; "code"; "default"])
       "export default function" = Ok true
  /\ get_path rc ["integration"; "properties"; "schema"; "code"; "ui"; "control"]
     = Some (JStr "code").
Proof. unfold test_integration. crack. conclude. Qed.

Lemma test_template_tells (rc : json) :
  test_template rc = Ok tt ->
  get_path rc ["template"; "render"; "strategy"] = Some (JStr "react")
  /\ present (get_path rc ["template"; "react"; "code"])
  /\ lists (get_path rc ["template"; "classes"]) "rx-comp"
  /\ lists (get_path rc ["template"; "classes"]) "rx-react".
Proof. unfold test_template. crack. conclude. Qed.

Lemma test_interactions_tells (rc : json) :
  test_interactions rc = Ok tt ->
  get_path rc ["interactions"; "canvas.component.create"; "pluginId"]
  = Some (JStr "CanvasComponentPlugin")
  /\ get_path rc ["interactions"; "canvas.component.create"; "sequenceId"]
     = Some (JStr "canvas-component-create-symphony").
Proof. unfold test_interactions. crack. conclude. Qed.

Lemma test_index_tells (index : json) :
  test_index index = Ok tt ->
  lists (get_path index ["components"]) "react.json".
Proof. unfold test_index. crack. conclude. Qed.

Lemma test_canvas_tells (rc : json) :
  test_canvas rc = Ok tt ->
  truthy (get_path rc ["integration"; "canvasIntegration"; "resizable"]) = true
  /\ truthy (get_path rc ["integration"; "canvasIntegration"; "draggable"]) = true
  /\ truthy (get_path rc ["integration"; "canvasIntegration"; "selectable"]) = true
  /\ typeof (get_path rc ["integration"; "canvasIntegration"; "defaultWidth"])
     = "number"
  /\ typeof (get_path rc ["integration"; "canvasIntegration"; "defaultHeight"])
     = "number".
Proof. unfold test_canvas. crack. conclude. Qed.

Lemma test_events_tells (rc : json) :
  test_events rc = Ok tt ->
  present (get_path rc ["integration"; "events"; "mount"])
  /\ present (get_path rc ["integration"; "events"; "unmount"])
  /\ present (get_path rc ["integration"; "events"; "error"]).
Proof. unfold test_events. crack. conclude. Qed.

(** The eight checks pass exactly on a component of the shape
    [react_shape] listed by the index. *)
Lemma passed_shape (rc index : json) :
  passed (tests rc index) = 8%nat <->
  react_shape rc /\ lists (get_path index ["components"]) "react.json".
Proof.
  split.
  - intros H. destruct (all_passed _ _ H)
      as (H1 & H2 & H3 & H4 & H5 & H6 & H7 & H8).
    apply test_metadata_tells in H1. apply test_ui_tells in H2.
    apply test_integration_tells in H3. apply test_template_tells in H4.
    apply test_interactions_tells in H5. apply test_index_tells in H6.
    apply test_canvas_tells in H7. apply test_events_tells in H8.
    split; [constructor; tauto|exact H6].
  - intros [Hshape Hindex]. apply shape_passes; assumption.
Qed.

(** C8 (amended).  When the component file and the index file load, the
    suite reports 8/8 and exits with status 0 when the example component has
    the whole shape the checks ask for - [react_shape]: [metadata.type] is
    [react], [ui.icon.value] is the atom emoji, [template.classes] lists
    [rx-comp] and [rx-react], and so on for every field the checks read -
    and the index lists [react.json]; and it reports 8/8 on no other
    component. *)
Theorem shaped_component_passes (root : listing) (rc index : json) :
  loadReactComponent root = Ok rc ->
  loadIndex root = Ok index ->
  (react_shape rc /\ lists (get_path index ["components"]) "react.json" ->
   In (LogResults 8 8) (output (main root)) /\ status (main root) = 0%Z)
  /\ (In (LogResults 8 8) (output (main root)) ->
      react_shape rc /\ lists (get_path index ["components"]) "react.json").
Proof.
  intros Hrc Hindex. rewrite (main_report _ _ _ Hrc Hindex).
  cbn [output status fst snd]. split.
  - intros Hshape. apply passed_shape in Hshape. rewrite Hshape.
    split; [|reflexivity]. right. apply in_or_app. right. now left.
  - intros [H|H]; [discriminate H|].
    apply passed_shape.
    apply in_app_or in H as [H|H].
    + apply in_map_iff in H as ([name [[]|e]] & Hline & _); discriminate Hline.
    + destruct H as [H|[H|[]]].
      * injection H as H. exact H.
      * destruct (passed (tests rc index) =? 8)%nat; discriminate H.
Qed.

Lemma shaped_component_passes_witness :
  (loadReactComponent react_package = Ok react_component
   /\ loadIndex react_package = Ok react_index
   /\ react_shape react_component
   /\ lists (get_path react_index ["components"]) "react.json")
  /\ In (LogResults 8 8) (output (main react_package))
  /\ status (main react_package) = 0%Z.
Proof.
  assert (H1 : loadReactComponent react_package = Ok react_component)
    by reflexivity.
  assert (H2 : loadIndex react_package = Ok react_index) by reflexivity.
  assert (H3 : react_shape react_component) by exact react_component_shape.
  assert (H4 : lists (get_path react_index ["components"]) "react.json").
  { eexists. split; [reflexivity|cbn; tauto]. }
  split; [tauto|].
  exact (proj1 (shaped_component_passes _ _ _ H1 H2) (conj H3 H4)).
Defined.

(** C8 as stated fails: [sketch_component] has the three fields the claim
    names, the index lists [react.json], and the suite reports 1/8. *)
Lemma shaped_component_passes_counterexample :
  (loadReactComponent sketch_package = Ok sketch_component
   /\ get_path sketch_component ["metadata"; "type"] = Some (JStr "react")
   /\ get_path sketch_component ["ui"; "icon"; "value"] = Some (JStr "⚛️")
   /\ lists (get_path sketch_component ["template"; "classes"]) "rx-comp"
   /\ lists (get_path sketch_component ["template"; "classes"]) "rx-react")
  /\ In (LogResults 1 8) (output (main sketch_package))
  /\ ~ In (LogResults 8 8) (output (main sketch_package)).
Proof.
  split; [|split].
  - repeat split; try reflexivity;
      eexists; (split; [reflexivity|cbn; tauto]).
  - vm_compute. tauto.
  - vm_compute. intros H.
    repeat (destruct H as [H|H]; [discriminate H|]). exact H.
Qed.

End Necessity.

(* ================================================================== *)
(** ** Further properties of the validator: the checks before the files *)
(* ================================================================== *)

Section FirstChecks.
Import Validator.
Context {array_sort : ArraySort}.

Lemma no_directory_no_index (cwd : listing) :
  existsSync cwd COMPONENTS_DIR = false -> existsSync cwd INDEX_FILE = false.
Proof.
  unfold existsSync. rewrite resolve_index, resolve_components.
  destruct (find_entry "json-components" cwd) as [[c|items]|];
    [reflexivity|discriminate|reflexivity].
Qed.

(** X1.  When the components directory or the index file is missing the
    run stops after the two existence checks with status 1.  The index
    file lies in the directory, so a missing directory is never reported
    alone: its line is followed by the line of the missing index. *)
Theorem index_file_missing (cwd : listing) :
  existsSync cwd COMPONENTS_DIR && existsSync cwd INDEX_FILE = false ->
  validatePackage cwd =
  (LogValidating
     :: (if existsSync cwd COMPONENTS_DIR then [] else [ErrDirNotFound])
     ++ [ErrIndexNotFound],
   Exit 1%Z).
Proof.
  intros Hmissing.
  assert (Hindex : existsSync cwd INDEX_FILE = false).
  { destruct (existsSync cwd COMPONENTS_DIR) eqn:E; [exact Hmissing|].
    apply no_directory_no_index, E. }
  unfold validatePackage. rewrite Hindex.
  destruct (existsSync cwd COMPONENTS_DIR); reflexivity.
Qed.

(** X2.  An index file that cannot be read as JSON - its text is not JSON,
    or the path is a directory - stops the run with the invalid-index line
    carrying the error, and status 1; no file of the directory is looked
    at. *)
Theorem index_not_json (cwd : listing) (e : error) :
  existsSync cwd INDEX_FILE = true ->
  rbind (readFileSync cwd INDEX_FILE) JSON_parse = Throw e ->
  validatePackage cwd = ([LogValidating; ErrIndexInvalidJson e], Exit 1%Z).
Proof.
  intros Hindex Hread.
  assert (Hdir : existsSync cwd COMPONENTS_DIR = true).
  { destruct (existsSync cwd COMPONENTS_DIR) eqn:E; [reflexivity|].
    rewrite (no_directory_no_index _ E) in Hindex. discriminate Hindex. }
  unfold validatePackage. rewrite Hdir, Hindex.
  cbn [negb lift ret bind print exit try_catch app].
  destruct (readFileSync cwd INDEX_FILE) as [[d|]|e'];
    cbn in Hread; try discriminate Hread; injection Hread as <-; reflexivity.
Qed.

(** X3.  An index file that holds [null] is valid JSON, and the read of
    its [version] throws outside every [try]: the run ends on an uncaught
    [TypeError], status 1, after the line that calls the index valid and
    without any error line of the validator. *)
Theorem index_null_uncaught (cwd : listing) :
  readFileSync cwd INDEX_FILE = Ok (Some JNull) ->
  validatePackage cwd = ([LogValidating; LogIndexValid], Raise TypeError)
  /\ status (validatePackage cwd) = 1%Z
  /\ forall m, In m (output (validatePackage cwd)) -> is_error m = false.
Proof.
  intros Hread.
  destruct (index_read_dir _ _ Hread) as (items & Hdir & _).
  assert (He1 : existsSync cwd COMPONENTS_DIR = true).
  { unfold existsSync. unfold readdirSync in Hdir.
    destruct (resolve cwd COMPONENTS_DIR); [reflexivity|discriminate]. }
  assert (He2 : existsSync cwd INDEX_FILE = true).
  { unfold existsSync. unfold readFileSync in Hread.
    destruct (resolve cwd INDEX_FILE); [reflexivity|discriminate]. }
  assert (Hrun : validatePackage cwd
                 = ([LogValidating; LogIndexValid], Raise TypeError)).
  { unfold validatePackage. rewrite He1, He2, Hread. reflexivity. }
  rewrite Hrun. split; [reflexivity|split; [reflexivity|]].
  intros m [<-|[<-|[]]]; reflexivity.
Qed.

(** X4.  An index that is not [null] and lacks a truthy [version] or an
    array [components] stops the run with status 1 after both fields are
    checked: each of the two problems that is there has its line, and no
    file of the directory is looked at. *)
Theorem index_structure_rejected (cwd : listing) (indexData : json) :
  readFileSync cwd INDEX_FILE = Ok (Some indexData) ->
  indexData <> JNull ->
  truthy (get_path indexData ["version"])
  && isArray (get_path indexData ["components"]) = false ->
  validatePackage cwd =
  ([LogValidating; LogIndexValid]
     ++ (if truthy (get_path indexData ["version"])
         then [] else [ErrIndexMissingVersion])
     ++ (if isArray (get_path indexData ["components"])
         then [] else [ErrIndexComponents]),
   Exit 1%Z).
Proof.
  intros Hread Hnull Hbad.
  destruct (index_read_dir _ _ Hread) as (items & Hdir & _).
  assert (He1 : existsSync cwd COMPONENTS_DIR = true).
  { unfold existsSync. unfold readdirSync in Hdir.
    destruct (resolve cwd COMPONENTS_DIR); [reflexivity|discriminate]. }
  assert (He2 : existsSync cwd INDEX_FILE = true).
  { unfold existsSync. unfold readFileSync in Hread.
    destruct (resolve cwd INDEX_FILE); [reflexivity|discriminate]. }
  unfold validatePackage. rewrite He1, He2, Hread.
  cbn [negb lift ret bind print exit try_catch JSON_parse app].
  rewrite !(get_get_path _ _ Hnull).
  cbn [negb lift ret bind print exit try_catch JSON_parse app].
  destruct (truthy (get_path indexData ["version"]));
    destruct (isArray (get_path indexData ["components"]));
    try discriminate Hbad; reflexivity.
Qed.

End FirstChecks.

Section FirstChecksRuns.
Import Validator.

Lemma index_file_missing_witness :
  existsSync [] COMPONENTS_DIR && existsSync [] INDEX_FILE = false
  /\ @validatePackage byte_order []
     = ([LogValidating; ErrDirNotFound; ErrIndexNotFound], Exit 1%Z).
Proof.
  assert (H : existsSync [] COMPONENTS_DIR && existsSync [] INDEX_FILE = false)
    by reflexivity.
  split; [exact H|].
  exact (@index_file_missing byte_order [] H).
Defined.

Lemma index_not_json_witness :
  (existsSync garbled_index_catalog INDEX_FILE = true
   /\ rbind (readFileSync garbled_index_catalog INDEX_FILE) JSON_parse
      = Throw SyntaxError)
  /\ @validatePackage byte_order garbled_index_catalog
     = ([LogValidating; ErrIndexInvalidJson SyntaxError], Exit 1%Z).
Proof.
  assert (H1 : existsSync garbled_index_catalog INDEX_FILE = true)
    by reflexivity.
  assert (H2 : rbind (readFileSync garbled_index_catalog INDEX_FILE) JSON_parse
               = Throw SyntaxError) by reflexivity.
  split; [tauto|].
  exact (@index_not_json byte_order _ _ H1 H2).
Defined.

Lemma index_null_uncaught_witness :
  readFileSync null_index_catalog INDEX_FILE = Ok (Some JNull)
  /\ @validatePackage byte_order null_index_catalog
     = ([LogValidating; LogIndexValid], Raise TypeError).
Proof.
  assert (H : readFileSync null_index_catalog INDEX_FILE = Ok (Some JNull))
    by reflexivity.
  split; [exact H|].
  exact (proj1 (@index_null_uncaught byte_order _ H)).
Defined.

Lemma index_structure_rejected_witness :
  (readFileSync empty_index_catalog INDEX_FILE = Ok (Some (JObj []))
   /\ JObj [] <> JNull
   /\ truthy (get_path (JObj []) ["version"])
      && isArray (get_path (JObj []) ["components"]) = false)
  /\ @validatePackage byte_order empty_index_catalog
     = ([LogValidating; LogIndexValid; ErrIndexMissingVersion;
         ErrIndexComponents], Exit 1%Z).
Proof.
  assert (H1 : readFileSync empty_index_catalog INDEX_FILE = Ok (Some (JObj [])))
    by reflexivity.
  assert (H2 : JObj [] <> JNull) by discriminate.
  assert (H3 : truthy (get_path (JObj []) ["version"])
               && isArray (get_path (JObj []) ["components"]) = false)
    by reflexivity.
  split; [tauto|].
  exact (@index_structure_rejected byte_order _ _ H1 H2 H3).
Defined.

End FirstChecksRuns.

(* ================================================================== *)
(** ** Further properties of the validator: every run *)
(* ================================================================== *)

Section ExitStatus.
Import Validator.
Context {array_sort : ArraySort} {array_sort_laws : ArraySortLaws array_sort}.

(** *** The exit status *)

(** A document none of whose required fields is flagged is complete. *)
Lemma not_flagged_complete (d : json) :
  filter (flagged d) required_fields = [] -> complete d = true.
Proof.
  intros H.
  assert (Hall : forall p, In p required_fields -> flagged d p = false).
  { intros p Hp. destruct (flagged d p) eqn:E; [|reflexivity].
    assert (Hin : In p (filter (flagged d) required_fields))
      by (apply filter_In; split; assumption).
    rewrite H in Hin. contradiction. }
  unfold required_fields in Hall. cbn [In] in Hall.
  pose proof (Hall ["metadata"]) as H1.
  pose proof (Hall ["metadata"; "type"]) as H2.
  pose proof (Hall ["metadata"; "name"]) as H3.
  pose proof (Hall ["ui"]) as H4.
  pose proof (Hall ["ui"; "template"]) as H5.
  pose proof (Hall ["integration"]) as H6.
  unfold flagged in H1, H2, H3, H4, H5, H6.
  unfold complete, required_fields. cbn [forallb].
  destruct (truthy (get_path d ["metadata"])); [|discriminate H1; tauto].
  destruct (truthy (get_path d ["metadata"; "type"])); [|discriminate H2; tauto].
  destruct (truthy (get_path d ["metadata"; "name"])); [|discriminate H3; tauto].
  destruct (truthy (get_path d ["ui"])); [|discriminate H4; tauto].
  destruct (truthy (get_path d ["ui"; "template"])); [|discriminate H5; tauto].
  destruct (truthy (get_path d ["integration"])); [|discriminate H6; tauto].
  reflexivity.
Qed.

(** A file without an error line holds a document the validator accepts. *)
Lemma file_passes_valid (cwd : listing) (f : string) :
  file_fails cwd f = false ->
  exists d, componentData cwd f = Ok d /\ valid_document d = true.
Proof.
  intros H. destruct (file_passes_data cwd f H) as (d & Hd & Hnull).
  exists d. split; [exact Hd|]. unfold valid_document.
  destruct (is_topic_document d) eqn:Htopic; [reflexivity|]. cbn [orb].
  unfold file_fails in H.
  rewrite (file_report_component _ _ _ Hd Hnull Htopic) in H.
  apply not_flagged_complete.
  destruct (filter (flagged d) required_fields); [reflexivity|discriminate H].
Qed.

Lemma empty_length {A : Type} (l : list A) :
  (0 <? length l)%nat = false -> l = [].
Proof. destruct l; [reflexivity|discriminate]. Qed.

(** What it takes for a run not to fail past the checks of the index. *)
Lemma failed_false_iff (cwd items : listing) (indexData : json) :
  failed cwd items indexData = false <->
  (forall e, In e (spread (get_path indexData ["components"])) ->
     exists s, e = JStr s /\ In s (getAllJsonFiles (Dir items) EmptyString))
  /\ (forall f, In f (getAllJsonFiles (Dir items) EmptyString) ->
     exists d, componentData cwd f = Ok d /\ valid_document d = true).
Proof.
  unfold failed. rewrite orb_false_iff. split.
  - intros [Hstale Hfiles]. apply empty_length in Hstale. split.
    + intros e He. apply in_declaredFiles in He.
      destruct (names_include (actualFiles items) e) eqn:Hinc.
      * apply names_include_in in Hinc as (s & -> & Hs).
        exists s. split; [reflexivity|apply in_actualFiles, Hs].
      * assert (Hin : In e (staleInIndex items indexData)).
        { apply filter_In. split; [exact He|]. rewrite Hinc. reflexivity. }
        rewrite Hstale in Hin. contradiction.
    + intros f Hf. apply file_passes_valid.
      destruct (file_fails cwd f) eqn:E; [|reflexivity].
      rewrite <- Hfiles. symmetry. apply existsb_exists.
      exists f. split; [apply in_actualFiles, Hf|exact E].
  - intros [Hentries Hfiles]. split.
    + unfold staleInIndex. rewrite filter_none; [reflexivity|].
      intros e He. apply negb_false_iff, names_include_in.
      apply in_declaredFiles in He.
      destruct (Hentries e He) as (s & -> & Hs).
      exists s. split; [reflexivity|apply in_actualFiles, Hs].
    + destruct (existsb (file_fails cwd) (actualFiles items)) eqn:E;
        [|reflexivity].
      apply existsb_exists in E as (f' & Hf' & Hfails).
      apply in_actualFiles in Hf'.
      destruct (Hfiles f' Hf') as (d & Hd & Hvalid).
      rewrite (valid_document_passes _ _ _ Hd Hvalid) in Hfails.
      discriminate Hfails.
Qed.

(** X5.  The exit status of every run of the validator is 0 or 1, and it
    is 0 exactly when the index file is read, holds a truthy [version] and
    an array [components], every entry of that array is the path of a
    discovered file, and every discovered file holds a topic document or a
    component with all six required fields truthy.  Files the index does
    not list play no part. *)
Theorem exit_status_characterised (cwd : listing) :
  (status (validatePackage cwd) = 0%Z \/ status (validatePackage cwd) = 1%Z)
  /\ (status (validatePackage cwd) = 0%Z <->
      exists indexData items,
        checked_index cwd = Some indexData
        /\ readdirSync cwd COMPONENTS_DIR = Ok items
        /\ (forall e, In e (spread (get_path indexData ["components"])) ->
              exists s, e = JStr s
                        /\ In s (getAllJsonFiles (Dir items) EmptyString))
        /\ (forall f, In f (getAllJsonFiles (Dir items) EmptyString) ->
              exists d, componentData cwd f = Ok d
                        /\ valid_document d = true)).
Proof.
  rewrite validatePackage_status.
  destruct (checked_index cwd) as [indexData|] eqn:Hidx.
  - destruct (checked_index_dir _ _ Hidx) as (items & Hdir). rewrite Hdir.
    destruct (failed cwd items indexData) eqn:Hfailed.
    + split; [now right|]. split; [discriminate|].
      intros (indexData' & items' & [= <-] & [= <-] & Hentries & Hfiles).
      assert (Hok : failed cwd items indexData = false)
        by (apply failed_false_iff; split; assumption).
      congruence.
    + split; [now left|]. split; [|reflexivity]. intros _.
      exists indexData, items. apply failed_false_iff in Hfailed.
      tauto.
  - split; [now right|]. split; [discriminate|].
    intros (indexData & items & H & _). discriminate H.
Qed.

Lemma failed_line (cwd items : listing) (indexData : json) :
  failed cwd items indexData = true ->
  In ErrValidationFailed (report cwd items indexData).
Proof.
  intros H. unfold report. rewrite H.
  apply in_or_app. right. apply in_or_app. right. apply in_or_app. right.
  apply in_or_app. right. now left.
Qed.

(** A run that passes can sort its index. *)
Lemma passing_sortable (cwd items : listing) (indexData : json) :
  failed cwd items indexData = false -> sortable indexData = true.
Proof.
  intros H. destruct (sortable indexData) eqn:Hsort; [reflexivity|].
  rewrite (unsortable_failed cwd items _ Hsort) in H. discriminate H.
Qed.

(** A run stopped by the first checks has said why, unless the index holds
    [null]; it has not got to the line that says all is well. *)
Lemma rejected_run (cwd : listing) :
  checked_index cwd = None ->
  ((exists m, In m (output (validatePackage cwd)) /\ is_error m = true)
   \/ validatePackage cwd = ([LogValidating; LogIndexValid], Raise TypeError))
  /\ ~ In LogAllPassed (output (validatePackage cwd)).
Proof.
  assert (Hno : forall out : list message,
             (forall m, In m out -> m <> LogAllPassed) -> ~ In LogAllPassed out).
  { intros out H Hin. apply (H _ Hin). reflexivity. }
  unfold checked_index, validatePackage. intros H.
  destruct (existsSync cwd COMPONENTS_DIR);
    destruct (existsSync cwd INDEX_FILE);
    try (split;
         [left; exists ErrIndexNotFound; split; [cbn; tauto|reflexivity]
         |apply Hno; cbn; intros m Hm;
          repeat (destruct Hm as [<-|Hm]; [discriminate|]); contradiction]);
    try (split;
         [left; exists ErrDirNotFound; split; [cbn; tauto|reflexivity]
         |apply Hno; cbn; intros m Hm;
          repeat (destruct Hm as [<-|Hm]; [discriminate|]); contradiction]).
  cbn [negb lift ret bind print exit try_catch JSON_parse app].
  destruct (readFileSync cwd INDEX_FILE) as [[d|]|e];
    try (split;
         [left; eexists (ErrIndexInvalidJson _); split;
          [cbn; right; left; reflexivity|reflexivity]
         |apply Hno; cbn; intros m Hm;
          repeat (destruct Hm as [<-|Hm]; [discriminate|]); contradiction]).
  cbn [negb lift ret bind print exit try_catch JSON_parse app].
  destruct (json_null_dec d) as [->|Hnull].
  { split; [right; reflexivity|].
    apply Hno; cbn; intros m Hm;
      repeat (destruct Hm as [<-|Hm]; [discriminate|]); contradiction. }
  rewrite !(get_get_path _ _ Hnull).
  cbn [negb lift ret bind print exit try_catch JSON_parse app].
  destruct (truthy (get_path d ["version"]));
    destruct (isArray (get_path d ["components"])); try discriminate;
    (split;
     [left;
      first [ exists ErrIndexMissingVersion; split; [cbn; tauto|reflexivity]
            | exists ErrIndexComponents; split; [cbn; tauto|reflexivity] ]
     |apply Hno; cbn; intros m Hm;
      repeat (destruct Hm as [<-|Hm]; [discriminate|]); contradiction]).
Qed.

(** X6.  The validator exits with status 0 exactly when it has written no
    line with [console.error] and has not ended on an uncaught exception:
    every call of [process.exit(1)] comes after an error line that tells
    the reason, and a run that passes writes no error line. *)
Theorem error_lines_tell_status (cwd : listing) :
  status (validatePackage cwd) = 0%Z <->
  (forall m, In m (output (validatePackage cwd)) -> is_error m = false)
  /\ (forall e, snd (validatePackage cwd) <> Raise e).
Proof.
  destruct (checked_index cwd) as [indexData|] eqn:Hidx.
  - destruct (checked_index_dir _ _ Hidx) as (items & Hdir).
    destruct (sortable indexData) eqn:Hsort.
    + rewrite (validatePackage_report _ _ _ Hidx Hsort Hdir).
      cbn [output status fst snd].
      destruct (failed cwd items indexData) eqn:Hfailed.
      * split; [discriminate|]. intros [H _].
        specialize (H _ (failed_line _ _ _ Hfailed)). discriminate H.
      * split; [|reflexivity]. intros _.
        split; [apply report_errors, Hfailed|discriminate].
    + rewrite (validatePackage_unsortable _ _ Hidx Hsort).
      cbn [output status fst snd].
      split; [discriminate|]. intros [_ H]. destruct (H TypeError eq_refl).
  - rewrite (validatePackage_rejected _ Hidx).
    split; [discriminate|]. intros [H Hraise].
    destruct (rejected_run _ Hidx) as [[(m & Hm & Herr)|Hrun] _].
    + rewrite (H m Hm) in Herr. discriminate Herr.
    + rewrite Hrun in Hraise. destruct (Hraise TypeError eq_refl).
Qed.

(** X7.  The final loop, which reads and parses every discovered file
    again outside any [try], never throws: a run that has written the line
    that all validations passed goes on to the ready line and comes to its
    end, with status 0. *)
Theorem counting_loop_completes (cwd : listing) :
  In LogAllPassed (output (validatePackage cwd)) ->
  snd (validatePackage cwd) = Next tt
  /\ exists k, In (LogReady k) (output (validatePackage cwd)).
Proof.
  destruct (checked_index cwd) as [indexData|] eqn:Hidx.
  - destruct (checked_index_dir _ _ Hidx) as (items & Hdir).
    destruct (sortable indexData) eqn:Hsort.
    + rewrite (validatePackage_report _ _ _ Hidx Hsort Hdir).
      cbn [output fst snd]. unfold report.
      destruct (failed cwd items indexData) eqn:Hfailed.
      * intros H. exfalso.
        repeat (apply in_app_or in H as [H|H]).
        -- repeat (destruct H as [H|H]; [discriminate H|]). contradiction.
        -- destruct (0 <? length (missingFromIndex items indexData))%nat;
             repeat (destruct H as [H|H]; [discriminate H|]); contradiction.
        -- destruct (0 <? length (staleInIndex items indexData))%nat;
             repeat (destruct H as [H|H]; [discriminate H|]); contradiction.
        -- apply in_flat_map in H as (f & _ & H).
           apply file_report_about in H. discriminate H.
        -- repeat (destruct H as [H|H]; [discriminate H|]). contradiction.
      * intros _. split; [reflexivity|].
        exists (length (filter (counts cwd) (actualFiles items))).
        apply in_or_app. right. apply in_or_app. right. apply in_or_app. right.
        apply in_or_app. right. right. now left.
    + rewrite (validatePackage_unsortable _ _ Hidx Hsort). cbn [output fst].
      intros H. repeat (destruct H as [H|H]; [discriminate H|]). contradiction.
  - intros H. destruct (proj2 (rejected_run _ Hidx) H).
Qed.

(** *** The closing count *)

(** A file without an error line is counted, or it draws its skip line. *)
Lemma passing_report_skips (cwd : listing) (f : string) :
  file_fails cwd f = false ->
  file_report cwd f = if counts cwd f then [] else [LogSkipping f].
Proof.
  intros H. destruct (file_passes_data cwd f H) as (d & Hd & Hnull).
  unfold counts. rewrite Hd.
  destruct (is_topic_document d) eqn:Htopic.
  - apply (file_report_topic _ _ _ Hd Htopic).
  - cbn [negb]. unfold file_fails in H.
    rewrite (file_report_component _ _ _ Hd Hnull Htopic) in *.
    destruct (filter (flagged d) required_fields); [reflexivity|discriminate H].
Qed.

Lemma passing_skips_count (cwd : listing) (fs : list string) :
  existsb (file_fails cwd) fs = false ->
  (length (filter (counts cwd) fs)
   + length (filter is_skip (flat_map (file_report cwd) fs)) = length fs)%nat.
Proof.
  induction fs as [|f fs IH]; [reflexivity|]. cbn [existsb flat_map filter].
  intros H. apply orb_false_iff in H as [Hf Hfs].
  rewrite filter_app, length_app, (passing_report_skips _ _ Hf).
  specialize (IH Hfs).
  destruct (counts cwd f); cbn [filter is_skip length]; lia.
Qed.

Lemma report_skips (cwd items : listing) (indexData : json) :
  filter is_skip (report cwd items indexData)
  = filter is_skip (flat_map (file_report cwd) (actualFiles items)).
Proof.
  unfold report. rewrite !filter_app.
  destruct (0 <? length (missingFromIndex items indexData))%nat;
    destruct (0 <? length (staleInIndex items indexData))%nat;
    destruct (failed cwd items indexData);
    cbn [filter is_skip app]; rewrite app_nil_r; reflexivity.
Qed.

Lemma actualFiles_length (items : listing) :
  length (actualFiles items) = length (getAllJsonFiles (Dir items) EmptyString).
Proof. apply Permutation_length, sort_names_perm. Qed.

(** X10.  A run that exits with status 0 has reported the number of
    discovered files in its found line, and the count of its closing line
    is that number less the files it said it skipped: the number [k] is on
    the ready line exactly when [k] and the number of skip lines add up to
    the number of discovered files. *)
Theorem ready_count (cwd : listing) :
  status (validatePackage cwd) = 0%Z ->
  exists items,
    readdirSync cwd COMPONENTS_DIR = Ok items
    /\ In (LogFound (length (getAllJsonFiles (Dir items) EmptyString)))
          (output (validatePackage cwd))
    /\ forall k,
         In (LogReady k) (output (validatePackage cwd)) <->
         (k + length (filter is_skip (output (validatePackage cwd)))
          = length (getAllJsonFiles (Dir items) EmptyString))%nat.
Proof.
  intros Hstatus. rewrite validatePackage_status in Hstatus.
  destruct (checked_index cwd) as [indexData|] eqn:Hidx; [|discriminate].
  destruct (checked_index_dir _ _ Hidx) as (items & Hdir).
  rewrite Hdir in Hstatus.
  destruct (failed cwd items indexData) eqn:Hfailed; [discriminate|].
  pose proof (passing_sortable _ _ _ Hfailed) as Hsort.
  exists items. split; [exact Hdir|].
  rewrite (validatePackage_report _ _ _ Hidx Hsort Hdir). cbn [output fst].
  rewrite report_skips, <- actualFiles_length.
  unfold failed in Hfailed. apply orb_false_iff in Hfailed as [Hstale Hfiles].
  pose proof (passing_skips_count cwd _ Hfiles) as Hcount.
  unfold report, failed. rewrite Hstale, Hfiles. cbn [orb].
  split.
  - right. right. now left.
  - intros k. split.
    + intros H.
      assert (Hk : k = length (filter (counts cwd) (actualFiles items))).
      { repeat (apply in_app_or in H as [H|H]).
        - repeat (destruct H as [H|H]; [discriminate H|]). contradiction.
        - destruct (0 <? length (missingFromIndex items indexData))%nat;
            repeat (destruct H as [H|H]; [discriminate H|]); contradiction.
        - contradiction.
        - apply in_flat_map in H as (f & _ & H).
          apply file_report_about in H. discriminate H.
        - destruct H as [H|[H|[]]]; [discriminate H|].
          injection H as <-. reflexivity. }
      subst k. exact Hcount.
    + intros Hk.
      assert (Heq : k = length (filter (counts cwd) (actualFiles items))) by lia.
      subst k.
      apply in_or_app. right. apply in_or_app. right. apply in_or_app. right.
      apply in_or_app. right. right. now left.
Qed.

(** *** The two lines about the index *)

(** The one place of the report a warning or a stale line can come from. *)
Lemma report_warning (cwd items : listing) (indexData : json)
    (files : list string) :
  In (WarnNotListed files) (report cwd items indexData) <->
  files = missingFromIndex items indexData /\ files <> [].
Proof.
  unfold report. split.
  - intros H. repeat (apply in_app_or in H as [H|H]).
    + repeat (destruct H as [H|H]; [discriminate H|]). contradiction.
    + destruct (missingFromIndex items indexData) as [|x l] eqn:E;
        cbn [length Nat.ltb Nat.leb] in H; [contradiction|].
      destruct H as [H|[H|[]]]; [|discriminate H].
      injection H as <-. split; [reflexivity|discriminate].
    + destruct (0 <? length (staleInIndex items indexData))%nat;
        repeat (destruct H as [H|H]; [discriminate H|]); contradiction.
    + apply in_flat_map in H as (f & _ & H).
      apply file_report_about in H. discriminate H.
    + destruct (failed cwd items indexData);
        repeat (destruct H as [H|H]; [discriminate H|]); contradiction.
  - intros [-> Hne].
    apply in_or_app. right. apply in_or_app. left.
    destruct (missingFromIndex items indexData); [congruence|]. now left.
Qed.

Lemma report_stale (cwd items : listing) (indexData : json)
    (stale : list json) :
  In (ErrStale stale) (report cwd items indexData) <->
  stale = staleInIndex items indexData /\ stale <> [].
Proof.
  unfold report. split.
  - intros H. repeat (apply in_app_or in H as [H|H]).
    + repeat (destruct H as [H|H]; [discriminate H|]). contradiction.
    + destruct (0 <? length (missingFromIndex items indexData))%nat;
        repeat (destruct H as [H|H]; [discriminate H|]); contradiction.
    + destruct (staleInIndex items indexData) as [|x l] eqn:E;
        cbn [length Nat.ltb Nat.leb] in H; [contradiction|].
      destruct H as [H|[]].
      injection H as <-. split; [reflexivity|discriminate].
    + apply in_flat_map in H as (f & _ & H).
      apply file_report_about in H. discriminate H.
    + destruct (failed cwd items indexData);
        repeat (destruct H as [H|H]; [discriminate H|]); contradiction.
  - intros [-> Hne].
    apply in_or_app. right. apply in_or_app. right. apply in_or_app. left.
    destruct (staleInIndex items indexData); [congruence|]. now left.
Qed.

Lemma in_missingFromIndex (items : listing) (indexData : json) (f : string) :
  In f (missingFromIndex items indexData) <->
  In f (getAllJsonFiles (Dir items) EmptyString)
  /\ ~ In (JStr f) (spread (get_path indexData ["components"])).
Proof.
  unfold missingFromIndex. rewrite filter_In, in_actualFiles, negb_true_iff.
  rewrite <- in_declaredFiles, <- arr_includes_in.
  destruct (arr_includes (declaredFiles indexData) f); split;
    intros [H1 H2]; split; congruence.
Qed.

Lemma in_staleInIndex (items : listing) (indexData : json) (e : json) :
  In e (staleInIndex items indexData) <->
  In e (spread (get_path indexData ["components"]))
  /\ forall s, e = JStr s -> ~ In s (getAllJsonFiles (Dir items) EmptyString).
Proof.
  unfold staleInIndex. rewrite filter_In, in_declaredFiles, negb_true_iff.
  split; intros [H1 H2]; (split; [exact H1|]).
  - intros s -> Hs. apply in_actualFiles in Hs.
    assert (Hinc : names_include (actualFiles items) (JStr s) = true).
    { apply names_include_in. eauto. }
    congruence.
  - destruct (names_include (actualFiles items) e) eqn:Hinc; [|reflexivity].
    apply names_include_in in Hinc as (s & -> & Hs).
    apply in_actualFiles in Hs. destruct (H2 s eq_refl Hs).
Qed.

(** X11.  Past the checks of the index and the sort of its entries, the
    warning about unlisted files is written exactly when some discovered file is not an entry of the
    index, and the files it names are exactly the discovered files that are
    not entries of the index. *)
Theorem warning_lists_undeclared (cwd items : listing) (indexData : json) :
  checked_index cwd = Some indexData ->
  sortable indexData = true ->
  readdirSync cwd COMPONENTS_DIR = Ok items ->
  ((exists files, In (WarnNotListed files) (output (validatePackage cwd)))
   <-> exists f, In f (getAllJsonFiles (Dir items) EmptyString)
                 /\ ~ In (JStr f) (spread (get_path indexData ["components"])))
  /\ forall files,
       In (WarnNotListed files) (output (validatePackage cwd)) ->
       forall f,
         In f files <->
         In f (getAllJsonFiles (Dir items) EmptyString)
         /\ ~ In (JStr f) (spread (get_path indexData ["components"])).
Proof.
  intros Hidx Hsort Hdir.
  rewrite (validatePackage_report _ _ _ Hidx Hsort Hdir). cbn [output fst].
  split; [split|].
  - intros (files & H). apply report_warning in H as [-> Hne].
    destruct (missingFromIndex items indexData) as [|f l] eqn:E; [congruence|].
    exists f. apply in_missingFromIndex. rewrite E. now left.
  - intros (f & Hf). apply in_missingFromIndex in Hf.
    exists (missingFromIndex items indexData). apply report_warning.
    split; [reflexivity|]. intros E. rewrite E in Hf. contradiction.
  - intros files H f. apply report_warning in H as [-> _].
    apply in_missingFromIndex.
Qed.

(** X12.  Past the checks of the index and the sort of its entries, the
    stale-entries line is written exactly when some entry of [components]
    is not the path of a discovered file, and it lists exactly those
    entries; an entry that is not a string is one of them. *)
Theorem stale_line_exact (cwd items : listing) (indexData : json) :
  checked_index cwd = Some indexData ->
  sortable indexData = true ->
  readdirSync cwd COMPONENTS_DIR = Ok items ->
  ((exists stale, In (ErrStale stale) (output (validatePackage cwd)))
   <-> exists e, In e (spread (get_path indexData ["components"]))
                 /\ forall s, e = JStr s ->
                      ~ In s (getAllJsonFiles (Dir items) EmptyString))
  /\ forall stale,
       In (ErrStale stale) (output (validatePackage cwd)) ->
       forall e,
         In e stale <->
         In e (spread (get_path indexData ["components"]))
         /\ forall s, e = JStr s ->
              ~ In s (getAllJsonFiles (Dir items) EmptyString).
Proof.
  intros Hidx Hsort Hdir.
  rewrite (validatePackage_report _ _ _ Hidx Hsort Hdir). cbn [output fst].
  split; [split|].
  - intros (stale & H). apply report_stale in H as [-> Hne].
    destruct (staleInIndex items indexData) as [|e l] eqn:E; [congruence|].
    exists e. apply in_staleInIndex. rewrite E. now left.
  - intros (e & He). apply in_staleInIndex in He.
    exists (staleInIndex items indexData). apply report_stale.
    split; [reflexivity|]. intros E. rewrite E in He. contradiction.
  - intros stale H e. apply report_stale in H as [-> _].
    apply in_staleInIndex.
Qed.

(** *** Documents that are not objects *)

(** X13.  A discovered file that holds [null] parses, and the read of
    its [topics] throws inside the [try]: the run exits with status 1, and
    past the checks of the index and the sort of its entries the one line
    about the file is the
    invalid-JSON line with a [TypeError]; no required field is reported
    missing and the file is not called skipped. *)
Theorem null_component_reported (cwd items : listing) (f : string) :
  readdirSync cwd COMPONENTS_DIR = Ok items ->
  In f (getAllJsonFiles (Dir items) EmptyString) ->
  componentData cwd f = Ok JNull ->
  status (validatePackage cwd) = 1%Z
  /\ forall indexData, checked_index cwd = Some indexData ->
       sortable indexData = true ->
       forall m, about m = Some f ->
         (In m (output (validatePackage cwd)) <-> m = ErrInvalidJson f TypeError).
Proof.
  intros Hdir Hf Hd.
  assert (Hreport : file_report cwd f = [ErrInvalidJson f TypeError]).
  { unfold file_report. rewrite Hd. reflexivity. }
  split.
  - apply (failing_file_status cwd items f Hdir Hf).
    unfold file_fails. rewrite Hreport. reflexivity.
  - intros indexData Hidx Hsort m Hm.
    rewrite (validatePackage_report _ _ _ Hidx Hsort Hdir). cbn [output fst].
    rewrite (report_file_line cwd items indexData f m Hm), Hreport.
    rewrite in_actualFiles. cbn [In]. split.
    + intros [_ [H|[]]]. symmetry. exact H.
    + intros ->. split; [exact Hf|now left].
Qed.

(** X14.  A discovered file that holds a number, a string, a boolean or
    an array is checked like an object without fields: the run exits with
    status 1, and past the checks of the index and the sort of its entries
    the lines about the file are
    the missing-field lines of [metadata], [ui] and [integration], and no
    other. *)
Theorem plain_value_component (cwd items : listing) (f : string) (d : json) :
  readdirSync cwd COMPONENTS_DIR = Ok items ->
  In f (getAllJsonFiles (Dir items) EmptyString) ->
  componentData cwd f = Ok d ->
  plain_value d = true ->
  status (validatePackage cwd) = 1%Z
  /\ forall indexData, checked_index cwd = Some indexData ->
       sortable indexData = true ->
       forall m, about m = Some f ->
         (In m (output (validatePackage cwd)) <->
          In m [ ErrMissingField f "metadata"; ErrMissingField f "ui";
                 ErrMissingField f "integration" ]).
Proof.
  intros Hdir Hf Hd Hplain.
  assert (Hreport : file_report cwd f
                    = [ ErrMissingField f "metadata"; ErrMissingField f "ui";
                        ErrMissingField f "integration" ]).
  { unfold file_report. rewrite Hd.
    destruct d; try discriminate Hplain; reflexivity. }
  split.
  - apply (failing_file_status cwd items f Hdir Hf).
    unfold file_fails. rewrite Hreport. reflexivity.
  - intros indexData Hidx Hsort m Hm.
    rewrite (validatePackage_report _ _ _ Hidx Hsort Hdir). cbn [output fst].
    rewrite (report_file_line cwd items indexData f m Hm), Hreport.
    rewrite in_actualFiles. tauto.
Qed.

End ExitStatus.

(* ================================================================== *)
(** ** Further properties of the validator: the walk of the directory *)
(* ================================================================== *)

Section Discovery.
Import Validator.

Lemma replace_backslashes_clean (s : string) :
  contains backslash (replace_backslashes s) = false.
Proof.
  induction s as [|c s IH]; [reflexivity|]. cbn.
  rewrite IH, orb_false_r.
  destruct (Ascii.eqb c backslash) eqn:E; [reflexivity|exact E].
Qed.

(** X9.  No path the walk returns has a backslash in it, whatever the
    tree and the base path: every backslash of the relative path, also one
    that is part of a file name, has become [/]. *)
Theorem discovered_no_backslash (dir : node) :
  forall (basePath f : string),
    In f (getAllJsonFiles dir basePath) -> contains backslash f = false.
Proof.
  induction dir as [c| |name child rest IHchild IHrest] using node_entries_ind;
    intros basePath f Hin.
  - contradiction.
  - contradiction.
  - change (getAllJsonFiles (Dir ((name, child) :: rest)) basePath)
      with (match child with
            | Dir _ =>
                getAllJsonFiles child
                  (if basePath =? "" then name else path_join basePath name)
            | File _ =>
                if endsWith name ".json" && negb (name =? "index.json")
                then [replace_backslashes
                        (if basePath =? "" then name
                         else path_join basePath name)]
                else []
            end ++ getAllJsonFiles (Dir rest) basePath) in Hin.
    apply in_app_or in Hin as [Hin|Hin]; [|apply (IHrest _ _ Hin)].
    destruct child as [c|sub]; [|apply (IHchild _ _ Hin)].
    destruct (endsWith name ".json" && negb (name =? "index.json"));
      [|contradiction].
    destruct Hin as [<-|[]]. apply replace_backslashes_clean.
Qed.

Lemma walk_file (c : text) (segs : list string) (n : node) :
  walk (File c) segs = Some n -> segs = [].
Proof. destruct segs; [reflexivity|discriminate]. Qed.

(** The walk lists exactly the files it can reach whose name ends in
    [.json] and is not [index.json]. *)
Lemma getAllJsonFiles_walk (n : node) :
  well_formed n = true ->
  forall (pre : list string) (f : string),
    Forall (fun s => name_ok s = true) pre ->
    In f (getAllJsonFiles n (join_segs pre)) <->
    exists segs name c,
      walk n (segs ++ [name]) = Some (File c)
      /\ listed_name name = true
      /\ f = join_segs (pre ++ segs ++ [name]).
Proof.
  induction n as [c| |name child rest IHchild IHrest] using node_entries_ind;
    intros Hwf pre f Hpre.
  - split; [contradiction|].
    intros (segs & name & c' & Hwalk & _).
    apply walk_file in Hwalk. destruct segs; discriminate Hwalk.
  - split; [contradiction|].
    intros (segs & name & c' & Hwalk & _).
    destruct segs; discriminate Hwalk.
  - apply well_formed_cons in Hwf as (Hfresh & Hname & Hchild & Hrest).
    change (getAllJsonFiles (Dir ((name, child) :: rest)) (join_segs pre))
      with (match child with
            | Dir _ =>
                getAllJsonFiles child
                  (if join_segs pre =? "" then name
                   else path_join (join_segs pre) name)
            | File _ =>
                if endsWith name ".json" && negb (name =? "index.json")
                then [replace_backslashes
                        (if join_segs pre =? "" then name
                         else path_join (join_segs pre) name)]
                else []
            end ++ getAllJsonFiles (Dir rest) (join_segs pre)).
    rewrite (join_segs_snoc pre name Hpre).
    assert (Hpre' : Forall (fun s => name_ok s = true) (pre ++ [name])).
    { apply Forall_app. split; [exact Hpre|].
      constructor; [exact Hname|constructor]. }
    rewrite (replace_backslashes_plain _ (join_segs_no_backslash _ Hpre')).
    rewrite in_app_iff, (IHrest Hrest pre f Hpre).
    split.
    + intros [Hin|(segs & name' & c & Hwalk & Hlisted & ->)].
      * destruct child as [c|sub].
        -- fold (listed_name name) in Hin.
           destruct (listed_name name) eqn:Hlisted; [|contradiction].
           destruct Hin as [<-|[]].
           exists [], name, c. split; [|split; [exact Hlisted|reflexivity]].
           cbn. rewrite String.eqb_refl. reflexivity.
        -- apply (IHchild Hchild _ _ Hpre') in Hin
             as (segs & name' & c & Hwalk & Hlisted & ->).
           exists (name :: segs), name', c.
           split; [|split; [exact Hlisted|]].
           ++ cbn [app walk find_entry]. rewrite String.eqb_refl. exact Hwalk.
           ++ rewrite <- app_assoc. reflexivity.
      * exists segs, name', c. split; [|split; [exact Hlisted|reflexivity]].
        apply walk_skip; [exact Hfresh|destruct segs; discriminate|exact Hwalk].
    + intros (segs & name' & c & Hwalk & Hlisted & ->).
      destruct segs as [|s segs'].
      * cbn [app walk find_entry] in Hwalk.
        destruct (name =? name') eqn:Hs.
        -- apply String.eqb_eq in Hs. subst name'. left.
           injection Hwalk as ->.
           fold (listed_name name). rewrite Hlisted. now left.
        -- right. exists [], name', c.
           split; [exact Hwalk|split; [exact Hlisted|reflexivity]].
      * cbn [app walk find_entry] in Hwalk.
        destruct (name =? s) eqn:Hs.
        -- apply String.eqb_eq in Hs. subst s. left.
           destruct child as [c0|sub].
           ++ apply walk_file in Hwalk. destruct segs'; discriminate Hwalk.
           ++ apply (IHchild Hchild _ _ Hpre').
              exists segs', name', c.
              split; [exact Hwalk|split; [exact Hlisted|]].
              rewrite <- app_assoc. reflexivity.
        -- right. exists (s :: segs'), name', c.
           split; [exact Hwalk|split; [exact Hlisted|reflexivity]].
Qed.

(** X8.  In a well-formed components directory the walk discovers exactly
    the files it can reach, through any number of subdirectories, whose own
    name ends in [.json] and is not [index.json], each under the path made
    of the names on the way joined by [/].  A file named [index.json] is
    left out in every subdirectory, not only at the top. *)
Theorem discovered_files_characterised (items : listing) (f : string) :
  well_formed (Dir items) = true ->
  In f (getAllJsonFiles (Dir items) EmptyString) <->
  exists segs name c,
    walk (Dir items) (segs ++ [name]) = Some (File c)
    /\ listed_name name = true
    /\ f = join_segs (segs ++ [name]).
Proof.
  intros Hwf.
  apply (getAllJsonFiles_walk (Dir items) Hwf [] f (Forall_nil _)).
Qed.

End Discovery.

(* ================================================================== *)
(** ** Further properties of the validator: the sort *)
(* ================================================================== *)

Section Sorting.
Import Validator.

Lemma unsorted_laws : ArraySortLaws unsorted.
Proof. split; intros l; reflexivity. Qed.

(** X15.  The exit status does not depend on the order in which a sort
    that returns leaves the file names and the entries of the index: with
    any two orders the status is the same.  (Where the sort of the entries
    throws, it throws whatever the order, and the status is 1.) *)
Theorem sort_irrelevant (s1 s2 : ArraySort) (cwd : listing) :
  ArraySortLaws s1 -> ArraySortLaws s2 ->
  status (@validatePackage s1 cwd) = status (@validatePackage s2 cwd).
Proof.
  intros L1 L2.
  rewrite (@validatePackage_status s1 L1), (@validatePackage_status s2 L2).
  destruct (checked_index cwd) as [indexData|]; [|reflexivity].
  destruct (readdirSync cwd COMPONENTS_DIR) as [items|e]; [|reflexivity].
  assert (Hsame : @failed s1 cwd items indexData = @failed s2 cwd items indexData).
  { destruct (@failed s2 cwd items indexData) eqn:E2.
    - destruct (@failed s1 cwd items indexData) eqn:E1; [reflexivity|].
      apply (@failed_false_iff s1 L1) in E1.
      apply (@failed_false_iff s2 L2) in E1. congruence.
    - apply (@failed_false_iff s2 L2) in E2.
      apply (@failed_false_iff s1 L1) in E2. exact E2. }
  rewrite Hsame. reflexivity.
Qed.

End Sorting.
(** *** The properties above on catalogs *)

Section FurtherRuns.
Import Validator.

Lemma exit_status_characterised_witness :
  ArraySortLaws byte_order
  /\ status (@validatePackage byte_order sound_catalog) = 0%Z
  /\ exists indexData items,
       checked_index sound_catalog = Some indexData
       /\ readdirSync sound_catalog COMPONENTS_DIR = Ok items
       /\ (forall e, In e (spread (get_path indexData ["components"])) ->
             exists s, e = JStr s
                       /\ In s (getAllJsonFiles (Dir items) EmptyString))
       /\ (forall f, In f (getAllJsonFiles (Dir items) EmptyString) ->
             exists d, componentData sound_catalog f = Ok d
                       /\ valid_document d = true).
Proof.
  split; [exact byte_order_laws|]. split; [reflexivity|].
  apply (proj2 (@exit_status_characterised byte_order byte_order_laws
                  sound_catalog)).
  reflexivity.
Defined.

Lemma counting_loop_completes_witness :
  In LogAllPassed (output (@validatePackage byte_order sound_catalog))
  /\ snd (@validatePackage byte_order sound_catalog) = Next tt
  /\ exists k, In (LogReady k) (output (@validatePackage byte_order sound_catalog)).
Proof.
  assert (H : In LogAllPassed (output (@validatePackage byte_order sound_catalog)))
    by (vm_compute; tauto).
  split; [exact H|].
  exact (@counting_loop_completes byte_order sound_catalog H).
Defined.

Lemma ready_count_witness :
  (ArraySortLaws byte_order
   /\ status (@validatePackage byte_order sound_catalog) = 0%Z)
  /\ exists items,
       readdirSync sound_catalog COMPONENTS_DIR = Ok items
       /\ In (LogFound (length (getAllJsonFiles (Dir items) EmptyString)))
             (output (@validatePackage byte_order sound_catalog))
       /\ forall k,
            In (LogReady k) (output (@validatePackage byte_order sound_catalog))
            <-> (k + length (filter is_skip
                               (output (@validatePackage byte_order sound_catalog)))
                 = length (getAllJsonFiles (Dir items) EmptyString))%nat.
Proof.
  assert (H : status (@validatePackage byte_order sound_catalog) = 0%Z)
    by reflexivity.
  split; [split; [exact byte_order_laws|exact H]|].
  exact (@ready_count byte_order byte_order_laws sound_catalog H).
Defined.

Lemma warning_lists_undeclared_witness :
  (ArraySortLaws byte_order
   /\ checked_index undeclared_catalog = Some (index_of ["button.json"])
   /\ sortable (index_of ["button.json"]) = true
   /\ readdirSync undeclared_catalog COMPONENTS_DIR
      = Ok (components_of undeclared_catalog))
  /\ forall files,
       In (WarnNotListed files)
          (output (@validatePackage byte_order undeclared_catalog)) ->
       forall f,
         In f files <->
         In f (getAllJsonFiles (Dir (components_of undeclared_catalog)) EmptyString)
         /\ ~ In (JStr f)
                 (spread (get_path (index_of ["button.json"]) ["components"])).
Proof.
  assert (H1 : checked_index undeclared_catalog = Some (index_of ["button.json"]))
    by reflexivity.
  assert (H2 : readdirSync undeclared_catalog COMPONENTS_DIR
               = Ok (components_of undeclared_catalog)) by reflexivity.
  assert (H3 : sortable (index_of ["button.json"]) = true) by reflexivity.
  split; [split; [exact byte_order_laws|tauto]|].
  exact (proj2 (@warning_lists_undeclared byte_order byte_order_laws
                  _ _ _ H1 H3 H2)).
Defined.

Lemma stale_line_exact_witness :
  (ArraySortLaws byte_order
   /\ checked_index stale_catalog = Some (index_of ["button.json"; "gone.json"])
   /\ sortable (index_of ["button.json"; "gone.json"]) = true
   /\ readdirSync stale_catalog COMPONENTS_DIR = Ok (components_of stale_catalog))
  /\ forall stale,
       In (ErrStale stale) (output (@validatePackage byte_order stale_catalog)) ->
       forall e,
         In e stale <->
         In e (spread (get_path (index_of ["button.json"; "gone.json"])
                                ["components"]))
         /\ forall s, e = JStr s ->
              ~ In s (getAllJsonFiles (Dir (components_of stale_catalog))
                                      EmptyString).
Proof.
  assert (H1 : checked_index stale_catalog
               = Some (index_of ["button.json"; "gone.json"])) by reflexivity.
  assert (H2 : readdirSync stale_catalog COMPONENTS_DIR
               = Ok (components_of stale_catalog)) by reflexivity.
  assert (H3 : sortable (index_of ["button.json"; "gone.json"]) = true)
    by reflexivity.
  split; [split; [exact byte_order_laws|tauto]|].
  exact (proj2 (@stale_line_exact byte_order byte_order_laws _ _ _ H1 H3 H2)).
Defined.

Lemma null_component_reported_witness :
  (ArraySortLaws byte_order
   /\ readdirSync null_component_catalog COMPONENTS_DIR
      = Ok (components_of null_component_catalog)
   /\ In "empty.json"
         (getAllJsonFiles (Dir (components_of null_component_catalog)) EmptyString)
   /\ componentData null_component_catalog "empty.json" = Ok JNull)
  /\ status (@validatePackage byte_order null_component_catalog) = 1%Z
  /\ In (ErrInvalidJson "empty.json" TypeError)
        (output (@validatePackage byte_order null_component_catalog)).
Proof.
  assert (H1 : readdirSync null_component_catalog COMPONENTS_DIR
               = Ok (components_of null_component_catalog)) by reflexivity.
  assert (H2 : In "empty.json"
                  (getAllJsonFiles (Dir (components_of null_component_catalog))
                                   EmptyString)) by (cbn; tauto).
  assert (H3 : componentData null_component_catalog "empty.json" = Ok JNull)
    by reflexivity.
  split; [split; [exact byte_order_laws|tauto]|].
  destruct (@null_component_reported byte_order byte_order_laws _ _ _ H1 H2 H3)
    as [Hstatus Hlines].
  split; [exact Hstatus|].
  apply (Hlines (index_of ["button.json"; "empty.json"]) eq_refl eq_refl
                (ErrInvalidJson "empty.json" TypeError) eq_refl).
  reflexivity.
Defined.

Lemma plain_value_component_witness :
  (ArraySortLaws byte_order
   /\ readdirSync array_component_catalog COMPONENTS_DIR
      = Ok (components_of array_component_catalog)
   /\ In "list.json"
         (getAllJsonFiles (Dir (components_of array_component_catalog)) EmptyString)
   /\ componentData array_component_catalog "list.json"
      = Ok (JArr [button_component])
   /\ plain_value (JArr [button_component]) = true)
  /\ status (@validatePackage byte_order array_component_catalog) = 1%Z
  /\ In (ErrMissingField "list.json" "ui")
        (output (@validatePackage byte_order array_component_catalog)).
Proof.
  assert (H1 : readdirSync array_component_catalog COMPONENTS_DIR
               = Ok (components_of array_component_catalog)) by reflexivity.
  assert (H2 : In "list.json"
                  (getAllJsonFiles (Dir (components_of array_component_catalog))
                                   EmptyString)) by (cbn; tauto).
  assert (H3 : componentData array_component_catalog "list.json"
               = Ok (JArr [button_component])) by reflexivity.
  assert (H4 : plain_value (JArr [button_component]) = true) by reflexivity.
  split; [split; [exact byte_order_laws|tauto]|].
  destruct (@plain_value_component byte_order byte_order_laws _ _ _ _
              H1 H2 H3 H4) as [Hstatus Hlines].
  split; [exact Hstatus|].
  apply (Hlines (index_of ["button.json"; "list.json"]) eq_refl eq_refl
                (ErrMissingField "list.json" "ui") eq_refl).
  cbn. tauto.
Defined.

Lemma discovered_files_characterised_witness :
  well_formed (Dir (components_of sound_catalog)) = true
  /\ (In "topics/canvas.json"
         (getAllJsonFiles (Dir (components_of sound_catalog)) EmptyString)
      <-> exists segs name c,
            walk (Dir (components_of sound_catalog)) (segs ++ [name])
            = Some (File c)
            /\ listed_name name = true
            /\ "topics/canvas.json" = join_segs (segs ++ [name])).
Proof.
  assert (H : well_formed (Dir (components_of sound_catalog)) = true)
    by reflexivity.
  split; [exact H|].
  exact (discovered_files_characterised _ "topics/canvas.json" H).
Defined.

Lemma discovered_no_backslash_witness :
  In "a/b.json" (getAllJsonFiles backslash_directory EmptyString)
  /\ contains backslash "a/b.json" = false.
Proof.
  assert (H : In "a/b.json" (getAllJsonFiles backslash_directory EmptyString))
    by (cbn; tauto).
  split; [exact H|].
  exact (discovered_no_backslash backslash_directory EmptyString "a/b.json" H).
Defined.

Lemma sort_irrelevant_witness :
  (ArraySortLaws byte_order /\ ArraySortLaws unsorted)
  /\ status (@validatePackage byte_order undeclared_catalog)
     = status (@validatePackage unsorted undeclared_catalog).
Proof.
  split; [split; [exact byte_order_laws|exact unsorted_laws]|].
  exact (sort_irrelevant byte_order unsorted undeclared_catalog
           byte_order_laws unsorted_laws).
Defined.

End FurtherRuns.

(* ================================================================== *)
(** ** Further properties of the test suite *)
(* ================================================================== *)

Section SuiteRuns.
Import ReactTests.

(** Both files load, or the first loader that throws decides the run. *)
Lemma loaded_or_not (root : listing) :
  (exists rc index, loadReactComponent root = Ok rc /\ loadIndex root = Ok index)
  \/ (exists e, loadReactComponent root = Throw e
                \/ (exists rc, loadReactComponent root = Ok rc
                               /\ loadIndex root = Throw e)).
Proof.
  destruct (loadReactComponent root) as [rc|e] eqn:Hrc; [|right; eauto].
  destruct (loadIndex root) as [index|e] eqn:Hindex; [left; eauto|].
  right. exists e. right. eauto.
Qed.

(** X16.  The entry point writes the suite-failed line - the banner, that
    line and nothing else, status 1 - exactly when a loader throws, and the
    error on the line is the one of the loader that threw: the component is
    loaded first, the index only once the component is there.  No check runs
    in that case. *)
Theorem suite_load_failure (root : listing) (e : error) :
  main root = ([LogRunning; ErrSuiteFailed e], Exit 1%Z) <->
  loadReactComponent root = Throw e
  \/ (exists rc, loadReactComponent root = Ok rc /\ loadIndex root = Throw e).
Proof.
  split; [|apply main_not_loaded].
  destruct (loaded_or_not root) as [(rc & index & Hrc & Hindex)|(e' & H)].
  - rewrite (main_report _ _ _ Hrc Hindex). intros Hrun.
    apply (f_equal (fun run => length (fst run))) in Hrun.
    cbn [fst length] in Hrun. rewrite length_app, length_map in Hrun.
    discriminate Hrun.
  - rewrite (main_not_loaded _ _ H). intros [= <-]. exact H.
Qed.

(** X17.  The exit status of every run of the suite is 0 or 1, and it is 0
    exactly when both files load, the component has the whole shape
    [react_shape] and the [components] array of the index holds
    [react.json]. *)
Theorem suite_exit_status (root : listing) :
  (status (main root) = 0%Z \/ status (main root) = 1%Z)
  /\ (status (main root) = 0%Z <->
      exists rc index,
        loadReactComponent root = Ok rc
        /\ loadIndex root = Ok index
        /\ react_shape rc
        /\ lists (get_path index ["components"]) "react.json").
Proof.
  destruct (loaded_or_not root) as [(rc & index & Hrc & Hindex)|(e & H)].
  - rewrite (main_report _ _ _ Hrc Hindex). cbn [status snd].
    destruct (passed (tests rc index) =? 8)%nat eqn:E.
    + apply Nat.eqb_eq, passed_shape in E.
      split; [now left|]. split; [|reflexivity]. intros _.
      exists rc, index. tauto.
    + apply Nat.eqb_neq in E.
      split; [now right|]. split; [discriminate|].
      intros (rc' & index' & Hrc' & Hindex' & Hshape).
      rewrite Hrc in Hrc'. rewrite Hindex in Hindex'.
      injection Hrc' as <-. injection Hindex' as <-.
      apply passed_shape in Hshape. contradiction.
  - rewrite (main_not_loaded _ _ H). cbn [status snd].
    split; [now right|]. split; [discriminate|].
    intros (rc & index & Hrc & Hindex & _).
    destruct H as [H|(rc' & _ & H)]; congruence.
Qed.

(** X18.  On a component whose [integration] is missing or [null] the
    integration check fails at its first assertion with the text
    [integration field missing], while the canvas and the events check,
    which read below [integration] without asserting it first, fail on a
    [TypeError]; the suite then counts at most 5 of 8. *)
Theorem integration_absent (rc index : json) :
  rc <> JNull ->
  nullish (get_path rc ["integration"]) = true ->
  test_integration rc = Throw (Failure "integration field missing")
  /\ test_canvas rc = Throw TypeError
  /\ test_events rc = Throw TypeError
  /\ (passed (tests rc index) <= 5)%nat.
Proof.
  intros Hnull Habsent.
  assert (Hrc : nullish (get_path rc []) = false).
  { destruct rc; try reflexivity. congruence. }
  assert (H3 : test_integration rc = Throw (Failure "integration field missing")).
  { unfold test_integration. reads. rewrite Hrc. cbn [rbind].
    unfold assertExists at 1. rewrite Habsent. reflexivity. }
  assert (H7 : test_canvas rc = Throw TypeError).
  { unfold test_canvas. reads. rewrite Habsent. reflexivity. }
  assert (H8 : test_events rc = Throw TypeError).
  { unfold test_events. reads. rewrite Habsent. reflexivity. }
  repeat split; try assumption.
  unfold passed, tests. cbn [filter snd]. rewrite H3, H7, H8. cbn [passes].
  destruct (passes (test_metadata rc)); destruct (passes (test_ui rc));
    destruct (passes (test_template rc));
    destruct (passes (test_interactions rc));
    destruct (passes (test_index index)); cbn [length]; lia.
Qed.

Lemma nullish_root (rc rc' : json) :
  (rc = JNull <-> rc' = JNull) ->
  nullish (get_path rc []) = nullish (get_path rc' []).
Proof.
  intros [H1 H2]. destruct rc, rc'; try reflexivity;
    first [discriminate (H1 eq_refl) | discriminate (H2 eq_refl)].
Qed.

(** Two components that hold the same under one top-level field. *)
Ltac same_field H Hroot :=
  reads; rewrite ?(nullish_root _ _ Hroot); rewrite !H; reflexivity.

(** X19.  Every check on the component reads one top-level field: two
    components that hold the same below [metadata] get the same result from
    the metadata check, and likewise [ui], [template] and [interactions];
    the integration, canvas and events checks all read [integration]. *)
Theorem checks_local (rc rc' : json) :
  (rc = JNull <-> rc' = JNull) ->
  ((forall p, get_path rc ("metadata" :: p) = get_path rc' ("metadata" :: p)) ->
   test_metadata rc = test_metadata rc')
  /\ ((forall p, get_path rc ("ui" :: p) = get_path rc' ("ui" :: p)) ->
      test_ui rc = test_ui rc')
  /\ ((forall p, get_path rc ("integration" :: p)
                 = get_path rc' ("integration" :: p)) ->
      test_integration rc = test_integration rc'
      /\ test_canvas rc = test_canvas rc'
      /\ test_events rc = test_events rc')
  /\ ((forall p, get_path rc ("template" :: p) = get_path rc' ("template" :: p)) ->
      test_template rc = test_template rc')
  /\ ((forall p, get_path rc ("interactions" :: p)
                 = get_path rc' ("interactions" :: p)) ->
      test_interactions rc = test_interactions rc').
Proof.
  intros Hroot.
  split; [|split; [|split; [|split]]]; intros H.
  - unfold test_metadata. same_field H Hroot.
  - unfold test_ui. same_field H Hroot.
  - split; [|split].
    + unfold test_integration. same_field H Hroot.
    + unfold test_canvas. same_field H Hroot.
    + unfold test_events. same_field H Hroot.
  - unfold test_template. same_field H Hroot.
  - unfold test_interactions. same_field H Hroot.
Qed.

(** A field that holds something below it is an object, so truthy. *)
Lemma nested_truthy (d : json) (k k' : string) (p : list string) :
  nullish (get_path d (k :: k' :: p)) = false ->
  truthy (get_path d [k]) = true.
Proof.
  rewrite (get_path_cons d k (k' :: p)).
  destruct (get_path d [k]) as [[ | | | | |fields]|]; cbn; try discriminate.
  reflexivity.
Qed.

(** X20.  The two scripts agree on a component of the shape the suite
    asks for, but for one field: such a component has all the fields the
    validator requires exactly when its [ui.template], which the suite only
    asks to be there, is truthy. *)
Theorem shaped_component_complete (rc : json) :
  react_shape rc ->
  Validator.complete rc = truthy (get_path rc ["ui"; "template"]).
Proof.
  intros Hshape.
  pose proof (shape_type _ Hshape) as Htype.
  pose proof (shape_name _ Hshape) as Hname.
  pose proof (shape_ui_template _ Hshape) as Hui.
  pose proof (shape_mount _ Hshape) as Hmount.
  unfold present in Hui, Hmount.
  assert (Hmeta : nullish (get_path rc ["metadata"; "type"]) = false)
    by (rewrite Htype; reflexivity).
  unfold Validator.complete, Validator.required_fields. cbn [forallb].
  rewrite (nested_truthy rc "metadata" "type" [] Hmeta), Htype, Hname,
    (nested_truthy rc "ui" "template" [] Hui),
    (nested_truthy rc "integration" "events" ["mount"] Hmount).
  cbn. rewrite !andb_true_r. reflexivity.
Qed.

End SuiteRuns.
(** *** The properties above on components *)

Section SuiteFurtherRuns.
Import ReactTests.

Lemma integration_absent_witness :
  (sketch_component <> JNull
   /\ nullish (get_path sketch_component ["integration"]) = true)
  /\ test_integration sketch_component
     = Throw (Failure "integration field missing")
  /\ test_canvas sketch_component = Throw TypeError
  /\ test_events sketch_component = Throw TypeError
  /\ (passed (tests sketch_component react_index) <= 5)%nat.
Proof.
  assert (H1 : sketch_component <> JNull) by discriminate.
  assert (H2 : nullish (get_path sketch_component ["integration"]) = true)
    by reflexivity.
  split; [split; assumption|].
  exact (integration_absent sketch_component react_index H1 H2).
Defined.

Lemma checks_local_witness :
  (react_component = JNull
   <-> set_path react_component strategy_path (JStr "vue") = JNull)
  /\ test_metadata react_component
     = test_metadata (set_path react_component strategy_path (JStr "vue")).
Proof.
  assert (H : react_component = JNull
              <-> set_path react_component strategy_path (JStr "vue") = JNull)
    by (split; discriminate).
  split; [exact H|].
  apply (proj1 (checks_local react_component
                  (set_path react_component strategy_path (JStr "vue")) H)).
  intros p. symmetry. apply set_path_other. discriminate.
Defined.

Lemma shaped_component_complete_witness :
  react_shape react_component
  /\ Validator.complete react_component
     = truthy (get_path react_component ["ui"; "template"]).
Proof.
  split; [exact react_component_shape|].
  exact (shaped_component_complete react_component react_component_shape).
Defined.

End SuiteFurtherRuns.
